(** * mbs3: pruning of aged MongoDB backups kept in an S3 bucket

    A shallow embedding of [src/commands/prune.ts], [src/s3/s3-delete.ts]
    and [src/config.ts], and the properties of the pruning run.

    Conventions of the embedding.
    - A JavaScript string is a [string] holding its UTF-8 bytes.
    - A JavaScript [number] that the program only uses as an integer
      (retention days, counters, time values) is a [Z]; a time value that
      may be [NaN] is an [option Z], [None] standing for [NaN].
    - An [async] function is a computation over the [World]: the object
      store reached through [client.send], the console and the clock.
      A computation ends by returning, by throwing or by [process.exit]. *)

From Stdlib Require Import ZArith Lia List Bool Ascii String Sorted.
From stdpp Require Import base option list gmap strings pretty.

Import ListNotations.
Local Open Scope string_scope.
Local Open Scope list_scope.
Local Open Scope Z_scope.

(* ===================================================================== *)
(** ** JavaScript strings *)
(* ===================================================================== *)

Module JsString.

(** The line feed and the double quote, written by their codes. *)
Definition LF : string := String "010"%char EmptyString.
Definition DQUOTE : string := String "034"%char EmptyString.

(** [s.startsWith(p)] *)
Fixpoint startsWith (s p : string) : bool :=
  match p with
  | EmptyString => true
  | String c p' =>
      match s with
      | EmptyString => false
      | String d s' => if Ascii.eqb c d then startsWith s' p' else false
      end
  end.

(** [s.slice(n)] for [0 <= n] *)
Fixpoint slice_from (n : nat) (s : string) : string :=
  match n with
  | O => s
  | S n' => match s with
            | EmptyString => EmptyString
            | String _ s' => slice_from n' s'
            end
  end.

(** [s.slice(0, -1)] *)
Fixpoint drop_last (s : string) : string :=
  match s with
  | EmptyString => EmptyString
  | String c EmptyString => EmptyString
  | String c s' => String c (drop_last s')
  end.

(** [s.endsWith(p)] *)
Definition endsWith (s p : string) : bool :=
  (String.length p <=? String.length s)%nat &&
  String.eqb (slice_from (String.length s - String.length p) s) p.

(** [s.replace(pat, "")] with a string pattern: the first occurrence of
    [pat] is removed, and [s] is unchanged when there is none. *)
Fixpoint remove_first (pat s : string) : string :=
  if startsWith s pat then slice_from (String.length pat) s
  else match s with
       | EmptyString => EmptyString
       | String c s' => String c (remove_first pat s')
       end.

(** [s.split(sep)] for a separator of one character: the pieces of [s]
    between the separators, [[""]] for the empty string. *)
Fixpoint split (sep : ascii) (s : string) : list string :=
  match s with
  | EmptyString => [EmptyString]
  | String c s' =>
      if Ascii.eqb c sep then EmptyString :: split sep s'
      else match split sep s' with
           | [] => [String c EmptyString]
           | p :: ps => String c p :: ps
           end
  end.

(** Truthiness of a string: [Boolean(s)], [if (s)], [s || d]. *)
Definition truthy (s : string) : bool :=
  match s with EmptyString => false | _ => true end.

(** [s || d] *)
Definition or_else (s d : string) : string := if truthy s then s else d.

(** [o || d] for [o : string | undefined] *)
Definition opt_or (o : option string) (d : string) : string :=
  match o with Some s => or_else s d | None => d end.

(** [\d] of a regular expression without the [u] flag *)
Definition isDigit (c : ascii) : bool :=
  let n := nat_of_ascii c in (48 <=? n)%nat && (n <=? 57)%nat.

Definition digitVal (c : ascii) : Z := Z.of_nat (nat_of_ascii c) - 48.

(** The number written by a string of decimal digits. *)
Definition digitsVal (s : string) : Z :=
  fold_left (fun acc c => 10 * acc + digitVal c) (list_ascii_of_string s) 0.

(** [String(n).padStart(w, "0")] for [0 <= n] *)
Definition pad0 (w : nat) (n : Z) : string :=
  let s := pretty n in
  string_of_list_ascii (repeat "0"%char (w - String.length s)) +:+ s.

End JsString.

(* ===================================================================== *)
(** ** The [Date] object, after ECMA-262 section 21.4.1                  *)
(* ===================================================================== *)

Module JsDate.

Definition msPerDay : Z := 86400000.
Definition msPerHour : Z := 3600000.
Definition msPerMinute : Z := 60000.
Definition msPerSecond : Z := 1000.

Definition Day (t : Z) : Z := t / msPerDay.
Definition TimeWithinDay (t : Z) : Z := t mod msPerDay.

Definition isLeapYear (y : Z) : bool :=
  if negb (y mod 4 =? 0) then false
  else if negb (y mod 100 =? 0) then true
  else (y mod 400 =? 0).

Definition DaysInYear (y : Z) : Z := if isLeapYear y then 366 else 365.

Definition DayFromYear (y : Z) : Z :=
  365 * (y - 1970) + (y - 1969) / 4 - (y - 1901) / 100 + (y - 1601) / 400.

Definition TimeFromYear (y : Z) : Z := msPerDay * DayFromYear y.

(** The largest [y] with [TimeFromYear y <= t]: an estimate from the mean
    length of a year, moved by one where it is off. *)
Definition YearFromTime (t : Z) : Z :=
  let y := 1970 + (Day t * 400) / 146097 in
  if Day t <? DayFromYear y then y - 1
  else if DayFromYear (y + 1) <=? Day t then y + 1
  else y.

Definition InLeapYear (t : Z) : Z :=
  if isLeapYear (YearFromTime t) then 1 else 0.

Definition DayWithinYear (t : Z) : Z := Day t - DayFromYear (YearFromTime t).

(** The number of days of the year before month [m] (0 = January). *)
Definition daysBeforeMonth (m leap : Z) : Z :=
  match m with
  | 0 => 0
  | 1 => 31
  | 2 => 59 + leap
  | 3 => 90 + leap
  | 4 => 120 + leap
  | 5 => 151 + leap
  | 6 => 181 + leap
  | 7 => 212 + leap
  | 8 => 243 + leap
  | 9 => 273 + leap
  | 10 => 304 + leap
  | _ => 334 + leap
  end.

Definition MonthFromTime (t : Z) : Z :=
  let d := DayWithinYear t in
  let leap := InLeapYear t in
  if d <? 31 then 0
  else if d <? 59 + leap then 1
  else if d <? 90 + leap then 2
  else if d <? 120 + leap then 3
  else if d <? 151 + leap then 4
  else if d <? 181 + leap then 5
  else if d <? 212 + leap then 6
  else if d <? 243 + leap then 7
  else if d <? 273 + leap then 8
  else if d <? 304 + leap then 9
  else if d <? 334 + leap then 10
  else 11.

Definition DateFromTime (t : Z) : Z :=
  DayWithinYear t - daysBeforeMonth (MonthFromTime t) (InLeapYear t) + 1.

Definition HourFromTime (t : Z) : Z := (t / msPerHour) mod 24.
Definition MinFromTime (t : Z) : Z := (t / msPerMinute) mod 60.
Definition SecFromTime (t : Z) : Z := (t / msPerSecond) mod 60.
Definition msFromTime (t : Z) : Z := t mod msPerSecond.

Definition MakeTime (hour min sec ms : Z) : Z :=
  hour * msPerHour + min * msPerMinute + sec * msPerSecond + ms.

(** [MakeDay]: the day number of the first of month [month mod 12] of
    year [year + floor (month / 12)], moved by [date - 1] days. *)
Definition MakeDay (year month date : Z) : Z :=
  let ym := year + month / 12 in
  let mn := month mod 12 in
  DayFromYear ym + daysBeforeMonth mn (if isLeapYear ym then 1 else 0)
  + date - 1.

Definition MakeDate (day time : Z) : Z := day * msPerDay + time.

(** [TimeClip]: a time value farther than 8.64e15 ms from the epoch is
    [NaN]. *)
Definition TimeClip (t : Z) : option Z :=
  if 8640000000000000 <? Z.abs t then None else Some t.

(** A [Date] object is its time value. *)
Definition Date : Type := option Z.

(** [a < b] and [a >= b] on two [Date] objects: both are converted to
    their time values and a comparison with [NaN] is false. *)
Definition lt (a b : Date) : bool :=
  match a, b with Some x, Some y => x <? y | _, _ => false end.

Definition ge (a b : Date) : bool :=
  match a, b with Some x, Some y => y <=? x | _, _ => false end.

(** [d.getTime()] *)
Definition getTime (d : Date) : option Z := d.

(** [a - b] on two numbers that may be [NaN] *)
Definition sub (a b : option Z) : option Z :=
  match a, b with Some x, Some y => Some (x - y) | _, _ => None end.

(** [new Date(`${year}-${month}-${day}T${hour}:${minute}:${second}Z`)]
    where the six fields are strings of 4, 2, 2, 2, 2 and 2 digits:
    the string has the date-time format of ECMA-262 with the UTC offset
    [Z].  The month is 01 to 12, the day 01 to 31, the time 00:00:00 to
    23:59:59 or 24:00:00; any other field value makes the date invalid.
    A day beyond the end of its month runs into the next month. *)
Definition parseISO (year month day hour minute second : Z) : Date :=
  if (1 <=? month) && (month <=? 12) && (1 <=? day) && (day <=? 31)
     && (((hour <=? 23) && (minute <=? 59) && (second <=? 59))
         || ((hour =? 24) && (minute =? 0) && (second =? 0)))
  then TimeClip (MakeDate (MakeDay year (month - 1) day)
                          (MakeTime hour minute second 0))
  else None.

(** [d.toISOString()] of a valid time value; the caller raises
    [RangeError] on an invalid one. *)
Definition isoYear (y : Z) : string :=
  if (0 <=? y) && (y <=? 9999) then JsString.pad0 4 y
  else if y <? 0 then "-" +:+ JsString.pad0 6 (- y)
  else "+" +:+ JsString.pad0 6 y.

Definition toISOString (t : Z) : string :=
  isoYear (YearFromTime t) +:+ "-" +:+ JsString.pad0 2 (MonthFromTime t + 1)
  +:+ "-" +:+ JsString.pad0 2 (DateFromTime t)
  +:+ "T" +:+ JsString.pad0 2 (HourFromTime t)
  +:+ ":" +:+ JsString.pad0 2 (MinFromTime t)
  +:+ ":" +:+ JsString.pad0 2 (SecFromTime t)
  +:+ "." +:+ JsString.pad0 3 (msFromTime t) +:+ "Z".

(** The time zone of the host: [LocalTZA t isUTC] is the offset of local
    time from UTC, in ms, at the UTC instant [t] ([isUTC = true]) or at
    the local time [t] ([isUTC = false]). *)
Section LocalTime.
Variable LocalTZA : Z -> bool -> Z.

Definition LocalTime (t : Z) : Z := t + LocalTZA t true.
Definition UTC (t : Z) : Z := t - LocalTZA t false.

(** [d.getDate()] *)
Definition getDate (d : Date) : option Z :=
  match d with
  | Some t => Some (DateFromTime (LocalTime t))
  | None => None
  end.

(** [d.setDate(dt)]: the new time value of [d]. *)
Definition setDate (d : Date) (dt : option Z) : Date :=
  match d, dt with
  | Some t, Some dt =>
      let t := LocalTime t in
      let newDate :=
        MakeDate (MakeDay (YearFromTime t) (MonthFromTime t) dt)
                 (TimeWithinDay t) in
      TimeClip (UTC newDate)
  | _, _ => None
  end.
End LocalTime.

End JsDate.

(* ===================================================================== *)
(** ** [parseInt] and [encodeURIComponent]                               *)
(* ===================================================================== *)

Module JsGlobal.
Import JsString.
Local Open Scope nat_scope.

Definition bytes (l : list nat) : string :=
  string_of_list_ascii (map ascii_of_nat l).

(** The white space and line terminators that [parseInt] skips, in
    UTF-8: TAB, LF, VT, FF, CR, SP, U+00A0, U+1680, U+2000 to U+200A,
    U+2028, U+2029, U+202F, U+205F, U+3000 and U+FEFF. *)
Definition StrWhiteSpaceChar : list string :=
  map bytes
    ([[9]; [10]; [11]; [12]; [13]; [32]; [194; 160]; [225; 154; 128]]
     ++ map (fun n => [226; 128; n]) (seq 128 11)
     ++ [[226; 128; 168]; [226; 128; 169]; [226; 128; 175];
         [226; 129; 159]; [227; 128; 128]; [239; 187; 191]])%list.

Fixpoint trimStart_go (fuel : nat) (s : string) : string :=
  match fuel with
  | O => s
  | S fuel' =>
      match List.find (startsWith s) StrWhiteSpaceChar with
      | Some ws => trimStart_go fuel' (slice_from (String.length ws) s)
      | None => s
      end
  end.

(** Each step removes at least one byte, so the length is fuel enough. *)
Definition trimStart (s : string) : string :=
  trimStart_go (String.length s) s.

(** The longest prefix of decimal digits. *)
Fixpoint leadingDigits (s : string) : string :=
  match s with
  | String c s' => if isDigit c then String c (leadingDigits s') else ""
  | EmptyString => ""
  end.

(** [parseInt(s, 10)]: leading white space is skipped, a sign is read,
    and the longest run of decimal digits that follows is the number;
    [NaN] when there is no digit.  What follows the digits is ignored.
    The result is the integer that the digits write: this is the number
    that JavaScript returns up to 2^53 - 1 in absolute value; beyond it
    JavaScript rounds to the nearest double, and to [Infinity] for more
    than 308 digits, which a [Z] does not follow.  The sign of the result
    and whether it is [NaN] are those of JavaScript for every string; a
    statement about the value itself carries the bound. *)
Definition parseInt (s : string) : option Z :=
  let s := trimStart s in
  let '(sign, s) :=
    match s with
    | String "-"%char s' => ((-1)%Z, s')
    | String "+"%char s' => (1%Z, s')
    | _ => (1%Z, s)
    end in
  match leadingDigits s with
  | EmptyString => None
  | ds => Some (sign * digitsVal ds)%Z
  end.

Definition hexDigit (n : nat) : ascii :=
  ascii_of_nat (if n <? 10 then 48 + n else 55 + n).

(** The characters [encodeURIComponent] leaves as they are. *)
Definition uriUnreserved (c : ascii) : bool :=
  let n := nat_of_ascii c in
  ((65 <=? n) && (n <=? 90) || (97 <=? n) && (n <=? 122)
   || (48 <=? n) && (n <=? 57))
  || existsb (Ascii.eqb c) (list_ascii_of_string "-_.!~*'()").

(** [encodeURIComponent(s)]: every other byte of the UTF-8 form of [s]
    becomes [%XX]. *)
Fixpoint encodeURIComponent (s : string) : string :=
  match s with
  | EmptyString => EmptyString
  | String c s' =>
      (if uriUnreserved c then String c EmptyString
       else let n := nat_of_ascii c in
            String "%"%char
              (String (hexDigit (n / 16)) (String (hexDigit (n mod 16)) "")))
      +:+ encodeURIComponent s'
  end.
End JsGlobal.

(* ===================================================================== *)
(** ** The runtime: exceptions, the console, the S3 client               *)
(* ===================================================================== *)

(** What a [throw] carries.  [Error] is raised by the program itself,
    [RangeError] by [toISOString] on an invalid date, and
    [S3ServiceException] by [client.send]. *)
Inductive exn : Type :=
| Error (message : string)
| RangeError (message : string)
| S3ServiceException (message : string).

(** [error instanceof Error ? error.message : error], as the console
    prints it: all three are instances of [Error]. *)
Definition exn_message (e : exn) : string :=
  match e with
  | Error m | RangeError m | S3ServiceException m => m
  end.

Inductive Level : Type := LOG | WARN | ERROR.

(** [@aws-sdk/client-s3]: the client and the two commands of the program. *)
Record S3Client : Type := {
  client_region : string;
  client_accessKeyId : string;
  client_secretAccessKey : string;
  client_endpoint : option string
}.

Record ListObjectsV2Input : Type := {
  Bucket : string;
  Prefix : string;
  Delimiter : option string
}.

Record S3Object : Type := { Key : option string }.
Record CommonPrefix : Type := { cp_Prefix : option string }.

Record ListObjectsV2Output : Type := {
  Contents : option (list S3Object);
  CommonPrefixes : option (list CommonPrefix)
}.

Record ObjectIdentifier : Type := { oi_Key : string }.

Record DeleteObjectsInput : Type := {
  del_Bucket : string;
  del_Objects : list ObjectIdentifier;
  del_Quiet : bool
}.

Inductive Command : Type :=
| ListObjectsV2Command (input : ListObjectsV2Input)
| DeleteObjectsCommand (input : DeleteObjectsInput).

(** The object store behind [client.send], with a state of type [S]: each
    request answers or fails with the message of the exception that
    [client.send] throws, and leaves a new state. *)
Class S3Service (S : Type) : Type := {
  listObjectsV2 :
    S3Client -> ListObjectsV2Input -> S
    -> (string + ListObjectsV2Output) * S;
  deleteObjects :
    S3Client -> DeleteObjectsInput -> S -> (string + unit) * S
}.

(** The world a run acts on: the store, the requests sent to it so far,
    the lines printed so far, and the clock read by [new Date()]. *)
Record World (S : Type) : Type := mkWorld {
  store : S;
  sent : list Command;
  console : list (Level * string);
  clock : Z
}.
Arguments mkWorld {S}.
Arguments store {S}.
Arguments sent {S}.
Arguments console {S}.
Arguments clock {S}.

(** How a computation ends. *)
Inductive Outcome (A : Type) : Type :=
| Returned (a : A)
| Thrown (e : exn)
| Exited (code : Z).
Arguments Returned {A}.
Arguments Thrown {A}.
Arguments Exited {A}.

Definition M (S A : Type) : Type := World S -> Outcome A * World S.

Section Monad.
Context {S : Type}.

Definition ret {A} (a : A) : M S A := fun w => (Returned a, w).

Definition bind {A B} (m : M S A) (k : A -> M S B) : M S B :=
  fun w =>
    match m w with
    | (Returned a, w') => k a w'
    | (Thrown e, w') => (Thrown e, w')
    | (Exited c, w') => (Exited c, w')
    end.

(** [throw e] *)
Definition throw {A} (e : exn) : M S A := fun w => (Thrown e, w).

(** [process.exit(code)]: the process ends there; no [catch] sees it. *)
Definition process_exit {A} (code : Z) : M S A := fun w => (Exited code, w).

(** [try { m } catch (error) { h error }] *)
Definition try_catch {A} (m : M S A) (h : exn -> M S A) : M S A :=
  fun w =>
    match m w with
    | (Thrown e, w') => h e w'
    | r => r
    end.

(** A value or an exception of a call that has no other effect. *)
Definition lift {A} (r : exn + A) : M S A :=
  match r with inl e => throw e | inr a => ret a end.

Definition console_write (l : Level) (line : string) : M S unit :=
  fun w => (Returned tt,
            mkWorld (store w) (sent w) (console w ++ [(l, line)]) (clock w)).

Definition console_log := console_write LOG.
Definition console_warn := console_write WARN.
Definition console_error := console_write ERROR.

(** [new Date()] *)
Definition new_Date : M S JsDate.Date := fun w => (Returned (Some (clock w)), w).

(** [for (const x of l) body], threading the variables the body
    updates. *)
Fixpoint for_of {A St} (l : list A) (body : A -> St -> M S St) (st : St)
  : M S St :=
  match l with
  | [] => ret st
  | x :: l' => bind (body x st) (for_of l' body)
  end.
End Monad.

Declare Scope prog_scope.
Delimit Scope prog_scope with prog.
Notation "x <- m ;; k" := (bind m (fun x => k))
  (at level 100, m at next level, right associativity) : prog_scope.
Notation "m ;; k" := (bind m (fun _ => k))
  (at level 100, right associativity) : prog_scope.

Local Open Scope prog_scope.

(* ===================================================================== *)
(** ** Regular expressions of [s3-delete.ts] and [new Date(string)]      *)
(* ===================================================================== *)

Module Regex.
Import JsString.

(** [\d{n}] at the head of [s]: the digits matched and what follows. *)
Fixpoint digits (n : nat) (s : string) : option (string * string) :=
  match n with
  | O => Some (EmptyString, s)
  | S n' =>
      match s with
      | String c s' =>
          if isDigit c then
            '(d, r) ← digits n' s'; Some (String c d, r)
          else None
      | EmptyString => None
      end
  end.

(** A character class [[...]] or a literal character at the head of [s]. *)
Definition oneOf (class : string) (s : string) : option string :=
  match s with
  | String c s' =>
      if existsb (Ascii.eqb c) (list_ascii_of_string class) then Some s'
      else None
  | EmptyString => None
  end.

(** [/(\d{4})-(\d{2})-(\d{2})[-T](\d{2})[-:](\d{2})[-:](\d{2})/] at the
    head of [s]: the six groups. *)
Definition timestampAt (s : string)
  : option (string * string * string * string * string * string) :=
  '(year, s) ← digits 4 s; s ← oneOf "-" s;
  '(month, s) ← digits 2 s; s ← oneOf "-" s;
  '(day, s) ← digits 2 s; s ← oneOf "-T" s;
  '(hour, s) ← digits 2 s; s ← oneOf "-:" s;
  '(minute, s) ← digits 2 s; s ← oneOf "-:" s;
  '(second, _) ← digits 2 s;
  Some (year, month, day, hour, minute, second).

(** [/(\d{4})-(\d{2})-(\d{2})/] at the head of [s]: the three groups. *)
Definition dateAt (s : string) : option (string * string * string) :=
  '(year, s) ← digits 4 s; s ← oneOf "-" s;
  '(month, s) ← digits 2 s; s ← oneOf "-" s;
  '(day, _) ← digits 2 s;
  Some (year, month, day).

(** [s.match(re)] for a regular expression without the [g] flag: the
    groups of the match that starts first in [s], [null] when the
    expression matches nowhere. *)
Fixpoint String_match {G} (at_head : string -> option G) (s : string)
  : option G :=
  match at_head s with
  | Some g => Some g
  | None =>
      match s with
      | EmptyString => None
      | String _ s' => String_match at_head s'
      end
  end.
End Regex.

(** [new Date(s)] for the strings the program builds,
    [YYYY-MM-DDTHH:mm:ssZ]: the date-time format of ECMA-262 in UTC.  The
    other formats [Date] reads are not modelled (the program passes none)
    and give an invalid date here. *)
Definition new_Date_string (s : string) : JsDate.Date :=
  let fields :=
    '(year, s) ← Regex.digits 4 s; s ← Regex.oneOf "-" s;
    '(month, s) ← Regex.digits 2 s; s ← Regex.oneOf "-" s;
    '(day, s) ← Regex.digits 2 s; s ← Regex.oneOf "T" s;
    '(hour, s) ← Regex.digits 2 s; s ← Regex.oneOf ":" s;
    '(minute, s) ← Regex.digits 2 s; s ← Regex.oneOf ":" s;
    '(second, s) ← Regex.digits 2 s;
    if String.eqb s "Z" then Some (year, month, day, hour, minute, second)
    else None in
  match fields with
  | Some (year, month, day, hour, minute, second) =>
      JsDate.parseISO (JsString.digitsVal year) (JsString.digitsVal month)
        (JsString.digitsVal day) (JsString.digitsVal hour)
        (JsString.digitsVal minute) (JsString.digitsVal second)
  | None => None
  end.

(* ===================================================================== *)
(** ** [src/config.ts]                                                   *)
(* ===================================================================== *)

Record MongoConfig : Type := { uri : string; database : string }.

Record AwsConfig : Type := {
  accessKeyId : string;
  secretAccessKey : string;
  region : string;
  endpoint : option string
}.

Record S3Config : Type := { bucket : string; prefix : string }.

Record Config : Type := {
  mongodb : MongoConfig;
  aws : AwsConfig;
  s3 : S3Config;
  mongodumpPath : string
}.

Section Config.
(** [process.env], after [dotenv.config()]. *)
Variable process_env : gmap string string.

(** [process.env[key] || d] *)
Definition env_or (key d : string) : string :=
  JsString.opt_or (process_env !! key) d.

(** [process.env[key]] where the program tests it: set and not empty. *)
Definition env_truthy (key : string) : bool :=
  match process_env !! key with
  | Some v => JsString.truthy v
  | None => false
  end.

Definition getEnvOrThrow (key : string) : exn + string :=
  match process_env !! key with
  | Some value =>
      if JsString.truthy value then inr value
      else inl (Error ("Missing required environment variable: " +:+ key))
  | None => inl (Error ("Missing required environment variable: " +:+ key))
  end.

Definition buildMongoUri : string :=
  let host := env_or "MONGODB_HOST" "localhost:27017" in
  let host :=
    if JsString.endsWith host "/" then JsString.drop_last host else host in
  let srv := if env_truthy "MONGO_SRV" then "+srv" else "" in
  let auth :=
    if env_truthy "MONGO_INITDB_ROOT_USERNAME" then
      let username :=
        JsGlobal.encodeURIComponent (env_or "MONGO_INITDB_ROOT_USERNAME" "") in
      let password :=
        JsGlobal.encodeURIComponent (env_or "MONGO_INITDB_ROOT_PASSWORD" "") in
      username +:+ ":" +:+ password +:+ "@"
    else "" in
  let queryParams :=
    if env_truthy "MONGO_AUTH_SOURCE" then
      "authSource=" +:+ env_or "MONGO_AUTH_SOURCE" ""
    else "" in
  "mongodb" +:+ srv +:+ "://" +:+ auth +:+ host +:+ "/?" +:+ queryParams.

(** [loadConfig()] has no parameter: every field comes from the
    environment, the required ones in the order of the object literal. *)
Definition loadConfig : exn + Config :=
  let mongo_uri := buildMongoUri in
  match getEnvOrThrow "MONGODB_DATABASE" with
  | inl e => inl e
  | inr mongo_database =>
  match getEnvOrThrow "AWS_ACCESS_KEY_ID" with
  | inl e => inl e
  | inr aws_accessKeyId =>
  match getEnvOrThrow "AWS_SECRET_ACCESS_KEY" with
  | inl e => inl e
  | inr aws_secretAccessKey =>
  match getEnvOrThrow "S3_BUCKET" with
  | inl e => inl e
  | inr s3_bucket =>
      inr {| mongodb := {| uri := mongo_uri; database := mongo_database |};
             aws := {| accessKeyId := aws_accessKeyId;
                       secretAccessKey := aws_secretAccessKey;
                       region := env_or "AWS_REGION" "us-east-1";
                       endpoint :=
                         if env_truthy "AWS_ENDPOINT"
                         then process_env !! "AWS_ENDPOINT" else None |};
             s3 := {| bucket := s3_bucket;
                      prefix := env_or "S3_PREFIX" "backups/mongodb" |};
             mongodumpPath := env_or "MONGODUMP_PATH" "mongodump" |}
  end end end end.
End Config.

(* ===================================================================== *)
(** ** Arrays                                                            *)
(* ===================================================================== *)

Module JsArray.
(** [a.slice(i, j)] for [0 <= i <= j] *)
Definition slice {A} (a : list A) (i j : nat) : list A :=
  take (j - i) (drop i a).

(** [a.sort(comparefn)]: the sort is stable, and a comparison that gives
    [NaN] counts as [+0].  With a consistent comparison function, as the
    lister's is when every date is valid, the result is the one list that
    is in order and keeps equal elements as they came: stable insertion
    from the left gives it.  With a comparison function that is not
    consistent (an invalid date among the backups) ECMA-262 leaves the
    order to the engine, and the order that the insertion gives here need
    not be the engine's: only the elements are the same.  A statement
    about the order carries the hypothesis that the dates are valid. *)
Section Sort.
Context {A : Type} (comparefn : A -> A -> option Z).

Definition before (x y : A) : bool :=
  match comparefn x y with Some v => v <? 0 | None => false end.

Fixpoint insert_sorted (x : A) (l : list A) : list A :=
  match l with
  | [] => [x]
  | y :: l' => if before x y then x :: y :: l' else y :: insert_sorted x l'
  end.

Definition sort (a : list A) : list A :=
  fold_left (fun acc x => insert_sorted x acc) a [].
End Sort.
End JsArray.

(* ===================================================================== *)
(** ** [src/s3/s3-delete.ts]                                             *)
(* ===================================================================== *)

Record BackupWithDate : Type := { name : string; date : JsDate.Date }.

Record DeleteResult : Type := { backupName : string; deletedFiles : nat }.

Definition createS3Client (config : Config) : S3Client :=
  {| client_region := region (aws config);
     client_accessKeyId := accessKeyId (aws config);
     client_secretAccessKey := secretAccessKey (aws config);
     client_endpoint :=
       match endpoint (aws config) with
       | Some e => if JsString.truthy e then Some e else None
       | None => None
       end |}.

(** The date in a backup name, [null] when the name carries none. *)
Definition extractDateFromBackupName (backupName : string)
  : option JsDate.Date :=
  match Regex.String_match Regex.timestampAt backupName with
  | Some (year, month, day, hour, minute, second) =>
      Some (new_Date_string
              (year +:+ "-" +:+ month +:+ "-" +:+ day +:+ "T" +:+ hour
               +:+ ":" +:+ minute +:+ ":" +:+ second +:+ "Z"))
  | None =>
      match Regex.String_match Regex.dateAt backupName with
      | Some (year, month, day) =>
          Some (new_Date_string
                  (year +:+ "-" +:+ month +:+ "-" +:+ day +:+ "T00:00:00Z"))
      | None => None
      end
  end.

(** The prefix under which the backups are listed: it ends with [/]. *)
Definition listing_prefix (config : Config) : string :=
  if JsString.endsWith (prefix (s3 config)) "/" then prefix (s3 config)
  else prefix (s3 config) +:+ "/".

(** The folder name of a common prefix [p] returned by the listing. *)
Definition folder_name (listing : string) (p : string) : string :=
  let parts :=
    List.filter JsString.truthy
      (JsString.split "/"%char (JsString.remove_first listing p)) in
  match parts with
  | part :: _ => JsString.or_else part ""
  | [] => ""
  end.

Definition batchSize : nat := 1000.

Section S3Delete.
Context {S : Type} `{S3Service S}.

(** [client.send(command)] *)
Definition send_list (client : S3Client) (input : ListObjectsV2Input)
  : M S ListObjectsV2Output :=
  fun w =>
    let '(r, s') := listObjectsV2 client input (store w) in
    let w' := mkWorld s' (sent w ++ [ListObjectsV2Command input])
                      (console w) (clock w) in
    match r with
    | inl message => (Thrown (S3ServiceException message), w')
    | inr out => (Returned out, w')
    end.

Definition send_delete (client : S3Client) (input : DeleteObjectsInput)
  : M S unit :=
  fun w =>
    let '(r, s') := deleteObjects client input (store w) in
    let w' := mkWorld s' (sent w ++ [DeleteObjectsCommand input])
                      (console w) (clock w) in
    match r with
    | inl message => (Thrown (S3ServiceException message), w')
    | inr out => (Returned out, w')
    end.

(** The body of the loop of [listBackupsWithDates] over the common
    prefixes. *)
Definition collect_backup (listing : string) (p : string)
    (backups : list BackupWithDate) : M S (list BackupWithDate) :=
  let name := folder_name listing p in
  if negb (JsString.truthy name) then ret backups
  else
    match extractDateFromBackupName name with
    | Some date => ret (backups ++ [{| name := name; date := date |}])%list
    | None =>
        console_warn ("   ⚠️  Could not parse date from backup name: "
                      +:+ name) ;;
        ret backups
    end.

Definition listBackupsWithDates (config : Config)
  : M S (list BackupWithDate) :=
  let client := createS3Client config in
  let prefix := listing_prefix config in
  console_log ("📋 Listing backups in s3://" +:+ bucket (s3 config)
               +:+ "/" +:+ prefix) ;;
  response <- send_list client
    {| Bucket := bucket (s3 config); Prefix := prefix;
       Delimiter := Some "/" |} ;;
  let prefixes :=
    match CommonPrefixes response with
    | Some ps => map (fun p => JsString.opt_or (cp_Prefix p) "") ps
    | None => []
    end in
  backups <- for_of prefixes (collect_backup prefix) [] ;;
  ret (JsArray.sort
         (fun a b => JsDate.sub (JsDate.getTime (date b))
                                (JsDate.getTime (date a)))
         backups).

(** [objects.filter((obj) => obj.Key).map((obj) => ({ Key: obj.Key! }))] *)
Definition objectsToDelete (objects : list S3Object)
  : list ObjectIdentifier :=
  omap (fun obj =>
          match Key obj with
          | Some k => if JsString.truthy k then Some {| oi_Key := k |}
                      else None
          | None => None
          end) objects.

(** The loop [for (let i = 0; i < objectsToDelete.length; i += batchSize)].
    [fuel] bounds the number of passes; [i] grows by [batchSize] at each
    pass, so the length of the array is enough. *)
Fixpoint delete_batches (fuel : nat) (client : S3Client) (config : Config)
    (objectsToDelete : list ObjectIdentifier) (i : nat) (totalDeleted : nat)
  : M S nat :=
  if (i <? length objectsToDelete)%nat then
    match fuel with
    | O => ret totalDeleted
    | Datatypes.S fuel' =>
        let batch := JsArray.slice objectsToDelete i (i + batchSize) in
        send_delete client
          {| del_Bucket := bucket (s3 config); del_Objects := batch;
             del_Quiet := true |} ;;
        delete_batches fuel' client config objectsToDelete
          (i + batchSize) (totalDeleted + length batch)
    end
  else ret totalDeleted.

Definition deleteBackup (config : Config) (backupName : string)
  : M S DeleteResult :=
  let client := createS3Client config in
  let s3Prefix := prefix (s3 config) +:+ "/" +:+ backupName in
  listResponse <- send_list client
    {| Bucket := bucket (s3 config); Prefix := s3Prefix;
       Delimiter := None |} ;;
  let objects := default [] (Contents listResponse) in
  if (length objects =? 0)%nat then
    throw (Error ("No backup found at s3://" +:+ bucket (s3 config)
                  +:+ "/" +:+ s3Prefix))
  else
    let objectsToDelete := objectsToDelete objects in
    if (length objectsToDelete =? 0)%nat then
      ret {| backupName := backupName; deletedFiles := 0 |}
    else
      totalDeleted <- delete_batches (length objectsToDelete) client config
                        objectsToDelete 0 0 ;;
      ret {| backupName := backupName; deletedFiles := totalDeleted |}.
End S3Delete.

(* ===================================================================== *)
(** ** [src/commands/prune.ts]                                           *)
(* ===================================================================== *)

Definition DEFAULT_PRUNE_DAYS : Z := 14.

Record PruneOptions : Type := {
  options_bucket : option string;
  options_prefix : option string;
  options_days : option Z;
  options_dryRun : option bool
}.

(** [backups.filter((b) => b.date < cutoffDate)] and
    [backups.filter((b) => b.date >= cutoffDate)] *)
Definition backupsToDelete (cutoffDate : JsDate.Date)
    (backups : list BackupWithDate) : list BackupWithDate :=
  List.filter (fun b => JsDate.lt (date b) cutoffDate) backups.

Definition backupsToKeep (cutoffDate : JsDate.Date)
    (backups : list BackupWithDate) : list BackupWithDate :=
  List.filter (fun b => JsDate.ge (date b) cutoffDate) backups.

Section Prune.
Context {S : Type} `{S3Service S}.
Variable process_env : gmap string string.
Variable LocalTZA : Z -> bool -> Z.

Definition warn_invalid_days (envDays : string) : M S unit :=
  console_warn
    ("⚠️  Invalid PRUNE_DAYS value " +:+ JsString.DQUOTE +:+ envDays
     +:+ JsString.DQUOTE +:+ ", using default "
     +:+ pretty DEFAULT_PRUNE_DAYS +:+ " days").

Definition getPruneDays (optionDays : option Z) : M S Z :=
  match optionDays with
  | Some optionDays => ret optionDays
  | None =>
      match process_env !! "PRUNE_DAYS" with
      | Some envDays =>
          if JsString.truthy envDays then
            match JsGlobal.parseInt envDays with
            | Some parsed =>
                if 0 <? parsed then ret parsed
                else warn_invalid_days envDays ;; ret DEFAULT_PRUNE_DAYS
            | None => warn_invalid_days envDays ;; ret DEFAULT_PRUNE_DAYS
            end
          else ret DEFAULT_PRUNE_DAYS
      | None => ret DEFAULT_PRUNE_DAYS
      end
  end.

(** [d.toISOString()] *)
Definition Date_toISOString (d : JsDate.Date) : M S string :=
  match d with
  | Some t => ret (JsDate.toISOString t)
  | None => throw (RangeError "Invalid time value")
  end.

(** [cutoffDate.setDate(cutoffDate.getDate() - pruneDays)] on
    [cutoffDate = new Date()] *)
Definition cutoff (now : JsDate.Date) (pruneDays : Z) : JsDate.Date :=
  JsDate.setDate LocalTZA now
    (JsDate.sub (JsDate.getDate LocalTZA now) (Some pruneDays)).

(** The body of the loop over [backupsToDelete]: the counters are
    [(deletedCount, errorCount)]. *)
Definition delete_one (config : Config) (backup : BackupWithDate)
    (counts : nat * nat) : M S (nat * nat) :=
  let '(deletedCount, errorCount) := counts in
  try_catch
    (result <- deleteBackup config (name backup) ;;
     console_log ("   🗑️  Deleted: " +:+ name backup +:+ " ("
                  +:+ pretty (deletedFiles result) +:+ " files)") ;;
     ret (Datatypes.S deletedCount, errorCount))
    (fun error =>
       console_error ("   ❌ Failed to delete " +:+ name backup +:+ ":"
                      +:+ " " +:+ exn_message error) ;;
       ret (deletedCount, Datatypes.S errorCount)).

(** The deletion phase of [runPrune]: the loop over [backupsToDelete],
    the summary and the exit status. *)
Definition delete_phase (config : Config)
    (backupsToDelete : list BackupWithDate) : M S unit :=
  counts <- for_of backupsToDelete (delete_one config) (O, O) ;;
  let '(deletedCount, errorCount) := counts in
  console_log "" ;;
  console_log "✅ Prune complete!" ;;
  console_log ("   Deleted: " +:+ pretty deletedCount +:+ " backup(s)") ;;
  (if (0 <? errorCount)%nat then
     console_log ("   Errors: " +:+ pretty errorCount)
   else ret tt) ;;
  process_exit (if (0 <? errorCount)%nat then 1 else 0).

(** The [try] block of [runPrune]. *)
Definition runPrune_try (options : PruneOptions) (cutoffDate : JsDate.Date)
  : M S unit :=
  (* loadConfig({ bucket: options.bucket, prefix: options.prefix }):
     loadConfig declares no parameter, the argument is dropped *)
  config <- lift (loadConfig process_env) ;;
  backups <- listBackupsWithDates config ;;
  (if (length backups =? 0)%nat then
     console_log "No backups found." ;; process_exit 0
   else ret tt) ;;
  let backupsToDelete := backupsToDelete cutoffDate backups in
  let backupsToKeep := backupsToKeep cutoffDate backups in
  console_log ("Found " +:+ pretty (length backups) +:+ " backup(s):") ;;
  console_log ("   ✅ Keeping: " +:+ pretty (length backupsToKeep)) ;;
  console_log ("   🗑️  To delete: " +:+ pretty (length backupsToDelete)
               +:+ JsString.LF) ;;
  (if (length backupsToDelete =? 0)%nat then
     console_log "No backups to prune." ;; process_exit 0
   else ret tt) ;;
  console_log "Backups to be deleted:" ;;
  for_of backupsToDelete
    (fun b (_ : unit) =>
       iso <- Date_toISOString (date b) ;;
       console_log ("   - " +:+ name b +:+ " (" +:+ iso +:+ ")"))
    tt ;;
  console_log "" ;;
  (if bool_decide (options_dryRun options = Some true) then
     console_log "✅ Dry run complete. No files were deleted." ;;
     process_exit 0
   else ret tt) ;;
  delete_phase config backupsToDelete.

Definition runPrune (options : PruneOptions) : M S unit :=
  pruneDays <- getPruneDays (options_days options) ;;
  now <- new_Date ;;
  let cutoffDate := cutoff now pruneDays in
  console_log ("🧹 MongoDB Backups - Pruning backups older than "
               +:+ pretty pruneDays +:+ " days" +:+ JsString.LF) ;;
  iso <- Date_toISOString cutoffDate ;;
  console_log ("   Cutoff date: " +:+ iso +:+ JsString.LF) ;;
  (if bool_decide (options_dryRun options = Some true) then
     console_log ("   🔍 DRY RUN - No files will be deleted" +:+ JsString.LF)
   else ret tt) ;;
  try_catch (runPrune_try options cutoffDate)
    (fun error =>
       console_error (JsString.LF +:+ "❌ Failed to prune backups:" +:+ " "
                      +:+ exn_message error) ;;
       process_exit 1).
End Prune.

(* ===================================================================== *)
(** ** An object store in memory                                         *)
(* ===================================================================== *)

(** A store with one bucket, after the S3 API: a listing returns the keys
    that start with the requested prefix, at most [maxKeys] of them (1000
    at S3), grouped by the delimiter when one is given; a deletion request
    removes the keys it names and is refused beyond 1000 keys.  [faults]
    plans the requests that fail: each request takes the head of the list
    and throws when it is [true]. *)
Module MemS3.
Record state : Type := {
  bucketName : string;
  keys : list string;
  maxKeys : nat;
  faults : list bool
}.

Definition next_fault (s : state) : bool * state :=
  match faults s with
  | [] => (false, s)
  | f :: fs => (f, {| bucketName := bucketName s; keys := keys s;
                      maxKeys := maxKeys s; faults := fs |})
  end.

(** The common prefix of a key under a listing: the listing prefix and
    what follows it up to the first delimiter, when there is one. *)
Fixpoint upto (delim : ascii) (rest : string) : option string :=
  match rest with
  | EmptyString => None
  | String c rest' =>
      if Ascii.eqb c delim then Some (String c EmptyString)
      else r ← upto delim rest'; Some (String c r)
  end.

Definition common_prefix (pfx : string) (delim : option string)
    (key : string) : option string :=
  match delim with
  | Some (String d EmptyString) =>
      r ← upto d (JsString.slice_from (String.length pfx) key);
      Some (pfx +:+ r)
  | _ => None
  end.

Fixpoint dedup (l : list string) : list string :=
  match l with
  | [] => []
  | x :: l' => x :: List.filter (fun y => negb (String.eqb x y)) (dedup l')
  end.

Definition some_if_nonempty {A} (l : list A) : option (list A) :=
  match l with [] => None | _ => Some l end.

Definition list_objects (client : S3Client) (input : ListObjectsV2Input)
    (s : state) : (string + ListObjectsV2Output) * state :=
  let '(fault, s) := next_fault s in
  if fault then (inl "InternalError", s)
  else if negb (String.eqb (Bucket input) (bucketName s)) then
    (inl "NoSuchBucket", s)
  else
    let matching :=
      take (maxKeys s)
        (List.filter (fun k => JsString.startsWith k (Prefix input))
                     (keys s)) in
    let grouped k := common_prefix (Prefix input) (Delimiter input) k in
    let contents :=
      List.filter (fun k => negb (bool_decide (is_Some (grouped k))))
                  matching in
    let prefixes := dedup (omap grouped matching) in
    (inr {| Contents :=
              some_if_nonempty (map (fun k => {| Key := Some k |}) contents);
            CommonPrefixes :=
              some_if_nonempty
                (map (fun p => {| cp_Prefix := Some p |}) prefixes) |},
     s).

Definition delete_objects (client : S3Client) (input : DeleteObjectsInput)
    (s : state) : (string + unit) * state :=
  let '(fault, s) := next_fault s in
  if fault then (inl "InternalError", s)
  else if negb (String.eqb (del_Bucket input) (bucketName s)) then
    (inl "NoSuchBucket", s)
  else if (1000 <? length (del_Objects input))%nat then
    (inl "MalformedXML", s)
  else
    (inr tt,
     {| bucketName := bucketName s;
        keys := List.filter
                  (fun k => negb (existsb (fun o => String.eqb (oi_Key o) k)
                                          (del_Objects input)))
                  (keys s);
        maxKeys := maxKeys s;
        faults := faults s |}).

#[global] Instance service : S3Service state :=
  {| listObjectsV2 := list_objects; deleteObjects := delete_objects |}.

Definition world (s : state) (now : Z) : World state :=
  mkWorld s [] [] now.

(** A store that answers: no planned fault, and the bucket of the
    configuration. *)
Definition answers (config : Config) (s : state) : Prop :=
  faults s = [] /\ bucketName s = bucket (s3 config).

(** The keys of the store under a prefix, and the store without the keys
    of a deletion request. *)
Definition matching (pfx : string) (s : state) : list string :=
  List.filter (fun k => JsString.startsWith k pfx) (keys s).

Definition without (ks : list ObjectIdentifier) (s : state) : state :=
  {| bucketName := bucketName s;
     keys := List.filter
               (fun k => negb (existsb (fun o => String.eqb (oi_Key o) k) ks))
               (keys s);
     maxKeys := maxKeys s; faults := faults s |}.

End MemS3.

(* ===================================================================== *)
(** ** What the lister returns, as a function of the listing             *)
(* ===================================================================== *)

(** The backups that [listBackupsWithDates] returns for a response. *)
Definition response_prefixes (response : ListObjectsV2Output) : list string :=
  match CommonPrefixes response with
  | Some ps => map (fun p => JsString.opt_or (cp_Prefix p) "") ps
  | None => []
  end.

Definition collected (listing : string) (prefixes : list string)
  : list BackupWithDate :=
  omap (fun p =>
          let name := folder_name listing p in
          if JsString.truthy name then
            date ← extractDateFromBackupName name;
            Some {| name := name; date := date |}
          else None) prefixes.

Definition by_date_desc (a b : BackupWithDate) : option Z :=
  JsDate.sub (JsDate.getTime (date b)) (JsDate.getTime (date a)).

Definition listed_backups (config : Config) (response : ListObjectsV2Output)
  : list BackupWithDate :=
  JsArray.sort by_date_desc
    (collected (listing_prefix config) (response_prefixes response)).

Definition listing_request (config : Config) : ListObjectsV2Input :=
  {| Bucket := bucket (s3 config); Prefix := listing_prefix config;
     Delimiter := Some "/" |}.


(* ===================================================================== *)
(** ** The naming convention of backups, as the specification words it   *)
(* ===================================================================== *)

Module NameFormat.
(** [s] is made of exactly [n] decimal digits. *)
Definition is_digits (n : nat) (s : string) : Prop :=
  String.length s = n /\
  Forall (fun c => JsString.isDigit c = true) (list_ascii_of_string s).

(** [s] starts with [YYYY-MM-DD], one of [-] and [T], [HH], one of [-]
    and [:], [mm], one of [-] and [:], and [ss]. *)
Definition TimestampAt (s year month day hour minute second : string)
  : Prop :=
  exists c1 c2 c3 rest,
    is_digits 4 year /\ is_digits 2 month /\ is_digits 2 day /\
    is_digits 2 hour /\ is_digits 2 minute /\ is_digits 2 second /\
    (c1 = "-"%char \/ c1 = "T"%char) /\ (c2 = "-"%char \/ c2 = ":"%char) /\
    (c3 = "-"%char \/ c3 = ":"%char) /\
    s = year +:+ "-" +:+ month +:+ "-" +:+ day +:+ String c1 hour
        +:+ String c2 minute +:+ String c3 second +:+ rest.

(** [s] starts with [YYYY-MM-DD]. *)
Definition DateAt (s year month day : string) : Prop :=
  exists rest,
    is_digits 4 year /\ is_digits 2 month /\ is_digits 2 day /\
    s = year +:+ "-" +:+ month +:+ "-" +:+ day +:+ rest.

Definition has_timestamp (s : string) : Prop :=
  exists year month day hour minute second,
    TimestampAt s year month day hour minute second.

Definition has_date (s : string) : Prop :=
  exists year month day, DateAt s year month day.

(** [name] is [before +:+ s] and no suffix of [name] that starts earlier
    satisfies [P]: [s] is where [P] holds first in [name]. *)
Definition first_at (P : string -> Prop) (name before s : string) : Prop :=
  name = before +:+ s /\
  forall before' s',
    name = before' +:+ s' ->
    (String.length before' < String.length before)%nat -> ~ P s'.

(** [P] holds nowhere in [name]. *)
Definition nowhere (P : string -> Prop) (name : string) : Prop :=
  forall before s, name = before +:+ s -> ~ P s.

(** [P] holds somewhere in [name]. *)
Definition somewhere (P : string -> Prop) (name : string) : Prop :=
  exists before s, name = before +:+ s /\ P s.

(** The instant that six fields denote when they are read as a UTC date
    and time; invalid when a field is out of its range. *)
Definition utc (year month day hour minute second : string) : JsDate.Date :=
  JsDate.parseISO (JsString.digitsVal year) (JsString.digitsVal month)
    (JsString.digitsVal day) (JsString.digitsVal hour)
    (JsString.digitsVal minute) (JsString.digitsVal second).
End NameFormat.

(** Deletion in batches, as the specification words it: [Batches l bs]
    when [bs] cuts [l] in groups of [batchSize] keys, the last one
    holding what is left. *)
Inductive Batches {A : Type} : list A -> list (list A) -> Prop :=
| Batches_nil : Batches [] []
| Batches_cons l bs :
    l <> [] -> Batches (drop batchSize l) bs ->
    Batches l (take batchSize l :: bs).

(* ===================================================================== *)
(** ** The pruning run, as the specification words it                    *)
(* ===================================================================== *)

(** A variable of the environment is present with a value when it is set
    to a string that is not empty: the test that the program applies to
    [process.env], in [getEnvOrThrow] and in [getPruneDays]. *)
Definition present (process_env : gmap string string) (key value : string)
  : Prop :=
  process_env !! key = Some value /\ JsString.truthy value = true.

(** Retention days: the explicit parameter wins; else the value of
    [PRUNE_DAYS] when it is present and parses as a positive integer; else
    the default. *)
Definition resolved_days (process_env : gmap string string)
    (optionDays : option Z) : Z :=
  match optionDays with
  | Some explicit => explicit
  | None =>
      match process_env !! "PRUNE_DAYS" with
      | Some value =>
          match JsGlobal.parseInt value with
          | Some n => if 0 <? n then n else DEFAULT_PRUNE_DAYS
          | None => DEFAULT_PRUNE_DAYS
          end
      | None => DEFAULT_PRUNE_DAYS
      end
  end.

(** The world after one more line on the console. *)
Definition printed {S : Type} (w : World S) (l : Level) (line : string)
  : World S :=
  mkWorld (store w) (sent w) (console w ++ [(l, line)]) (clock w).

(** Two worlds that differ by what was printed only. *)
Definition same_store {S : Type} (w w' : World S) : Prop :=
  store w' = store w /\ sent w' = sent w /\ clock w' = clock w.

(** The request by which [deleteBackup] lists a backup, and what the
    listing yields: the objects of the response, none when the response
    has no [Contents]; nothing when the request fails. *)
Definition backup_listing (config : Config) (backupName : string)
  : ListObjectsV2Input :=
  {| Bucket := bucket (s3 config);
     Prefix := prefix (s3 config) +:+ "/" +:+ backupName;
     Delimiter := None |}.

Definition listed_objects {S : Type} `{S3Service S} (config : Config)
    (backupName : string) (w : World S) : option (list S3Object) :=
  match fst (listObjectsV2 (createS3Client config)
               (backup_listing config backupName) (store w)) with
  | inr response => Some (default [] (Contents response))
  | inl _ => None
  end.

(** The deletion request for one batch of keys. *)
Definition batch_request (config : Config) (batch : list ObjectIdentifier)
  : Command :=
  DeleteObjectsCommand
    {| del_Bucket := bucket (s3 config); del_Objects := batch;
       del_Quiet := true |}.

(** An object of a listing carries a key, as the objects of S3 do. *)
Definition has_key (obj : S3Object) : Prop :=
  exists k, Key obj = Some k /\ k <> "".

(** The deletion phase: every backup of the list is attempted in turn,
    from the world that the previous attempt left, whatever the outcome of
    that attempt.  [Attempts config w backups oks w'] gives, for each
    backup, whether its deletion succeeded. *)
Inductive Attempts {S : Type} `{S3Service S} (config : Config)
  : World S -> list BackupWithDate -> list bool -> World S -> Prop :=
| Attempts_nil w : Attempts config w [] [] w
| Attempts_deleted w b bs result w1 oks w' :
    deleteBackup config (name b) w = (Returned result, w1) ->
    Attempts config
      (printed w1 LOG ("   🗑️  Deleted: " +:+ name b +:+ " ("
                       +:+ pretty (deletedFiles result) +:+ " files)"))
      bs oks w' ->
    Attempts config w (b :: bs) (true :: oks) w'
| Attempts_failed w b bs error w1 oks w' :
    deleteBackup config (name b) w = (Thrown error, w1) ->
    Attempts config
      (printed w1 ERROR ("   ❌ Failed to delete " +:+ name b +:+ ":" +:+ " "
                         +:+ exn_message error))
      bs oks w' ->
    Attempts config w (b :: bs) (false :: oks) w'.

(** The line that reports a backup scheduled for deletion. *)
Definition report_line (b : BackupWithDate) : Level * string :=
  (LOG, "   - " +:+ name b +:+ " ("
        +:+ match date b with
            | Some t => JsDate.toISOString t
            | None => ""
            end +:+ ")").

(* ===================================================================== *)
(** ** Names and order of the listed backups                             *)
(* ===================================================================== *)

(** [a] is dated at or after [b]: where [a] stands before [b] in a list
    that is sorted by date, most recent first. *)
Definition not_older (a b : BackupWithDate) : Prop :=
  JsDate.ge (date a) (date b) = true.

(** [b] is dated at the instant [t]. *)
Definition dated_at (t : Z) (b : BackupWithDate) : bool :=
  match date b with Some x => x =? t | None => false end.

(** The deletion requests of a backup, as the store answers them.
    [BatchRun client config s batches done failure s'] when, from the store
    [s], the requests for the batches of [done] have been sent in turn,
    [done] being the first of [batches]: either every request succeeded,
    then [done] is [batches] and [failure] is [None]; or the last request of
    [done] is the first that failed, with the message [failure], and no
    batch after it was sent.  [s'] is the store that the requests leave. *)
Inductive BatchRun {S : Type} `{S3Service S} (client : S3Client)
    (config : Config)
  : S -> list (list ObjectIdentifier) -> list (list ObjectIdentifier)
    -> option string -> S -> Prop :=
| BatchRun_end s : BatchRun client config s [] [] None s
| BatchRun_sent s batch batches s1 done failure s' :
    deleteObjects client
      {| del_Bucket := bucket (s3 config); del_Objects := batch;
         del_Quiet := true |} s = (inr tt, s1) ->
    BatchRun client config s1 batches done failure s' ->
    BatchRun client config s (batch :: batches) (batch :: done) failure s'
| BatchRun_failed s batch batches message s1 :
    deleteObjects client
      {| del_Bucket := bucket (s3 config); del_Objects := batch;
         del_Quiet := true |} s = (inl message, s1) ->
    BatchRun client config s (batch :: batches) [batch] (Some message) s1.

(** The folder names of a listing that are not empty and carry no date:
    those for which the lister prints a warning. *)
Definition undated (listing : string) (prefixes : list string) : list string :=
  omap (fun p =>
          let name := folder_name listing p in
          if JsString.truthy name then
            match extractDateFromBackupName name with
            | Some _ => None
            | None => Some name
            end
          else None) prefixes.

(** [s] holds no [/], as the name of a folder. *)
Definition no_slash (s : string) : Prop :=
  ~ In "/"%char (list_ascii_of_string s).

(** [s] holds no decimal digit. *)
Definition no_digit (s : string) : Prop :=
  Forall (fun c => JsString.isDigit c = false) (list_ascii_of_string s).

(* ===================================================================== *)
(** ** A bucket and an environment to run the program on                 *)
(* ===================================================================== *)

Module Demo.
Definition env : gmap string string :=
  list_to_map
    [("MONGODB_DATABASE", "shop"); ("AWS_ACCESS_KEY_ID", "AKIAEXAMPLE");
     ("AWS_SECRET_ACCESS_KEY", "secret"); ("S3_BUCKET", "env-bucket")].

Definition config : Config :=
  {| mongodb := {| uri := "mongodb://localhost:27017/?"; database := "shop" |};
     aws := {| accessKeyId := "AKIAEXAMPLE"; secretAccessKey := "secret";
               region := "us-east-1"; endpoint := None |};
     s3 := {| bucket := "env-bucket"; prefix := "backups/mongodb" |};
     mongodumpPath := "mongodump" |}.

(** The host runs in UTC. *)
Definition utc_zone : Z -> bool -> Z := fun _ _ => 0.

(** 2024-03-10T12:00:00Z *)
Definition now : Z := 1710072000000.

Definition bucket_of (keys : list string) : MemS3.state :=
  {| MemS3.bucketName := "env-bucket"; MemS3.keys := keys;
     MemS3.maxKeys := 1000; MemS3.faults := [] |}.

Definition world_of (keys : list string) : World MemS3.state :=
  MemS3.world (bucket_of keys) now.

(** A configuration with a short prefix, the keys of a backup [x] of [n]
    objects under it, and a store whose listings hold up to 5000 keys. *)
Definition short_config : Config :=
  {| mongodb := mongodb config; aws := aws config;
     s3 := {| bucket := "env-bucket"; prefix := "b" |};
     mongodumpPath := mongodumpPath config |}.

Definition big_backup_keys (n : nat) : list string :=
  map (fun i : nat => "b/x/" +:+ pretty i) (seq 0 n).

Definition large_page_world (keys : list string) : World MemS3.state :=
  MemS3.world
    {| MemS3.bucketName := "env-bucket"; MemS3.keys := keys;
       MemS3.maxKeys := 5000; MemS3.faults := [] |} now.

(** A store whose next requests fail as [faults] plans. *)
Definition faulty_world (keys : list string) (faults : list bool)
  : World MemS3.state :=
  MemS3.world
    {| MemS3.bucketName := "env-bucket"; MemS3.keys := keys;
       MemS3.maxKeys := 1000; MemS3.faults := faults |} now.

Definition dry_run : PruneOptions :=
  {| options_bucket := None; options_prefix := None; options_days := None;
     options_dryRun := Some true |}.

(** Options that ask for another bucket and another prefix. *)
Definition overrides : PruneOptions :=
  {| options_bucket := Some "other-bucket";
     options_prefix := Some "other/prefix";
     options_days := None; options_dryRun := None |}.

(** 2024-01-15T12:00:00Z: with 14 days the cutoff is noon of 2024-01-01. *)
Definition mid_january : Z := 1705320000000.

Definition no_options : PruneOptions :=
  {| options_bucket := None; options_prefix := None; options_days := None;
     options_dryRun := None |}.
End Demo.

(* ===================================================================== *)
(** * Properties                                                         *)
(* ===================================================================== *)

Example toISOString_example :
  JsDate.toISOString 1705289400000 = "2024-01-15T03:30:00.000Z".
Proof. vm_compute. reflexivity. Qed.

Example toISOString_before_epoch :
  JsDate.toISOString (-1) = "1969-12-31T23:59:59.999Z".
Proof. vm_compute. reflexivity. Qed.

Example parseInt_examples :
  JsGlobal.parseInt "30" = Some 30 /\ JsGlobal.parseInt "abc" = None
  /\ JsGlobal.parseInt "0" = Some 0 /\ JsGlobal.parseInt "-3" = Some (-3)
  /\ JsGlobal.parseInt " 7days" = Some 7 /\ JsGlobal.parseInt "" = None.
Proof. vm_compute. repeat split. Qed.

Example encodeURIComponent_example :
  JsGlobal.encodeURIComponent "p@ss w/rd" = "p%40ss%20w%2Frd".
Proof. vm_compute. reflexivity. Qed.

(** ** Strings *)

Section StringFacts.
Import JsString.

Lemma app_cons c (s t : string) : String c s +:+ t = String c (s +:+ t).
Proof. reflexivity. Qed.

Lemma app_empty_l (s : string) : "" +:+ s = s.
Proof. reflexivity. Qed.

Lemma app_assoc_s (s t u : string) : (s +:+ t) +:+ u = s +:+ t +:+ u.
Proof. induction s as [|c s IH]; [reflexivity|]. rewrite !app_cons. by rewrite IH. Qed.

Lemma length_app_s (s t : string) :
  String.length (s +:+ t) = (String.length s + String.length t)%nat.
Proof. induction s as [|c s IH]; [reflexivity|]. rewrite app_cons. simpl. by rewrite IH. Qed.

Lemma startsWith_app (s t : string) : startsWith (s +:+ t) s = true.
Proof.
  induction s as [|c s IH]; [by destruct t|].
  rewrite app_cons. simpl. by rewrite Ascii.eqb_refl.
Qed.

Lemma startsWith_inv (s p : string) :
  startsWith s p = true -> exists t, s = p +:+ t.
Proof.
  revert s. induction p as [|c p IH]; intros s Hs.
  - by exists s.
  - destruct s as [|d s]; simpl in Hs; [done|].
    destruct (Ascii.eqb_spec c d) as [->|]; [|done].
    destruct (IH _ Hs) as [t ->]. by exists t.
Qed.

Lemma slice_from_app (s t : string) : slice_from (String.length s) (s +:+ t) = t.
Proof. induction s as [|c s IH]; [reflexivity|]. rewrite app_cons. simpl. exact IH. Qed.
End StringFacts.

(** ** [parseInt] *)

Section TrimFacts.
Import JsString JsGlobal.

Lemma find_startsWith s ws :
  List.find (startsWith s) StrWhiteSpaceChar = Some ws ->
  exists t, s = ws +:+ t /\ (0 < String.length ws)%nat.
Proof.
  intros Hfind. apply find_some in Hfind as [Hin Hs].
  apply startsWith_inv in Hs as [t ->]. exists t. split; [done|].
  assert (String.length ws <> 0%nat); [|lia].
  intros Hz. destruct ws; [|done]. revert Hin. clear.
  vm_compute. intuition discriminate.
Qed.

(** The fuel of [trimStart] is enough: what it returns starts with no
    white space. *)
Lemma trimStart_done s :
  List.find (startsWith (trimStart s)) StrWhiteSpaceChar = None.
Proof.
  unfold trimStart.
  assert (forall fuel s, (String.length s <= fuel)%nat ->
            List.find (startsWith (trimStart_go fuel s)) StrWhiteSpaceChar
            = None) as Hgen; [|by apply Hgen].
  clear s. induction fuel as [|fuel IH]; intros s Hlen.
  - destruct s; [reflexivity|simpl in Hlen; lia].
  - cbn [trimStart_go].
    destruct (List.find (startsWith s) StrWhiteSpaceChar) as [ws|] eqn:Hf;
      [|exact Hf].
    apply find_startsWith in Hf as (t & -> & Hws).
    rewrite slice_from_app. apply IH.
    rewrite length_app_s in Hlen. lia.
Qed.
End TrimFacts.

(** ** The two patterns *)

Section RegexFacts.
Import JsString Regex NameFormat.

Lemma digits_app n d r : is_digits n d -> digits n (d +:+ r) = Some (d, r).
Proof.
  revert n. induction d as [|c d IH]; intros n [Hl Hf].
  - simpl in Hl. by rewrite <- Hl.
  - simpl in Hl, Hf. rewrite <- Hl, app_cons. simpl.
    apply Forall_cons_1 in Hf as [Hc Hf]. rewrite Hc.
    by rewrite (IH (String.length d)).
Qed.

Lemma digits_inv n s d r :
  digits n s = Some (d, r) -> is_digits n d /\ s = d +:+ r.
Proof.
  revert s d r. induction n as [|n IH]; intros s d r; simpl.
  - intros [= <- <-]. repeat split. constructor.
  - destruct s as [|c s]; [done|].
    destruct (isDigit c) eqn:Hc; [|done].
    destruct (digits n s) as [[d' r']|] eqn:Hd; simpl; [|done].
    intros [= <- <-]. apply IH in Hd as [[Hl Hf] ->].
    split; [|reflexivity]. split; simpl; [by rewrite Hl|by constructor].
Qed.

Lemma digits_spec n s d r :
  digits n s = Some (d, r) <-> is_digits n d /\ s = d +:+ r.
Proof.
  split; [apply digits_inv|]. intros [Hd ->]. by apply digits_app.
Qed.

Lemma oneOf_spec class s r :
  oneOf class s = Some r <->
  exists c, In c (list_ascii_of_string class) /\ s = String c r.
Proof.
  unfold oneOf. destruct s as [|c s].
  - split; [done|]. by intros (? & _ & ?).
  - destruct (existsb _ _) eqn:He.
    + apply existsb_exists in He as (x & Hin & Hx).
      apply Ascii.eqb_eq in Hx as <-. split.
      * intros [= <-]. eauto.
      * by intros (c' & _ & [= <- <-]).
    + split; [done|]. intros (c' & Hin & [= <- <-]).
      assert (existsb (Ascii.eqb c) (list_ascii_of_string class) = true);
        [|congruence].
      apply existsb_exists. exists c. split; [done|apply Ascii.eqb_refl].
Qed.
End RegexFacts.

Section PatternFacts.
Import JsString Regex NameFormat.

Lemma timestampAt_inv s year month day hour minute second :
  timestampAt s = Some (year, month, day, hour, minute, second) ->
  TimestampAt s year month day hour minute second.
Proof.
  unfold timestampAt. intros H. unfold mbind, option_bind in H.
  destruct (digits 4 s) as [[y s1]|] eqn:H1; cbv beta iota in H; [|done].
  destruct (oneOf "-" s1) as [s2|] eqn:H2; cbv beta iota in H; [|done].
  destruct (digits 2 s2) as [[mo s3]|] eqn:H3; cbv beta iota in H; [|done].
  destruct (oneOf "-" s3) as [s4|] eqn:H4; cbv beta iota in H; [|done].
  destruct (digits 2 s4) as [[d s5]|] eqn:H5; cbv beta iota in H; [|done].
  destruct (oneOf "-T" s5) as [s6|] eqn:H6; cbv beta iota in H; [|done].
  destruct (digits 2 s6) as [[h s7]|] eqn:H7; cbv beta iota in H; [|done].
  destruct (oneOf "-:" s7) as [s8|] eqn:H8; cbv beta iota in H; [|done].
  destruct (digits 2 s8) as [[mi s9]|] eqn:H9; cbv beta iota in H; [|done].
  destruct (oneOf "-:" s9) as [s10|] eqn:H10; cbv beta iota in H; [|done].
  destruct (digits 2 s10) as [[se s11]|] eqn:H11; cbv beta iota in H; [|done].
  injection H as <- <- <- <- <- <-.
  apply digits_inv in H1 as [D1 ->], H3 as [D3 ->], H5 as [D5 ->],
    H7 as [D7 ->], H9 as [D9 ->], H11 as [D11 ->].
  apply oneOf_spec in H2 as (c & Hc & ->), H4 as (c' & Hc' & ->),
    H6 as (c1 & Hc1 & ->), H8 as (c2 & Hc2 & ->), H10 as (c3 & Hc3 & ->).
  simpl in Hc, Hc', Hc1, Hc2, Hc3.
  destruct Hc as [<-|[]], Hc' as [<-|[]].
  exists c1, c2, c3, s11. split_and!; try done.
  - destruct Hc1 as [<-|[<-|[]]]; auto.
  - destruct Hc2 as [<-|[<-|[]]]; auto.
  - destruct Hc3 as [<-|[<-|[]]]; auto.
Qed.

Lemma oneOf_in class c s :
  In c (list_ascii_of_string class) -> oneOf class (String c s) = Some s.
Proof. intros Hc. apply oneOf_spec. eauto. Qed.

Lemma timestampAt_intro s year month day hour minute second :
  TimestampAt s year month day hour minute second ->
  timestampAt s = Some (year, month, day, hour, minute, second).
Proof.
  intros (c1 & c2 & c3 & rest & D1 & D2 & D3 & D4 & D5 & D6 & H1 & H2 & H3 & ->).
  unfold timestampAt, mbind, option_bind.
  rewrite !app_cons, !app_empty_l.
  rewrite (digits_app _ _ _ D1); cbv beta iota.
  rewrite oneOf_in by (simpl; auto).
  rewrite (digits_app _ _ _ D2); cbv beta iota.
  rewrite oneOf_in by (simpl; auto).
  rewrite (digits_app _ _ _ D3); cbv beta iota.
  rewrite oneOf_in by (destruct H1 as [->| ->]; simpl; auto).
  rewrite (digits_app _ _ _ D4); cbv beta iota.
  rewrite oneOf_in by (destruct H2 as [->| ->]; simpl; auto).
  rewrite (digits_app _ _ _ D5); cbv beta iota.
  rewrite oneOf_in by (destruct H3 as [->| ->]; simpl; auto).
  by rewrite (digits_app _ _ _ D6).
Qed.

Lemma timestampAt_spec s year month day hour minute second :
  timestampAt s = Some (year, month, day, hour, minute, second) <->
  TimestampAt s year month day hour minute second.
Proof. split; [apply timestampAt_inv|apply timestampAt_intro]. Qed.

Lemma dateAt_inv s year month day :
  dateAt s = Some (year, month, day) -> DateAt s year month day.
Proof.
  unfold dateAt. intros H. unfold mbind, option_bind in H.
  destruct (digits 4 s) as [[y s1]|] eqn:H1; cbv beta iota in H; [|done].
  destruct (oneOf "-" s1) as [s2|] eqn:H2; cbv beta iota in H; [|done].
  destruct (digits 2 s2) as [[mo s3]|] eqn:H3; cbv beta iota in H; [|done].
  destruct (oneOf "-" s3) as [s4|] eqn:H4; cbv beta iota in H; [|done].
  destruct (digits 2 s4) as [[d s5]|] eqn:H5; cbv beta iota in H; [|done].
  injection H as <- <- <-.
  apply digits_inv in H1 as [D1 ->], H3 as [D3 ->], H5 as [D5 ->].
  apply oneOf_spec in H2 as (c & Hc & ->), H4 as (c' & Hc' & ->).
  simpl in Hc, Hc'. destruct Hc as [<-|[]], Hc' as [<-|[]].
  exists s5. by split_and!.
Qed.

Lemma dateAt_intro s year month day :
  DateAt s year month day -> dateAt s = Some (year, month, day).
Proof.
  intros (rest & D1 & D2 & D3 & ->).
  unfold dateAt, mbind, option_bind.
  rewrite !app_cons, !app_empty_l.
  rewrite (digits_app _ _ _ D1); cbv beta iota.
  rewrite oneOf_in by (simpl; auto).
  rewrite (digits_app _ _ _ D2); cbv beta iota.
  rewrite oneOf_in by (simpl; auto).
  by rewrite (digits_app _ _ _ D3).
Qed.

Lemma dateAt_spec s year month day :
  dateAt s = Some (year, month, day) <-> DateAt s year month day.
Proof. split; [apply dateAt_inv|apply dateAt_intro]. Qed.

(** [String_match] finds the first place where the pattern matches. *)
Lemma String_match_first {G} (f : string -> option G) before s g :
  f s = Some g ->
  (forall before' s', before +:+ s = before' +:+ s' ->
     (String.length before' < String.length before)%nat -> f s' = None) ->
  String_match f (before +:+ s) = Some g.
Proof.
  induction before as [|c before IH]; intros Hs Hfirst.
  - rewrite app_empty_l. destruct s; simpl; by rewrite Hs.
  - rewrite app_cons. simpl.
    assert (f (String c (before +:+ s)) = None) as ->.
    { apply (Hfirst ""); [done|simpl; lia]. }
    apply IH; [done|]. intros before' s' Heq Hlt.
    apply (Hfirst (String c before')); [by rewrite !app_cons, Heq|simpl; lia].
Qed.

Lemma String_match_none {G} (f : string -> option G) name :
  String_match f name = None <->
  forall before s, name = before +:+ s -> f s = None.
Proof.
  induction name as [|c name IH]; simpl.
  - destruct (f "") eqn:Hf.
    + split; [done|]. intros Hn. by rewrite (Hn "" "") in Hf.
    + split; [|done]. intros _ before s Heq.
      destruct before; [by rewrite app_empty_l in Heq; subst|done].
  - destruct (f (String c name)) eqn:Hf.
    + split; [done|]. intros Hn. by rewrite (Hn "" (String c name)) in Hf.
    + rewrite IH. split.
      * intros Hn before s Heq. destruct before as [|c' before].
        -- rewrite app_empty_l in Heq. by subst.
        -- rewrite app_cons in Heq. injection Heq as -> ->. by eapply Hn.
      * intros Hn before s ->. apply (Hn (String c before)). by rewrite app_cons.
Qed.

Lemma String_match_some {G} (f : string -> option G) name g :
  String_match f name = Some g ->
  exists before s,
    name = before +:+ s /\ f s = Some g /\
    forall before' s', name = before' +:+ s' ->
      (String.length before' < String.length before)%nat -> f s' = None.
Proof.
  induction name as [|c name IH]; simpl.
  - destruct (f "") eqn:Hf; [|done]. intros [= ->].
    exists "", "". split_and!; [done..|]. simpl. lia.
  - destruct (f (String c name)) eqn:Hf.
    + intros [= ->]. exists "", (String c name). split_and!; [done..|].
      simpl. lia.
    + intros (before & s & -> & Hs & Hfirst)%IH.
      exists (String c before), s. split_and!; [done..|].
      intros before' s' Heq Hlt. destruct before' as [|c' before'].
      * rewrite app_empty_l in Heq. by subst.
      * rewrite !app_cons in Heq. injection Heq as -> Heq.
        apply (Hfirst before'); [done|simpl in Hlt; lia].
Qed.

(** [new Date] reads the string the program builds from the groups of a
    match as the UTC instant of its six fields. *)
Lemma new_Date_string_fields year month day hour minute second :
  is_digits 4 year -> is_digits 2 month -> is_digits 2 day ->
  is_digits 2 hour -> is_digits 2 minute -> is_digits 2 second ->
  new_Date_string
    (year +:+ "-" +:+ month +:+ "-" +:+ day +:+ "T" +:+ hour
     +:+ ":" +:+ minute +:+ ":" +:+ second +:+ "Z")
  = utc year month day hour minute second.
Proof.
  intros D1 D2 D3 D4 D5 D6.
  unfold new_Date_string, mbind, option_bind.
  rewrite !app_cons, !app_empty_l.
  rewrite (digits_app _ _ _ D1); cbv beta iota.
  rewrite oneOf_in by (simpl; auto).
  rewrite (digits_app _ _ _ D2); cbv beta iota.
  rewrite oneOf_in by (simpl; auto).
  rewrite (digits_app _ _ _ D3); cbv beta iota.
  rewrite oneOf_in by (simpl; auto).
  rewrite (digits_app _ _ _ D4); cbv beta iota.
  rewrite oneOf_in by (simpl; auto).
  rewrite (digits_app _ _ _ D5); cbv beta iota.
  rewrite oneOf_in by (simpl; auto).
  rewrite (digits_app _ _ _ D6); cbv beta iota.
  reflexivity.
Qed.

Lemma new_Date_string_midnight year month day :
  is_digits 4 year -> is_digits 2 month -> is_digits 2 day ->
  new_Date_string (year +:+ "-" +:+ month +:+ "-" +:+ day +:+ "T00:00:00Z")
  = utc year month day "00" "00" "00".
Proof.
  intros D1 D2 D3.
  rewrite <- new_Date_string_fields by (done || (split; [done|repeat constructor])).
  reflexivity.
Qed.

Lemma has_timestamp_iff s :
  has_timestamp s <-> timestampAt s <> None.
Proof.
  split.
  - intros (y & mo & d & h & mi & se & Ht). by rewrite (timestampAt_intro _ _ _ _ _ _ _ Ht).
  - destruct (timestampAt s) as [[[[[[y mo] d] h] mi] se]|] eqn:Ht; [|done].
    intros _. exists y, mo, d, h, mi, se. by apply timestampAt_inv.
Qed.

Lemma has_date_iff s : has_date s <-> dateAt s <> None.
Proof.
  split.
  - intros (y & mo & d & Ht). by rewrite (dateAt_intro _ _ _ _ Ht).
  - destruct (dateAt s) as [[[y mo] d]|] eqn:Ht; [|done].
    intros _. exists y, mo, d. by apply dateAt_inv.
Qed.

Lemma String_match_timestamp name before s year month day hour minute second :
  first_at has_timestamp name before s ->
  TimestampAt s year month day hour minute second ->
  String_match timestampAt name
  = Some (year, month, day, hour, minute, second).
Proof.
  intros [-> Hfirst] Ht. apply String_match_first; [by apply timestampAt_intro|].
  intros before' s' Heq Hlt. specialize (Hfirst _ _ Heq Hlt).
  rewrite has_timestamp_iff in Hfirst. by destruct (timestampAt s'); [destruct Hfirst|].
Qed.

Lemma String_match_date name before s year month day :
  first_at has_date name before s -> DateAt s year month day ->
  String_match dateAt name = Some (year, month, day).
Proof.
  intros [-> Hfirst] Ht. apply String_match_first; [by apply dateAt_intro|].
  intros before' s' Heq Hlt. specialize (Hfirst _ _ Heq Hlt).
  rewrite has_date_iff in Hfirst. by destruct (dateAt s'); [destruct Hfirst|].
Qed.

Lemma String_match_no_timestamp name :
  nowhere has_timestamp name <-> String_match timestampAt name = None.
Proof.
  rewrite String_match_none. unfold nowhere.
  split; intros Hn before s Heq; specialize (Hn before s Heq).
  - rewrite has_timestamp_iff in Hn. by destruct (timestampAt s); [destruct Hn|].
  - rewrite has_timestamp_iff, Hn. by intros [].
Qed.

Lemma String_match_no_date name :
  nowhere has_date name <-> String_match dateAt name = None.
Proof.
  rewrite String_match_none. unfold nowhere.
  split; intros Hn before s Heq; specialize (Hn before s Heq).
  - rewrite has_date_iff in Hn. by destruct (dateAt s); [destruct Hn|].
  - rewrite has_date_iff, Hn. by intros [].
Qed.

(** Every name is in one of the three cases of the extraction. *)
Lemma name_cases name :
  (exists before s, first_at has_timestamp name before s /\ has_timestamp s)
  \/ (nowhere has_timestamp name /\
      exists before s, first_at has_date name before s /\ has_date s)
  \/ (nowhere has_timestamp name /\ nowhere has_date name).
Proof.
  destruct (String_match timestampAt name) as [g|] eqn:Ht.
  - left. apply String_match_some in Ht as (before & s & -> & Hs & Hfirst).
    exists before, s. split; [split; [done|]|].
    + intros before' s' Heq Hlt.
      rewrite has_timestamp_iff, (Hfirst _ _ Heq Hlt). by intros [].
    + apply has_timestamp_iff. by rewrite Hs.
  - right. apply String_match_no_timestamp in Ht.
    destruct (String_match dateAt name) as [g|] eqn:Hd.
    + left. split; [done|].
      apply String_match_some in Hd as (before & s & -> & Hs & Hfirst).
      exists before, s. split; [split; [done|]|].
      * intros before' s' Heq Hlt.
        rewrite has_date_iff, (Hfirst _ _ Heq Hlt). by intros [].
      * apply has_date_iff. by rewrite Hs.
    + right. split; [done|]. by apply String_match_no_date.
Qed.

Lemma extractDate_timestamp name before s year month day hour minute second :
  first_at has_timestamp name before s ->
  TimestampAt s year month day hour minute second ->
  extractDateFromBackupName name
  = Some (utc year month day hour minute second).
Proof.
  intros Hfirst Ht. unfold extractDateFromBackupName.
  rewrite (String_match_timestamp _ _ _ _ _ _ _ _ _ Hfirst Ht).
  destruct Ht as (c1 & c2 & c3 & rest & D1 & D2 & D3 & D4 & D5 & D6 & _).
  by rewrite new_Date_string_fields.
Qed.

Lemma extractDate_date name before s year month day :
  nowhere has_timestamp name ->
  first_at has_date name before s -> DateAt s year month day ->
  extractDateFromBackupName name = Some (utc year month day "00" "00" "00").
Proof.
  intros Hno Hfirst Hd. unfold extractDateFromBackupName.
  apply String_match_no_timestamp in Hno as ->.
  rewrite (String_match_date _ _ _ _ _ _ Hfirst Hd).
  destruct Hd as (rest & D1 & D2 & D3 & _).
  by rewrite new_Date_string_midnight.
Qed.

Lemma extractDate_none name :
  nowhere has_timestamp name /\ nowhere has_date name <->
  extractDateFromBackupName name = None.
Proof.
  unfold extractDateFromBackupName.
  rewrite String_match_no_timestamp, String_match_no_date.
  destruct (String_match timestampAt name) as [[[[[[y mo] d] h] mi] se]|];
    [split; [by intros []|done]|].
  destruct (String_match dateAt name) as [[[y mo] d]|]; [|done].
  split; [by intros []|done].
Qed.
End PatternFacts.

(** ** The lister *)

Section SortFacts.
Context {A : Type} (cmp : A -> A -> option Z).

Lemma insert_sorted_perm x l : JsArray.insert_sorted cmp x l ≡ₚ x :: l.
Proof.
  induction l as [|y l IH]; simpl; [done|].
  destruct (JsArray.before cmp x y); [done|].
  rewrite IH. apply Permutation_swap.
Qed.

Lemma sort_perm l : JsArray.sort cmp l ≡ₚ l.
Proof.
  unfold JsArray.sort.
  assert (forall acc, fold_left (fun acc x => JsArray.insert_sorted cmp x acc) l acc
                      ≡ₚ l ++ acc) as Hgen.
  { induction l as [|x l IH]; intros acc; simpl; [done|].
    rewrite IH, insert_sorted_perm. by rewrite Permutation_middle. }
  rewrite Hgen. by rewrite app_nil_r.
Qed.

Lemma sort_In x l : In x (JsArray.sort cmp l) <-> In x l.
Proof.
  split; apply Permutation_in; [apply sort_perm|symmetry; apply sort_perm].
Qed.
End SortFacts.

Section ListerFacts.
Context {S : Type} `{S3Service S}.

Lemma for_of_collect listing prefixes acc (w : World S) :
  exists w',
    for_of prefixes (collect_backup listing) acc w
    = (Returned (acc ++ collected listing prefixes), w')
    /\ same_store w w'.
Proof.
  revert acc w. induction prefixes as [|p prefixes IH]; intros acc w; simpl.
  - exists w. by rewrite app_nil_r.
  - unfold bind at 1, collect_backup at 1.
    destruct (JsString.truthy (folder_name listing p)) eqn:Hn; simpl.
    + destruct (extractDateFromBackupName (folder_name listing p)) as [d|] eqn:Hd;
        simpl.
      * destruct (IH (acc ++ [{| name := folder_name listing p; date := d |}]) w)
          as (w' & -> & Hw).
        exists w'. by rewrite <- app_assoc.
      * unfold bind, console_warn, console_write, ret. simpl.
        match goal with |- context [for_of _ _ _ ?w0] =>
          destruct (IH acc w0) as (w' & -> & Hw) end.
        exists w'. split; [done|]. destruct Hw as (? & ? & ?). by split_and!.
    + unfold ret. destruct (IH acc w) as (w' & -> & Hw). by exists w'.
Qed.

Lemma listBackupsWithDates_run config (w : World S) :
  exists w',
    same_store
      (mkWorld (listObjectsV2 (createS3Client config) (listing_request config)
                  (store w)).2
         (sent w ++ [ListObjectsV2Command (listing_request config)])
         (console w) (clock w)) w' /\
    listBackupsWithDates config w
    = (match (listObjectsV2 (createS3Client config) (listing_request config)
                (store w)).1 with
       | inl message => Thrown (S3ServiceException message)
       | inr response => Returned (listed_backups config response)
       end, w').
Proof.
  unfold listBackupsWithDates, bind at 1, console_log, console_write.
  unfold bind at 1, send_list. simpl.
  fold (listing_request config).
  destruct (listObjectsV2 _ _ _) as [[message|response] s1]; simpl.
  - eexists. split; [|reflexivity]. done.
  - unfold bind.
    match goal with |- context [for_of ?l ?f ?a ?w0] =>
      destruct (for_of_collect (listing_prefix config) l a w0) as (w' & Hrun & Hw)
    end.
    rewrite Hrun. exists w'. split; [done|]. reflexivity.
Qed.
End ListerFacts.

(** ** Dates and the partition by the cutoff *)

Example Demo_config : loadConfig Demo.env = inr Demo.config.
Proof. vm_compute. reflexivity. Qed.

Section DateFacts.
Import JsDate.

Lemma MonthFromTime_range t : 0 <= MonthFromTime t <= 11.
Proof. unfold MonthFromTime. repeat case_match; lia. Qed.

Lemma MakeDay_of_time t dt :
  MakeDay (YearFromTime t) (MonthFromTime t) (DateFromTime t - dt)
  = Day t - dt.
Proof.
  pose proof (MonthFromTime_range t) as Hm.
  unfold MakeDay.
  rewrite (Z.div_small (MonthFromTime t) 12), (Z.mod_small (MonthFromTime t) 12)
    by lia.
  rewrite Z.add_0_r. unfold DateFromTime, DayWithinYear, InLeapYear. lia.
Qed.

Lemma DayFromYear_step y :
  DayFromYear (y + 1) = DayFromYear y + DaysInYear y.
Proof.
  unfold DayFromYear, DaysInYear, isLeapYear.
  repeat match goal with
         | |- context [Z.eqb ?a ?b] => destruct (Z.eqb_spec a b)
         end; simpl negb; cbv iota;
    Z.to_euclidean_division_equations; lia.
Qed.

(** [YearFromTime t] is the year that holds [t]. *)
Lemma YearFromTime_spec t :
  DayFromYear (YearFromTime t) <= Day t < DayFromYear (YearFromTime t + 1).
Proof.
  unfold YearFromTime. set (d := Day t). clearbody d.
  set (y := 1970 + d * 400 / 146097).
  assert (DayFromYear (y - 1) <= d < DayFromYear (y + 2)) as Hy.
  { subst y. unfold DayFromYear. Z.to_euclidean_division_equations. lia. }
  destruct (Z.ltb_spec d (DayFromYear y)).
  - replace (y - 1 + 1) with y by lia. lia.
  - destruct (Z.leb_spec (DayFromYear (y + 1)) d); [|lia].
    replace (y + 1 + 1) with (y + 2) by lia. lia.
Qed.
(** In a zone at a fixed offset from UTC, [setDate(getDate() - d)] moves
    the instant back by [d] days of 24 hours. *)
Lemma cutoff_fixed_offset LocalTZA offset now pruneDays :
  (forall t isUTC, LocalTZA t isUTC = offset) ->
  cutoff LocalTZA (Some now) pruneDays = TimeClip (now - pruneDays * msPerDay).
Proof.
  intros Hz. unfold cutoff, setDate, getDate, sub, LocalTime, UTC.
  rewrite !Hz. rewrite MakeDay_of_time. f_equal.
  unfold MakeDate, Day, TimeWithinDay.
  pose proof (Z.div_mod (now + offset) msPerDay). unfold msPerDay in *. lia.
Qed.

Lemma lt_ge_NaN (d : Date) :
  lt None d = false /\ ge None d = false
  /\ lt d None = false /\ ge d None = false.
Proof. by destruct d. Qed.
End DateFacts.

Section PartitionFacts.
Lemma In_backupsToDelete cutoffDate backups b :
  In b (backupsToDelete cutoffDate backups)
  <-> In b backups /\ JsDate.lt (date b) cutoffDate = true.
Proof. unfold backupsToDelete. apply filter_In. Qed.

Lemma In_backupsToKeep cutoffDate backups b :
  In b (backupsToKeep cutoffDate backups)
  <-> In b backups /\ JsDate.ge (date b) cutoffDate = true.
Proof. unfold backupsToKeep. apply filter_In. Qed.
End PartitionFacts.

(** C1, as amended: for every backup whose date is a valid instant, and a
    cutoff ([now] moved back by the retention days, as [setDate] computes
    it) that is a valid instant, the backup is in [backupsToDelete] and not
    in [backupsToKeep] when it is dated before the cutoff, and in
    [backupsToKeep] and not in [backupsToDelete] otherwise; a backup dated
    at the cutoff is kept. *)
Theorem C1_partition_by_cutoff
    (LocalTZA : Z -> bool -> Z) (now pruneDays c t : Z)
    (backups : list BackupWithDate) (b : BackupWithDate) :
  cutoff LocalTZA (Some now) pruneDays = Some c ->
  In b backups ->
  date b = Some t ->
  let cutoffDate := cutoff LocalTZA (Some now) pruneDays in
  let toDelete := backupsToDelete cutoffDate backups in
  let toKeep := backupsToKeep cutoffDate backups in
  (t < c -> In b toDelete /\ ~ In b toKeep)
  /\ (c <= t -> In b toKeep /\ ~ In b toDelete)
  /\ (t = c -> In b toKeep /\ ~ In b toDelete)
  /\ ~ (In b toDelete /\ In b toKeep)
  /\ (In b toDelete \/ In b toKeep).
Proof.
  intros Hc Hin Ht cutoffDate toDelete toKeep.
  subst toDelete toKeep cutoffDate.
  rewrite In_backupsToDelete, In_backupsToKeep, Ht, Hc. simpl.
  destruct (Z.ltb_spec t c), (Z.leb_spec c t); try lia;
    repeat split; intros; try lia; try tauto; intuition congruence.
Qed.

Lemma C1_partition_by_cutoff_witness :
  let b := {| name := "mydb-2024-01-15"; date := Some 1705276800000 |} in
  let kept := {| name := "mydb-2024-03-01"; date := Some 1709251200000 |} in
  let cutoffDate := cutoff Demo.utc_zone (Some Demo.now) 14 in
  cutoffDate = Some 1708862400000
  /\ In b (backupsToDelete cutoffDate [kept; b])
  /\ ~ In b (backupsToKeep cutoffDate [kept; b]).
Proof.
  intros b kept cutoffDate.
  assert (cutoff Demo.utc_zone (Some Demo.now) 14 = Some 1708862400000) as Hc
    by (vm_compute; reflexivity).
  assert (In b [kept; b]) as Hin by (simpl; auto).
  split; [exact Hc|].
  destruct (C1_partition_by_cutoff Demo.utc_zone Demo.now 14 1708862400000
              1705276800000 [kept; b] b Hc Hin eq_refl) as [Hbefore _].
  apply Hbefore. lia.
Defined.

(** C1, as stated, fails: the lister returns the folder [db-2024-13-99]
    with an invalid date, which is not dated before the cutoff and yet is
    not placed in [backupsToKeep] (nor in [backupsToDelete]).  It also
    fails for a number of days so large that the cutoff leaves the range
    of [Date]: the cutoff is then invalid, no backup is on either side of
    it, and the run ends on the [RangeError] of [toISOString]. *)
Lemma C1_invalid_date_in_neither_set :
  let w := Demo.world_of ["backups/mongodb/db-2024-13-99/dump.gz"] in
  let cutoffDate := cutoff Demo.utc_zone (Some Demo.now) 14 in
  let b := {| name := "db-2024-13-99"; date := None |} in
  let far := cutoff Demo.utc_zone (Some Demo.now) 1000000000 in
  let old := {| name := "mydb-2024-01-15"; date := Some 1705276800000 |} in
  (0 < 14)
  /\ fst (listBackupsWithDates Demo.config w) = Returned [b]
  /\ JsDate.lt (date b) cutoffDate = false
  /\ ~ In b (backupsToKeep cutoffDate [b])
  /\ ~ In b (backupsToDelete cutoffDate [b])
  /\ far = None
  /\ ~ In old (backupsToKeep far [old])
  /\ ~ In old (backupsToDelete far [old])
  /\ fst (runPrune Demo.env Demo.utc_zone
            {| options_bucket := None; options_prefix := None;
               options_days := Some 1000000000; options_dryRun := None |}
            (Demo.world_of ["backups/mongodb/mydb-2024-01-15/dump.gz"]))
     = Thrown (RangeError "Invalid time value").
Proof.
  vm_compute. split_and!; try reflexivity; by intros [].
Qed.

Section UtcFacts.
Import JsString JsDate NameFormat.

Lemma digitVal_range c : isDigit c = true -> 0 <= digitVal c <= 9.
Proof.
  unfold isDigit, digitVal. intros [H1 H2]%andb_true_iff.
  apply Nat.leb_le in H1, H2. lia.
Qed.

Lemma digitsVal_range n s : is_digits n s -> 0 <= digitsVal s < 10 ^ Z.of_nat n.
Proof.
  intros [<- Hf]. unfold digitsVal.
  assert (forall l acc,
            Forall (fun c => isDigit c = true) l -> 0 <= acc ->
            0 <= fold_left (fun acc c => 10 * acc + digitVal c) l acc
            < (acc + 1) * 10 ^ Z.of_nat (length l)) as Hgen.
  { induction l as [|c l IH]; intros acc Hl Hacc; simpl fold_left.
    - simpl. lia.
    - apply Forall_cons_1 in Hl as [Hc Hl]. apply digitVal_range in Hc.
      specialize (IH (10 * acc + digitVal c) Hl ltac:(lia)).
      replace (Z.of_nat (length (c :: l))) with (1 + Z.of_nat (length l))
        by (simpl; lia).
      rewrite Z.pow_add_r by lia.
      assert (0 < 10 ^ Z.of_nat (length l)) by (apply Z.pow_pos_nonneg; lia).
      nia. }
  specialize (Hgen (list_ascii_of_string s) 0 Hf ltac:(lia)).
  assert (length (list_ascii_of_string s) = String.length s) as Hlen.
  { clear. induction s; simpl; congruence. }
  rewrite Hlen in Hgen. lia.
Qed.

Lemma daysBeforeMonth_range m leap :
  0 <= leap <= 1 -> 0 <= daysBeforeMonth m leap <= 335.
Proof. intros Hl. unfold daysBeforeMonth. repeat case_match; lia. Qed.

Lemma DayFromYear_range y :
  0 <= y <= 9999 -> -719528 <= DayFromYear y <= 2932532.
Proof.
  intros Hy. unfold DayFromYear.
  pose proof (Z.div_mod (y - 1969) 4 ltac:(lia)).
  pose proof (Z.mod_pos_bound (y - 1969) 4 ltac:(lia)).
  pose proof (Z.div_mod (y - 1901) 100 ltac:(lia)).
  pose proof (Z.mod_pos_bound (y - 1901) 100 ltac:(lia)).
  pose proof (Z.div_mod (y - 1601) 400 ltac:(lia)).
  pose proof (Z.mod_pos_bound (y - 1601) 400 ltac:(lia)).
  lia.
Qed.

(** Six fields in their ranges denote the instant that [MakeDay] and
    [MakeTime] give for them in UTC. *)
Lemma utc_valid year month day hour minute second :
  is_digits 4 year -> is_digits 2 month -> is_digits 2 day ->
  is_digits 2 hour -> is_digits 2 minute -> is_digits 2 second ->
  1 <= digitsVal month <= 12 -> 1 <= digitsVal day <= 31 ->
  digitsVal hour <= 23 -> digitsVal minute <= 59 -> digitsVal second <= 59 ->
  utc year month day hour minute second
  = Some (MakeDate (MakeDay (digitsVal year) (digitsVal month - 1)
                      (digitsVal day))
            (MakeTime (digitsVal hour) (digitsVal minute)
               (digitsVal second) 0)).
Proof.
  intros D1 D2 D3 D4 D5 D6 Hm Hd Hh Hmi Hs.
  apply digitsVal_range in D1, D2, D3, D4, D5, D6.
  unfold utc, parseISO.
  replace (_ && _) with true; cycle 1.
  { symmetry. rewrite !andb_true_iff, orb_true_iff, !andb_true_iff.
    rewrite !Z.leb_le. lia. }
  unfold TimeClip.
  replace (_ <? _) with false; [done|].
  symmetry. apply Z.ltb_ge.
  unfold MakeDate, MakeDay, MakeTime, msPerDay, msPerHour, msPerMinute,
    msPerSecond.
  rewrite (Z.div_small (digitsVal month - 1) 12),
    (Z.mod_small (digitsVal month - 1) 12) by lia.
  rewrite Z.add_0_r.
  pose proof (DayFromYear_range (digitsVal year) ltac:(simpl in D1; lia)).
  pose proof (daysBeforeMonth_range (digitsVal month - 1)
                (if isLeapYear (digitsVal year) then 1 else 0)
                ltac:(destruct (isLeapYear _); lia)).
  simpl in D4, D5, D6. lia.
Qed.
End UtcFacts.

(** ** What the lister keeps *)

Section ListedFacts.
Import NameFormat.

Lemma nowhere_not_somewhere P name : nowhere P name <-> ~ somewhere P name.
Proof.
  split.
  - intros Hn (before & s & Heq & HP). by apply (Hn before s).
  - intros Hs before s Heq HP. apply Hs. by exists before, s.
Qed.

(** What is in the list that the lister returns. *)
Lemma In_collected listing prefixes b :
  In b (collected listing prefixes) <->
  exists p, In p prefixes /\ name b = folder_name listing p
            /\ name b <> "" /\ extractDateFromBackupName (name b) = Some (date b).
Proof.
  unfold collected. rewrite <- list_elem_of_In, list_elem_of_omap.
  split.
  - intros (p & Hp & Hb). apply list_elem_of_In in Hp. exists p.
    destruct (JsString.truthy (folder_name listing p)) eqn:Hn; [|done].
    destruct (extractDateFromBackupName (folder_name listing p)) as [d|] eqn:Hd;
      [|done].
    simpl in Hb. injection Hb as <-. simpl. split_and!; try done.
    by destruct (folder_name listing p).
  - intros (p & Hp & Hname & Hne & Hd). exists p.
    split; [by apply list_elem_of_In|].
    rewrite <- Hname, Hd. simpl.
    destruct b as [n d]. simpl in *. by destruct n.
Qed.

Lemma In_listed_backups config response b :
  In b (listed_backups config response) <->
  exists p, In p (response_prefixes response)
            /\ name b = folder_name (listing_prefix config) p
            /\ name b <> "" /\ extractDateFromBackupName (name b) = Some (date b).
Proof. unfold listed_backups. by rewrite sort_In, In_collected. Qed.

Lemma somewhere_not_empty name :
  somewhere has_timestamp name \/ somewhere has_date name -> name <> "".
Proof.
  intros Hs ->.
  assert (extractDateFromBackupName "" = None) as Hn by reflexivity.
  apply extractDate_none in Hn as [Hn1 Hn2].
  rewrite !nowhere_not_somewhere in *. tauto.
Qed.

Lemma extractDate_somewhere name :
  somewhere has_timestamp name \/ somewhere has_date name <->
  exists d, extractDateFromBackupName name = Some d.
Proof.
  destruct (extractDateFromBackupName name) as [d|] eqn:Hd.
  - split; [by exists d|]. intros _.
    destruct (name_cases name) as [(before & s & [-> _] & Hs)
                                  |[(_ & before & s & [-> _] & Hs)|Hno]].
    + left. by exists before, s.
    + right. by exists before, s.
    + apply extractDate_none in Hno. congruence.
  - split; [|by intros [? ?]].
    apply extractDate_none in Hd as [Hn1 Hn2].
    rewrite !nowhere_not_somewhere in *. tauto.
Qed.
End ListedFacts.

(** C10: the lister keeps every top-level folder whose name has the shape
    of one of the two patterns, whatever the calendar values of the
    digits: [db-2024-13-99] is returned with an invalid date, and an
    invalid date is neither before a cutoff nor at or after it. *)
Theorem C10_shape_match_without_calendar_check :
  (forall (S : Type) (service : S3Service S) (config : Config) (w : World S)
          (response : ListObjectsV2Output) (p : string),
     fst (listObjectsV2 (createS3Client config) (listing_request config)
            (store w)) = inr response ->
     In p (response_prefixes response) ->
     let name := folder_name (listing_prefix config) p in
     NameFormat.somewhere NameFormat.has_timestamp name
     \/ NameFormat.somewhere NameFormat.has_date name ->
     exists backups date,
       fst (listBackupsWithDates config w) = Returned backups
       /\ extractDateFromBackupName name = Some date
       /\ In {| name := name; date := date |} backups)
  /\ NameFormat.somewhere NameFormat.has_date "db-2024-13-99"
  /\ extractDateFromBackupName "db-2024-13-99" = Some None
  /\ fst (listBackupsWithDates Demo.config
            (Demo.world_of ["backups/mongodb/db-2024-13-99/dump.gz"]))
     = Returned [{| name := "db-2024-13-99"; date := None |}]
  /\ (forall cutoffDate : JsDate.Date,
        JsDate.lt None cutoffDate = false /\ JsDate.ge None cutoffDate = false).
Proof.
  split_and!.
  - intros S service config w response p Hresp Hp name Hshape.
    destruct (listBackupsWithDates_run config w) as (w' & _ & Hrun).
    rewrite Hrun, Hresp. simpl.
    pose proof (somewhere_not_empty _ Hshape) as Hne.
    apply extractDate_somewhere in Hshape as [d Hd].
    exists (listed_backups config response), d. split_and!; [done..|].
    apply In_listed_backups. exists p. by split_and!.
  - exists "db-", "2024-13-99". split; [reflexivity|].
    apply has_date_iff. by vm_compute.
  - reflexivity.
  - vm_compute. reflexivity.
  - intros cutoffDate. by destruct cutoffDate.
Qed.

(** C2: the date of a backup name comes from the timestamp pattern where
    it matches first, read as a UTC date and time; when that pattern
    matches nowhere, from the first bare date, read as UTC midnight; when
    neither matches there is no date, and the lister returns no entry for
    such a name.  Fields in their ranges denote the UTC instant of that
    year, month, day, hour, minute and second.  The three names of the
    specification give
    2024-01-15T03:30:00Z, 2024-01-15T00:00:00Z and no date. *)
Theorem C2_extraction_in_preference_order :
  (forall name before s year month day hour minute second,
     NameFormat.first_at NameFormat.has_timestamp name before s ->
     NameFormat.TimestampAt s year month day hour minute second ->
     extractDateFromBackupName name
     = Some (NameFormat.utc year month day hour minute second))
  /\ (forall name before s year month day,
        NameFormat.nowhere NameFormat.has_timestamp name ->
        NameFormat.first_at NameFormat.has_date name before s ->
        NameFormat.DateAt s year month day ->
        extractDateFromBackupName name
        = Some (NameFormat.utc year month day "00" "00" "00"))
  /\ (forall name,
        NameFormat.nowhere NameFormat.has_timestamp name
        /\ NameFormat.nowhere NameFormat.has_date name
        <-> extractDateFromBackupName name = None)
  /\ (forall (S : Type) (service : S3Service S) (config : Config)
             (w w' : World S) (backups : list BackupWithDate),
        listBackupsWithDates config w = (Returned backups, w') ->
        forall b, In b backups ->
                  extractDateFromBackupName (name b) = Some (date b))
  /\ (forall year month day hour minute second,
        NameFormat.is_digits 4 year -> NameFormat.is_digits 2 month ->
        NameFormat.is_digits 2 day -> NameFormat.is_digits 2 hour ->
        NameFormat.is_digits 2 minute -> NameFormat.is_digits 2 second ->
        1 <= JsString.digitsVal month <= 12 ->
        1 <= JsString.digitsVal day <= 31 ->
        JsString.digitsVal hour <= 23 -> JsString.digitsVal minute <= 59 ->
        JsString.digitsVal second <= 59 ->
        NameFormat.utc year month day hour minute second
        = Some (JsDate.MakeDate
                  (JsDate.MakeDay (JsString.digitsVal year)
                     (JsString.digitsVal month - 1) (JsString.digitsVal day))
                  (JsDate.MakeTime (JsString.digitsVal hour)
                     (JsString.digitsVal minute) (JsString.digitsVal second)
                     0)))
  /\ extractDateFromBackupName "mydb-2024-01-15-03-30-00"
     = Some (Some 1705289400000)
  /\ JsDate.toISOString 1705289400000 = "2024-01-15T03:30:00.000Z"
  /\ extractDateFromBackupName "mydb-2024-01-15" = Some (Some 1705276800000)
  /\ JsDate.toISOString 1705276800000 = "2024-01-15T00:00:00.000Z"
  /\ extractDateFromBackupName "mydb-backup" = None
  /\ fst (listBackupsWithDates Demo.config
            (Demo.world_of ["backups/mongodb/mydb-2024-01-15-03-30-00/a.gz";
                            "backups/mongodb/mydb-2024-01-15/a.gz";
                            "backups/mongodb/mydb-backup/a.gz"]))
     = Returned
         [{| name := "mydb-2024-01-15-03-30-00"; date := Some 1705289400000 |};
          {| name := "mydb-2024-01-15"; date := Some 1705276800000 |}].
Proof.
  split_and!.
  - apply extractDate_timestamp.
  - apply extractDate_date.
  - apply extractDate_none.
  - intros S service config w w' backups Hrun b Hb.
    destruct (listBackupsWithDates_run config w) as (w1 & _ & Hrun').
    rewrite Hrun in Hrun'. injection Hrun' as Hout _.
    destruct (listObjectsV2 _ _ _).1 as [message|response]; [done|].
    injection Hout as ->.
    by apply In_listed_backups in Hb as (p & _ & _ & _ & Hd).
  - apply utc_valid.
  - reflexivity.
  - vm_compute. reflexivity.
  - reflexivity.
  - vm_compute. reflexivity.
  - reflexivity.
  - vm_compute. reflexivity.
Qed.

(** ** Retention days *)

Section PruneDaysFacts.
Context {S : Type} `{S3Service S}.

(** [getPruneDays] returns the resolved days, and prints at most the
    warning. *)
Lemma getPruneDays_run process_env optionDays (w : World S) :
  exists w',
    getPruneDays process_env optionDays w
    = (Returned (resolved_days process_env optionDays), w')
    /\ same_store w w'.
Proof.
  unfold getPruneDays, resolved_days.
  destruct optionDays as [d|]; [by exists w|].
  destruct (process_env !! "PRUNE_DAYS") as [envDays|]; [|by exists w].
  destruct (JsString.truthy envDays) eqn:Ht.
  - destruct (JsGlobal.parseInt envDays) as [n|].
    + destruct (0 <? n); [by exists w|].
      eexists. split; [reflexivity|done].
    + eexists. split; [reflexivity|done].
  - destruct envDays; [|done]. by exists w.
Qed.
End PruneDaysFacts.

(** C7: an explicit days parameter is used as it is; without one, the
    value of [PRUNE_DAYS] is used when it is present and parses as a
    positive integer; a value that is present but does not parse, or is
    not positive, prints one warning and gives 14; when no value is
    present the result is 14.  The function always returns.  The parsed
    value is taken up to 2^53 - 1, where the number that [parseInt] returns
    is the integer that the digits write. *)
Theorem C7_retention_days_resolution
    (S : Type) (service : S3Service S) (process_env : gmap string string)
    (w : World S) :
  (forall explicit,
     getPruneDays process_env (Some explicit) w = (Returned explicit, w))
  /\ (forall value n,
        present process_env "PRUNE_DAYS" value ->
        JsGlobal.parseInt value = Some n -> 0 < n <= 9007199254740991 ->
        getPruneDays process_env None w = (Returned n, w))
  /\ (forall value,
        present process_env "PRUNE_DAYS" value ->
        (JsGlobal.parseInt value = None
         \/ exists n, JsGlobal.parseInt value = Some n /\ n <= 0) ->
        getPruneDays process_env None w
        = (Returned 14,
           printed w WARN
             ("⚠️  Invalid PRUNE_DAYS value " +:+ JsString.DQUOTE +:+ value
              +:+ JsString.DQUOTE +:+ ", using default 14 days")))
  /\ ((forall value, ~ present process_env "PRUNE_DAYS" value) ->
      getPruneDays process_env None w = (Returned 14, w))
  /\ (forall optionDays,
        resolved_days process_env optionDays <= 9007199254740991 ->
        fst (getPruneDays process_env optionDays w)
        = Returned (resolved_days process_env optionDays))
  /\ (forall optionDays,
        exists days,
          fst (getPruneDays process_env optionDays w) = Returned days)
  /\ getPruneDays {[ "PRUNE_DAYS" := "abc" ]} None (Demo.world_of [])
     = (Returned 14,
        printed (Demo.world_of []) WARN
          ("⚠️  Invalid PRUNE_DAYS value " +:+ JsString.DQUOTE +:+ "abc"
           +:+ JsString.DQUOTE +:+ ", using default 14 days"))
  /\ getPruneDays {[ "PRUNE_DAYS" := "0" ]} None (Demo.world_of [])
     = (Returned 14,
        printed (Demo.world_of []) WARN
          ("⚠️  Invalid PRUNE_DAYS value " +:+ JsString.DQUOTE +:+ "0"
           +:+ JsString.DQUOTE +:+ ", using default 14 days"))
  /\ getPruneDays {[ "PRUNE_DAYS" := "30" ]} None (Demo.world_of [])
     = (Returned 30, Demo.world_of [])
  /\ getPruneDays {[ "PRUNE_DAYS" := "30" ]} (Some 7) (Demo.world_of [])
     = (Returned 7, Demo.world_of []).
Proof.
  split_and!; [intros explicit; reflexivity| | | | |
               |vm_compute; reflexivity..].
  - intros value n [Henv Hne] Hp [Hn _]. unfold getPruneDays.
    rewrite Henv, Hne, Hp. by rewrite (proj2 (Z.ltb_lt 0 n) Hn).
  - intros value [Henv Hne] Hp. unfold getPruneDays. rewrite Henv, Hne.
    destruct Hp as [->|(n & -> & Hn)]; [reflexivity|].
    by rewrite (proj2 (Z.ltb_ge 0 n) Hn).
  - intros Habsent. unfold getPruneDays.
    destruct (process_env !! "PRUNE_DAYS") as [value|] eqn:Henv; [|done].
    destruct (JsString.truthy value) eqn:Hne; [|done].
    by destruct (Habsent value).
  - intros optionDays _.
    destruct (getPruneDays_run process_env optionDays w) as (w' & -> & _). done.
  - intros optionDays.
    destruct (getPruneDays_run process_env optionDays w) as (w' & -> & _).
    by eexists.
Qed.

(** ** Deletion of a backup *)

Section BatchFacts.
Context {A : Type}.

Lemma Batches_sizes (l : list A) bs :
  Batches l bs ->
  Forall (fun b => (0 < length b <= batchSize)%nat) bs /\ concat bs = l.
Proof.
  induction 1 as [|l bs Hne _ [IHf IHc]]; [by split|]. split.
  - constructor; [|done]. rewrite length_take. destruct l; [done|].
    unfold batchSize. simpl length. lia.
  - simpl. by rewrite IHc, take_drop.
Qed.

Lemma Batches_empty bs : Batches (@nil A) bs -> bs = [].
Proof. by inversion 1. Qed.

(** 1500 keys go in two batches, of 1000 and of 500. *)
Lemma Batches_1500 (l : list A) bs :
  length l = 1500%nat -> Batches l bs -> map length bs = [1000; 500]%nat.
Proof.
  intros Hl Hb. inversion Hb as [|l' bs1 _ Hb1]; subst; [done|].
  inversion Hb1 as [Hnil|l' bs2 _ Hb2]; subst.
  { assert (length (drop batchSize l) = 0%nat) as Hd by by rewrite <- Hnil.
    rewrite length_drop in Hd. unfold batchSize in Hd. lia. }
  rewrite drop_drop in Hb2.
  assert (drop (batchSize + batchSize) l = []) as Hend.
  { apply drop_ge. unfold batchSize. lia. }
  rewrite Hend in Hb2. apply Batches_empty in Hb2 as ->.
  simpl. rewrite !length_take, length_drop, Hl. reflexivity.
Qed.
End BatchFacts.

Section DeleteFacts.
Context {S : Type} `{S3Service S}.

Lemma slice_batch {A} (l : list A) i :
  JsArray.slice l i (i + batchSize) = take batchSize (drop i l).
Proof. unfold JsArray.slice. f_equal. lia. Qed.

(** A run of the loop that returns has sent every batch. *)
Lemma delete_batches_returned fuel client config objs i total
    (w w' : World S) r :
  (length objs - i <= fuel)%nat ->
  delete_batches fuel client config objs i total w = (Returned r, w') ->
  exists bs,
    Batches (drop i objs) bs
    /\ sent w' = sent w ++ map (batch_request config) bs
    /\ r = (total + length (drop i objs))%nat
    /\ console w' = console w /\ clock w' = clock w.
Proof.
  revert i total w w' r.
  induction fuel as [|fuel IH]; intros i total w w' r Hfuel.
  - simpl. destruct (i <? length objs)%nat eqn:Hi.
    + apply Nat.ltb_lt in Hi. lia.
    + apply Nat.ltb_ge in Hi. intros [= <- <-]. exists [].
      rewrite drop_ge by done.
      split_and!; [constructor|by rewrite app_nil_r|simpl; lia|done|done].
  - simpl. destruct (i <? length objs)%nat eqn:Hi.
    + apply Nat.ltb_lt in Hi. unfold bind at 1, send_delete at 1.
      destruct (deleteObjects _ _ _) as [[message|[]] s1]; [done|].
      intros Hrun. apply IH in Hrun as (bs & Hbs & Hsent & -> & Hcon & Hclk);
        [|unfold batchSize; lia].
      simpl in Hsent, Hcon, Hclk. rewrite slice_batch in Hsent |- *.
      exists (take batchSize (drop i objs) :: bs).
      split_and!; [| | |by rewrite Hcon|by rewrite Hclk].
      * constructor.
        -- intros Hnil. assert (length (drop i objs) = 0%nat) as Hd
             by by rewrite Hnil.
           rewrite length_drop in Hd. lia.
        -- by rewrite drop_drop.
      * rewrite Hsent, <- app_assoc. reflexivity.
      * rewrite <- (take_drop batchSize (drop i objs)) at 2.
        rewrite length_app, drop_drop. lia.
    + apply Nat.ltb_ge in Hi. intros [= <- <-]. exists [].
      rewrite drop_ge by done.
      split_and!; [constructor|by rewrite app_nil_r|simpl; lia|done|done].
Qed.

(** The loop ends by returning or by the exception of a request. *)
Lemma delete_batches_outcome fuel client config objs i total (w : World S) :
  match fst (delete_batches fuel client config objs i total w) with
  | Returned _ => True
  | Thrown e => exists message, e = S3ServiceException message
  | Exited _ => False
  end.
Proof.
  revert i total w. induction fuel as [|fuel IH]; intros i total w; simpl.
  - by destruct (i <? length objs)%nat.
  - destruct (i <? length objs)%nat; [|done].
    unfold bind at 1, send_delete at 1.
    destruct (deleteObjects _ _ _) as [[message|[]] s1]; simpl; [by eexists|].
    apply IH.
Qed.

Lemma objectsToDelete_all objects :
  Forall has_key objects ->
  length (objectsToDelete objects) = length objects.
Proof.
  induction 1 as [|obj objects (k & Hk & Hne) _ IH]; [done|].
  unfold objectsToDelete in *. simpl. rewrite Hk.
  destruct k; [done|]. simpl. f_equal. exact IH.
Qed.

(** The four ways in which [deleteBackup] ends. *)
Lemma deleteBackup_run config backupName (w : World S) :
  let request := backup_listing config backupName in
  let answer := listObjectsV2 (createS3Client config) request (store w) in
  let w1 := mkWorld (snd answer) (sent w ++ [ListObjectsV2Command request])
                    (console w) (clock w) in
  match fst answer with
  | inl message =>
      deleteBackup config backupName w = (Thrown (S3ServiceException message), w1)
  | inr response =>
      let objects := default [] (Contents response) in
      if (length objects =? 0)%nat then
        deleteBackup config backupName w
        = (Thrown (Error ("No backup found at s3://" +:+ bucket (s3 config)
                          +:+ "/" +:+ prefix (s3 config) +:+ "/"
                          +:+ backupName)), w1)
      else if (length (objectsToDelete objects) =? 0)%nat then
        deleteBackup config backupName w
        = (Returned {| backupName := backupName; deletedFiles := 0 |}, w1)
      else
        deleteBackup config backupName w
        = (let '(r, w') :=
             delete_batches (length (objectsToDelete objects))
               (createS3Client config) config (objectsToDelete objects) 0 0 w1 in
           match r with
           | Returned total =>
               (Returned {| backupName := backupName; deletedFiles := total |},
                w')
           | Thrown e => (Thrown e, w')
           | Exited c => (Exited c, w')
           end)
  end.
Proof.
  intros request answer w1. subst w1 answer request.
  unfold deleteBackup, bind, send_list, backup_listing, throw, ret.
  cbv beta zeta.
  destruct (listObjectsV2 _ _ _) as [[message|response] s1]; simpl; [done|].
  destruct (length (default [] (Contents response)) =? 0)%nat; [done|].
  destruct (length (objectsToDelete _) =? 0)%nat; [done|].
  by destruct (delete_batches _ _ _ _ _ _ _) as [[]].
Qed.
End DeleteFacts.

(** ** The store in memory *)

Section MemS3Facts.
Import MemS3.

Lemma list_objects_flat client config pfx s :
  answers config s ->
  (length (matching pfx s) <= maxKeys s)%nat ->
  list_objects client
    {| Bucket := bucket (s3 config); Prefix := pfx; Delimiter := None |} s
  = (inr {| Contents :=
              some_if_nonempty (map (fun k => {| Key := Some k |})
                                    (matching pfx s));
            CommonPrefixes := None |}, s).
Proof.
  intros [Hf Hb] Hlen. unfold list_objects, next_fault. rewrite Hf.
  simpl. rewrite Hb, String.eqb_refl. simpl.
  fold (matching pfx s). rewrite take_ge by done.
  assert (forall l : list string, List.filter (fun _ => true) l = l) as ->.
  { induction l as [|k l IH]; simpl; [done|]. by rewrite IH. }
  assert (forall l : list string, omap (fun _ => @None string) l = []) as ->.
  { induction l as [|k l IH]; simpl; done. }
  reflexivity.
Qed.

Lemma delete_objects_ok client config ks s :
  answers config s -> (length ks <= 1000)%nat ->
  delete_objects client
    {| del_Bucket := bucket (s3 config); del_Objects := ks; del_Quiet := true |} s
  = (inr tt, without ks s).
Proof.
  intros [Hf Hb] Hlen. unfold delete_objects, next_fault. rewrite Hf.
  simpl. rewrite Hb, String.eqb_refl. simpl.
  rewrite (proj2 (Nat.ltb_ge 1000 (length ks))) by lia.
  unfold without. by rewrite Hb.
Qed.

Lemma without_without ks ks' s :
  without ks' (without ks s) = without (ks ++ ks') s.
Proof.
  unfold without. simpl. f_equal.
  induction (keys s) as [|k l IH]; simpl; [done|].
  rewrite existsb_app.
  destruct (existsb _ ks); simpl; [done|].
  destruct (existsb _ ks'); simpl; by rewrite IH.
Qed.

Lemma answers_without config ks s : answers config s -> answers config (without ks s).
Proof. by intros []. Qed.

(** On a store that answers, the loop deletes every key it is given. *)
Lemma delete_batches_mem fuel client config ks i total (w : World state) :
  answers config (store w) ->
  (length ks - i <= fuel)%nat ->
  exists w',
    delete_batches fuel client config ks i total w
    = (Returned (total + length (drop i ks))%nat, w')
    /\ store w' = without (drop i ks) (store w).
Proof.
  revert i total w. induction fuel as [|fuel IH]; intros i total w Hs Hfuel.
  - simpl. destruct (Nat.ltb_spec i (length ks)); [lia|].
    exists w. rewrite drop_ge by done. split; [by rewrite Nat.add_0_r|].
    unfold without. simpl.
    assert (forall l : list string, List.filter (fun _ => true) l = l) as ->.
    { induction l as [|k l IHl]; simpl; [done|]. by rewrite IHl. }
    by destruct (store w).
  - simpl. destruct (Nat.ltb_spec i (length ks)).
    + rewrite slice_batch. unfold bind at 1, send_delete at 1. simpl.
      rewrite (delete_objects_ok _ config) by
        (done || (rewrite length_take; unfold batchSize; lia)).
      match goal with |- context [delete_batches fuel _ _ _ ?j ?t ?w1] =>
        destruct (IH j t w1) as (w' & -> & Hstore) end.
      * by apply answers_without.
      * unfold batchSize. lia.
      * exists w'. split.
        -- do 2 f_equal.
           rewrite <- (take_drop batchSize (drop i ks)) at 2.
           rewrite length_app, drop_drop. lia.
        -- rewrite Hstore. simpl. rewrite without_without.
           by rewrite <- drop_drop, take_drop.
    + exists w. rewrite drop_ge by done. split; [by rewrite Nat.add_0_r|].
      unfold without. simpl.
      assert (forall l : list string, List.filter (fun _ => true) l = l) as ->.
      { induction l as [|k l IHl]; simpl; [done|]. by rewrite IHl. }
      by destruct (store w).
Qed.

Lemma matching_without pfx s :
  matching pfx (without (map (fun k => {| oi_Key := k |}) (matching pfx s)) s)
  = [].
Proof.
  unfold matching, without. simpl.
  set (ks := map (fun k => {| oi_Key := k |})
                 (List.filter (fun k => JsString.startsWith k pfx) (keys s))).
  assert (forall k, In k (keys s) -> JsString.startsWith k pfx = true ->
                    existsb (fun o => String.eqb (oi_Key o) k) ks = true)
    as Hall.
  { intros k Hk Hp. apply existsb_exists. exists {| oi_Key := k |}.
    split; [|apply String.eqb_refl].
    subst ks. apply in_map. by apply filter_In. }
  clearbody ks. induction (keys s) as [|k l IH]; simpl; [done|].
  destruct (existsb (fun o => String.eqb (oi_Key o) k) ks) eqn:Hk; simpl.
  - apply IH. intros k' Hk'. apply Hall. by right.
  - destruct (JsString.startsWith k pfx) eqn:Hp.
    + rewrite Hall in Hk; [done|by left|done].
    + apply IH. intros k' Hk'. apply Hall. by right.
Qed.

Lemma objectsToDelete_matching pfx s :
  pfx <> "" ->
  objectsToDelete (map (fun k => {| Key := Some k |}) (matching pfx s))
  = map (fun k => {| oi_Key := k |}) (matching pfx s).
Proof.
  intros Hpfx.
  assert (forall k, In k (matching pfx s) -> JsString.truthy k = true) as Hall.
  { intros k [_ Hk]%filter_In. destruct k; [by destruct pfx|done]. }
  induction (matching pfx s) as [|k l IH]; [done|].
  unfold objectsToDelete in *. simpl. rewrite Hall by by left. simpl.
  f_equal. apply IH. intros k' Hk'. apply Hall. by right.
Qed.

(** On a store that answers and lists a backup whole, [deleteBackup]
    returns, having deleted every key under the listing prefix. *)
Lemma deleteBackup_returns_mem config backupName (w : World state) :
  answers config (store w) ->
  let found :=
    matching (prefix (s3 config) +:+ "/" +:+ backupName) (store w) in
  found <> [] ->
  (length found <= maxKeys (store w))%nat ->
  fst (deleteBackup config backupName w)
  = Returned {| backupName := backupName; deletedFiles := length found |}
  /\ store (snd (deleteBackup config backupName w))
     = without (map (fun k => {| oi_Key := k |}) found) (store w).
Proof.
  intros Hs found Hne Hlen. subst found.
  set (pfx := prefix (s3 config) +:+ "/" +:+ backupName) in *.
  assert (pfx <> "") as Hpfx.
  { subst pfx. destruct (prefix (s3 config)); discriminate. }
  pose proof (deleteBackup_run config backupName w) as Hrun.
  cbv zeta in Hrun. simpl listObjectsV2 in Hrun.
  unfold backup_listing in Hrun. fold pfx in Hrun.
  rewrite (list_objects_flat _ config pfx) in Hrun by done.
  cbn [fst snd] in Hrun.
  pose proof (objectsToDelete_matching pfx (store w) Hpfx) as Hks.
  destruct (matching pfx (store w)) as [|k ks] eqn:Hm; [done|].
  change (default [] (Contents _))
    with (map (fun k => {| Key := Some k |}) (k :: ks)) in Hrun.
  rewrite Hks in Hrun. simpl length in Hrun.
  change (Datatypes.S (length (map _ ks)) =? 0)%nat with false in Hrun.
  change (Datatypes.S (length (map (fun k0 => {| oi_Key := k0 |}) ks)) =? 0)%nat
    with false in Hrun.
  cbv iota in Hrun.
  match type of Hrun with context [delete_batches ?f ?c ?cfg ?o ?i ?t ?w1] =>
    destruct (delete_batches_mem f c cfg o i t w1) as (w' & Hloop & Hstore);
    [done|simpl; lia|rewrite Hloop in Hrun]
  end.
  rewrite Hrun. simpl. rewrite Hstore, drop_0. simpl store.
  split; [|done]. by rewrite length_map.
Qed.

(** There, a second [deleteBackup] finds nothing and throws, without a
    deletion request. *)
Lemma deleteBackup_again_mem config backupName (w : World state) :
  answers config (store w) ->
  (length (matching (prefix (s3 config) +:+ "/" +:+ backupName) (store w))
   <= maxKeys (store w))%nat ->
  let first := deleteBackup config backupName w in
  let again := deleteBackup config backupName (snd first) in
  fst again
  = Thrown (Error ("No backup found at s3://" +:+ bucket (s3 config) +:+ "/"
                   +:+ prefix (s3 config) +:+ "/" +:+ backupName))
  /\ sent (snd again)
     = sent (snd first)
       ++ [ListObjectsV2Command (backup_listing config backupName)].
Proof.
  intros Hs Hlen first again.
  set (pfx := prefix (s3 config) +:+ "/" +:+ backupName) in *.
  assert (forall w1 : World state,
            answers config (store w1) -> matching pfx (store w1) = [] ->
            fst (deleteBackup config backupName w1)
            = Thrown (Error ("No backup found at s3://" +:+ bucket (s3 config)
                             +:+ "/" +:+ pfx))
            /\ sent (snd (deleteBackup config backupName w1))
               = sent w1 ++ [ListObjectsV2Command (backup_listing config backupName)]
            /\ store (snd (deleteBackup config backupName w1)) = store w1)
    as Hempty.
  { intros w1 Hs1 Hm.
    pose proof (deleteBackup_run config backupName w1) as Hrun.
    cbv zeta in Hrun. simpl listObjectsV2 in Hrun.
    unfold backup_listing in Hrun. fold pfx in Hrun.
    rewrite (list_objects_flat _ config pfx) in Hrun
      by (done || (rewrite Hm; simpl; lia)).
    rewrite Hm in Hrun. simpl in Hrun. rewrite Hrun.
    split_and!; reflexivity. }
  assert (answers config (store (snd first))
          /\ matching pfx (store (snd first)) = []) as [Hs1 Hm1].
  { destruct (matching pfx (store w)) as [|k ks] eqn:Hm.
    - destruct (Hempty w Hs Hm) as (_ & _ & Hst). subst first.
      rewrite Hst. by split.
    - destruct (deleteBackup_returns_mem config backupName w Hs) as [_ Hst].
      + fold pfx. by rewrite Hm.
      + fold pfx. by rewrite Hm.
      + subst first. rewrite Hst. fold pfx.
        split; [by apply answers_without|apply matching_without]. }
  subst again. destruct (Hempty _ Hs1 Hm1) as (Hthrown & Hsent & _).
  by split.
Qed.
End MemS3Facts.

(** C4: a run of [deleteBackup] that returns has sent, after the listing,
    one deletion request per batch of the keys, in order; a batch holds at
    most 1000 keys, the batches together hold every key once, and
    [deletedFiles] is the number of keys submitted.  When the listing
    yields 1500 objects there are two requests, of 1000 and of 500 keys,
    and [deletedFiles] is 1500.  On a store that answers and lists the
    backup whole, the run does return. *)
Theorem C4_batches_of_at_most_1000 :
  (forall (S : Type) (service : S3Service S) (config : Config)
          (backupName : string) (w : World S) (objects : list S3Object)
          (result : DeleteResult),
     listed_objects config backupName w = Some objects ->
     fst (deleteBackup config backupName w) = Returned result ->
     exists batches,
       Batches (objectsToDelete objects) batches
       /\ sent (snd (deleteBackup config backupName w))
          = sent w ++ ListObjectsV2Command (backup_listing config backupName)
                      :: map (batch_request config) batches
       /\ Forall (fun batch => (0 < length batch <= 1000)%nat) batches
       /\ concat batches = objectsToDelete objects
       /\ deletedFiles result = length (objectsToDelete objects)
       /\ deletedFiles result = sum_list (map length batches)
       /\ (length objects = 1500%nat -> Forall has_key objects ->
           map length batches = [1000; 500]%nat
           /\ deletedFiles result = 1500%nat))
  /\ (forall (config : Config) (backupName : string)
             (w : World MemS3.state),
        MemS3.answers config (store w) ->
        let found :=
          MemS3.matching (prefix (s3 config) +:+ "/" +:+ backupName)
            (store w) in
        found <> [] ->
        (length found <= MemS3.maxKeys (store w))%nat ->
        fst (deleteBackup config backupName w)
        = Returned {| backupName := backupName;
                      deletedFiles := length found |}).
Proof.
  split; [|intros config backupName w Hs found Hne Hlen;
           by apply deleteBackup_returns_mem].
  intros S service config backupName w objects result.
  unfold listed_objects. intros Hlist Hret.
  pose proof (deleteBackup_run config backupName w) as Hrun. cbv zeta in Hrun.
  destruct (listObjectsV2 _ _ _).1 as [message|response]; [done|].
  injection Hlist as <-. set (objects := default [] (Contents response)) in *.
  assert (exists batches,
             Batches (objectsToDelete objects) batches
             /\ sent (snd (deleteBackup config backupName w))
                = sent w ++ ListObjectsV2Command (backup_listing config backupName)
                            :: map (batch_request config) batches
             /\ deletedFiles result = length (objectsToDelete objects))
    as (batches & Hb & Hsent & Hn).
  { destruct (length objects =? 0)%nat; [by rewrite Hrun in Hret|].
    destruct (length (objectsToDelete objects) =? 0)%nat eqn:Hk.
    - rewrite Hrun in Hret |- *. injection Hret as <-. simpl.
      apply Nat.eqb_eq in Hk. destruct (objectsToDelete objects); [|done].
      exists []. split_and!; [constructor|done|done].
    - rewrite Hrun in Hret |- *.
      destruct (delete_batches _ _ _ _ _ _ _) as [[total| |] w'] eqn:Hloop;
        [|done..].
      injection Hret as <-. simpl.
      apply delete_batches_returned in Hloop as (bs & Hbs & Hs & -> & _);
        [|lia].
      rewrite drop_0 in *. simpl in Hs. exists bs.
      split_and!; [done| |done]. by rewrite Hs, <- app_assoc. }
  exists batches. destruct (Batches_sizes _ _ Hb) as [Hsz Hcat].
  split_and!; try done.
  - by rewrite Hn, <- Hcat, length_concat.
  - intros Hlen Hkeys. rewrite <- (objectsToDelete_all _ Hkeys) in Hlen.
    split; [by eapply Batches_1500|congruence].
Qed.

Lemma C4_batches_of_at_most_1000_witness :
  let w := Demo.large_page_world (Demo.big_backup_keys 1500) in
  let objects := map (fun k => {| Key := Some k |}) (Demo.big_backup_keys 1500) in
  let result := {| backupName := "x"; deletedFiles := 1500 |} in
  listed_objects Demo.short_config "x" w = Some objects
  /\ fst (deleteBackup Demo.short_config "x" w) = Returned result
  /\ exists batches,
       sent (snd (deleteBackup Demo.short_config "x" w))
       = ListObjectsV2Command (backup_listing Demo.short_config "x")
         :: map (batch_request Demo.short_config) batches
       /\ map length batches = [1000; 500]%nat.
Proof.
  intros w objects result.
  assert (listed_objects Demo.short_config "x" w = Some objects) as Hlist
    by (vm_compute; reflexivity).
  assert (fst (deleteBackup Demo.short_config "x" w) = Returned result)
    as Hret by (vm_compute; reflexivity).
  assert (length objects = 1500%nat) as Hlen by (vm_compute; reflexivity).
  assert (Forall has_key objects) as Hkeys.
  { apply Forall_map, Forall_map, Forall_forall. intros i _.
    eexists. split; [reflexivity|]. discriminate. }
  split; [exact Hlist|]. split; [exact Hret|].
  destruct (proj1 C4_batches_of_at_most_1000 _ _ Demo.short_config "x" w
              objects result Hlist Hret)
    as (batches & _ & Hsent & _ & _ & _ & _ & Hsizes).
  exists batches. split; [exact Hsent|]. exact (proj1 (Hsizes Hlen Hkeys)).
Defined.

(** C6: [deleteBackup] throws its "No backup found" error exactly when the
    listing of the backup path yields no object, and then no deletion
    request has been sent.  On a store that answers and lists the backup
    whole, deleting the same backup again throws that error and sends no
    deletion request, whatever the first call did. *)
Theorem C6_not_found_iff_listing_empty
    (S : Type) (service : S3Service S) (config : Config)
    (backupName : string) (w : World S) :
  let not_found :=
    Error ("No backup found at s3://" +:+ bucket (s3 config) +:+ "/"
           +:+ prefix (s3 config) +:+ "/" +:+ backupName) in
  (listed_objects config backupName w = Some []
   <-> fst (deleteBackup config backupName w) = Thrown not_found)
  /\ (listed_objects config backupName w = Some [] ->
      sent (snd (deleteBackup config backupName w))
      = sent w ++ [ListObjectsV2Command (backup_listing config backupName)])
  /\ (forall (config : Config) (backupName : string)
             (w : World MemS3.state),
        MemS3.answers config (store w) ->
        (length (MemS3.matching (prefix (s3 config) +:+ "/" +:+ backupName)
                   (store w))
         <= MemS3.maxKeys (store w))%nat ->
        let first := deleteBackup config backupName w in
        let again := deleteBackup config backupName (snd first) in
        fst again
        = Thrown (Error ("No backup found at s3://" +:+ bucket (s3 config)
                         +:+ "/" +:+ prefix (s3 config) +:+ "/"
                         +:+ backupName))
        /\ sent (snd again)
           = sent (snd first)
             ++ [ListObjectsV2Command (backup_listing config backupName)])
  /\ (let w0 := Demo.world_of ["backups/mongodb/db-2024-01-01/a.gz";
                               "backups/mongodb/db-2024-01-01/b.gz";
                               "backups/mongodb/db-2024-02-01/a.gz"] in
      let first := deleteBackup Demo.config "db-2024-01-01" w0 in
      let again := deleteBackup Demo.config "db-2024-01-01" (snd first) in
      fst first = Returned {| backupName := "db-2024-01-01"; deletedFiles := 2 |}
      /\ MemS3.keys (store (snd first)) = ["backups/mongodb/db-2024-02-01/a.gz"]
      /\ fst again
         = Thrown (Error "No backup found at s3://env-bucket/backups/mongodb/db-2024-01-01")
      /\ sent (snd again)
         = sent (snd first)
           ++ [ListObjectsV2Command (backup_listing Demo.config "db-2024-01-01")]).
Proof.
  intros not_found. subst not_found.
  pose proof (deleteBackup_run config backupName w) as Hrun.
  cbv zeta in Hrun. unfold listed_objects.
  split; [|split; [|split]];
    [| |clear; intros; by apply deleteBackup_again_mem
     |vm_compute; by repeat split].
  - destruct (listObjectsV2 _ _ _).1 as [message|response].
    { rewrite Hrun. by split. }
    destruct (default [] (Contents response)) as [|obj objects] eqn:Hobjs.
    { simpl in Hrun. by rewrite Hrun. }
    change (length (obj :: objects) =? 0)%nat with false in Hrun.
    cbv iota in Hrun. split; [done|].
    set (ks := objectsToDelete (obj :: objects)) in *.
    destruct (length ks =? 0)%nat; rewrite Hrun; [done|].
    match goal with |- context [delete_batches ?f ?c ?cfg ?o ?i ?t ?w1] =>
      pose proof (delete_batches_outcome f c cfg o i t w1) as Hout;
      destruct (delete_batches f c cfg o i t w1) as [[total|e|code] w']
    end; simpl in Hout |- *; [done| |done].
    destruct Hout as [message ->]. done.
  - destruct (listObjectsV2 _ _ _).1 as [message|response]; [done|].
    destruct (default [] (Contents response)) as [|obj objects]; [|done].
    simpl in Hrun. by rewrite Hrun.
Qed.

(** ** The deletion phase *)

Section PhaseFacts.
Context {S : Type} `{S3Service S}.

Lemma delete_batches_sent fuel client config objs i total (w : World S) :
  exists extra,
    sent (snd (delete_batches fuel client config objs i total w))
    = sent w ++ extra.
Proof.
  revert i total w. induction fuel as [|fuel IH]; intros i total w; simpl.
  - exists []. rewrite app_nil_r. by destruct (i <? length objs)%nat.
  - destruct (i <? length objs)%nat; [|by exists []; rewrite app_nil_r].
    unfold bind at 1, send_delete at 1.
    destruct (deleteObjects _ _ _) as [[message|[]] s1]; simpl; [by eexists|].
    match goal with |- context [delete_batches ?f ?c ?cfg ?o ?j ?t ?w1] =>
      destruct (IH j t w1) as [extra ->] end.
    simpl. rewrite <- app_assoc. by eexists.
Qed.

(** [deleteBackup] returns or throws, and starts by listing the backup. *)
Lemma deleteBackup_outcome config backupName (w : World S) :
  (exists result, fst (deleteBackup config backupName w) = Returned result)
  \/ (exists error, fst (deleteBackup config backupName w) = Thrown error).
Proof.
  pose proof (deleteBackup_run config backupName w) as Hrun. cbv zeta in Hrun.
  destruct (listObjectsV2 _ _ _).1 as [message|response];
    [right; rewrite Hrun; by eexists|].
  destruct (length (default [] (Contents response)) =? 0)%nat;
    [right; rewrite Hrun; by eexists|].
  destruct (length (objectsToDelete _) =? 0)%nat;
    [left; rewrite Hrun; by eexists|].
  rewrite Hrun.
  match goal with |- context [delete_batches ?f ?c ?cfg ?o ?i ?t ?w1] =>
    pose proof (delete_batches_outcome f c cfg o i t w1) as Hout;
    destruct (delete_batches f c cfg o i t w1) as [[total|e|code] w']
  end; simpl in Hout |- *; [left|right|done]; by eexists.
Qed.

Lemma deleteBackup_sent config backupName (w : World S) :
  exists extra,
    sent (snd (deleteBackup config backupName w))
    = sent w ++ ListObjectsV2Command (backup_listing config backupName)
                :: extra.
Proof.
  pose proof (deleteBackup_run config backupName w) as Hrun. cbv zeta in Hrun.
  destruct (listObjectsV2 _ _ _).1 as [message|response];
    [rewrite Hrun; by exists []|].
  destruct (length (default [] (Contents response)) =? 0)%nat;
    [rewrite Hrun; by exists []|].
  destruct (length (objectsToDelete _) =? 0)%nat;
    [rewrite Hrun; by exists []|].
  rewrite Hrun.
  match goal with |- context [delete_batches ?f ?c ?cfg ?o ?i ?t ?w1] =>
    destruct (delete_batches_sent f c cfg o i t w1) as [extra Hextra];
    destruct (delete_batches f c cfg o i t w1) as [[total|e|code] w']
  end; simpl in Hextra |- *; rewrite Hextra, <- app_assoc; by eexists.
Qed.

Lemma Attempts_sent config (w w' : World S) backups oks :
  Attempts config w backups oks w' ->
  (exists extra, sent w' = sent w ++ extra)
  /\ length oks = length backups
  /\ forall b, In b backups ->
       In (ListObjectsV2Command (backup_listing config (name b))) (sent w').
Proof.
  induction 1 as [w|w b bs result w1 oks w' Hrun _ (Hext & Hlen & Hall)
                 |w b bs error w1 oks w' Hrun _ (Hext & Hlen & Hall)].
  - split_and!; [by exists []; rewrite app_nil_r|done|by intros ? []].
  - destruct (deleteBackup_sent config (name b) w) as [extra Hs].
    rewrite Hrun in Hs. destruct Hext as [extra' Hext]. simpl in Hs, Hext.
    rewrite Hs, <- app_assoc in Hext.
    split_and!; [by eexists|simpl; by rewrite Hlen|].
    intros b' [<-|Hb']; [|by apply Hall].
    rewrite Hext. apply in_app_iff. right. by left.
  - destruct (deleteBackup_sent config (name b) w) as [extra Hs].
    rewrite Hrun in Hs. destruct Hext as [extra' Hext]. simpl in Hs, Hext.
    rewrite Hs, <- app_assoc in Hext.
    split_and!; [by eexists|simpl; by rewrite Hlen|].
    intros b' [<-|Hb']; [|by apply Hall].
    rewrite Hext. apply in_app_iff. right. by left.
Qed.

Lemma delete_one_run config b deletedCount errorCount (w : World S) :
  delete_one config b (deletedCount, errorCount) w
  = match deleteBackup config (name b) w with
    | (Returned result, w1) =>
        (Returned (Datatypes.S deletedCount, errorCount),
         printed w1 LOG ("   🗑️  Deleted: " +:+ name b +:+ " ("
                         +:+ pretty (deletedFiles result) +:+ " files)"))
    | (Thrown error, w1) =>
        (Returned (deletedCount, Datatypes.S errorCount),
         printed w1 ERROR ("   ❌ Failed to delete " +:+ name b +:+ ":"
                           +:+ " " +:+ exn_message error))
    | (Exited code, w1) => (Exited code, w1)
    end.
Proof.
  unfold delete_one, try_catch, bind, console_log, console_error,
    console_write, ret, printed.
  by destruct (deleteBackup config (name b) w) as [[result|error|code] w1].
Qed.

(** The loop attempts every backup and counts the outcomes. *)
Lemma for_of_delete_one config backups deletedCount errorCount (w : World S) :
  exists oks w',
    Attempts config w backups oks w'
    /\ for_of backups (delete_one config) (deletedCount, errorCount) w
       = (Returned ((deletedCount + length (List.filter id oks))%nat,
                    (errorCount + length (List.filter negb oks))%nat), w').
Proof.
  revert deletedCount errorCount w.
  induction backups as [|b bs IH]; intros deletedCount errorCount w.
  - exists [], w. split; [constructor|]. simpl. unfold ret.
    by rewrite !Nat.add_0_r.
  - cbn [for_of]. unfold bind at 1. rewrite delete_one_run.
    destruct (deleteBackup_outcome config (name b) w) as [[result Hr]|[error He]];
      destruct (deleteBackup config (name b) w) as [o w1] eqn:Hrun;
      simpl in *; subst o.
    + match goal with |- context [for_of bs _ ?st ?w2] =>
        destruct (IH (Datatypes.S deletedCount) errorCount w2)
          as (oks & w' & Hatt & Hloop) end.
      exists (true :: oks), w'. split; [by econstructor|].
      rewrite Hloop. simpl. do 3 f_equal. lia.
    + match goal with |- context [for_of bs _ ?st ?w2] =>
        destruct (IH deletedCount (Datatypes.S errorCount) w2)
          as (oks & w' & Hatt & Hloop) end.
      exists (false :: oks), w'. split; [by econstructor|].
      rewrite Hloop. simpl. do 3 f_equal. lia.
Qed.
End PhaseFacts.

Lemma delete_phase_run {S : Type} `{S3Service S} config backups (w : World S) :
  exists oks w1,
    Attempts config w backups oks w1
    /\ let deleted := length (List.filter id oks) in
       let errors := length (List.filter negb oks) in
       let w2 :=
         printed (printed (printed w1 LOG "") LOG "✅ Prune complete!") LOG
           ("   Deleted: " +:+ pretty deleted +:+ " backup(s)") in
       delete_phase config backups w
       = (Exited (if (0 <? errors)%nat then 1 else 0),
          if (0 <? errors)%nat
          then printed w2 LOG ("   Errors: " +:+ pretty errors)
          else w2).
Proof.
  destruct (for_of_delete_one config backups 0 0 w) as (oks & w1 & Hatt & Hloop).
  exists oks, w1. split; [done|]. intros deleted errors w2.
  unfold delete_phase, bind at 1. rewrite Hloop. simpl.
  unfold bind, console_log, console_write, ret, process_exit. simpl.
  fold deleted errors. by destruct (0 <? errors)%nat.
Qed.

(** C5: the deletion phase attempts every backup of [backupsToDelete] in
    turn, each from the world that the attempt before left, whether that
    attempt succeeded or failed; nothing but these attempts acts on the
    store, so what a successful attempt deleted stays deleted; and the
    process exits with 0 when no attempt failed and with 1 otherwise.  In
    a run where the deletion of the first backup fails and that of the
    second succeeds, the report shows one backup deleted and one error,
    the exit status is 1, and the objects of the second backup are gone. *)
Theorem C5_deletion_failures_are_isolated
    (S : Type) (service : S3Service S) (config : Config)
    (backups : list BackupWithDate) (w : World S) :
  (exists oks w1,
     Attempts config w backups oks w1
     /\ length oks = length backups
     /\ (forall b, In b backups ->
           In (ListObjectsV2Command (backup_listing config (name b)))
              (sent w1))
     /\ fst (delete_phase config backups w)
        = Exited (if (0 <? length (List.filter negb oks))%nat then 1 else 0)
     /\ store (snd (delete_phase config backups w)) = store w1
     /\ sent (snd (delete_phase config backups w)) = sent w1
     /\ In (LOG, "   Deleted: " +:+ pretty (length (List.filter id oks))
                 +:+ " backup(s)")
           (console (snd (delete_phase config backups w)))
     /\ (fst (delete_phase config backups w) = Exited 0
         <-> Forall (fun ok => ok = true) oks))
  /\ (let first := "backups/mongodb/db-2024-01-02/a.gz" in
      let second := "backups/mongodb/db-2024-01-01/a.gz" in
      let run :=
        runPrune Demo.env Demo.utc_zone Demo.no_options
          (Demo.faulty_world [first; second] [false; true]) in
      fst run = Exited 1
      /\ MemS3.keys (store (snd run)) = [first]
      /\ In (ERROR, "   ❌ Failed to delete db-2024-01-02: InternalError")
            (console (snd run))
      /\ In (LOG, "   🗑️  Deleted: db-2024-01-01 (1 files)") (console (snd run))
      /\ In (LOG, "   Deleted: 1 backup(s)") (console (snd run))
      /\ In (LOG, "   Errors: 1") (console (snd run))).
Proof.
  split; [|vm_compute; split_and!; tauto].
  destruct (delete_phase_run config backups w) as (oks & w1 & Hatt & Hrun).
  cbv zeta in Hrun.
  destruct (Attempts_sent _ _ _ _ _ Hatt) as (_ & Hlen & Hall).
  exists oks, w1. rewrite Hrun. simpl.
  assert ((0 <? length (List.filter negb oks))%nat = false
          <-> Forall (fun ok => ok = true) oks) as Hok.
  { clear. induction oks as [|[] oks IH]; simpl.
    - split; [constructor|done].
    - rewrite IH. split; [by constructor|by inversion 1].
    - split; [done|by inversion 1]. }
  split_and!; try done.
  - by destruct (0 <? _)%nat.
  - by destruct (0 <? _)%nat.
  - destruct (0 <? _)%nat; simpl; rewrite ?in_app_iff; simpl; tauto.
  - rewrite <- Hok. destruct (0 <? _)%nat; split; congruence.
Qed.

(** ** Running a sequence of commands *)

Section RunFacts.
Context {S : Type}.

Lemma console_log_run line (w : World S) :
  console_log line w = (Returned tt, printed w LOG line).
Proof. reflexivity. Qed.

Lemma bind_run {A B} (m : M S A) (k : A -> M S B) (w : World S) :
  bind m k w
  = match m w with
    | (Returned a, w') => k a w'
    | (Thrown e, w') => (Thrown e, w')
    | (Exited c, w') => (Exited c, w')
    end.
Proof. reflexivity. Qed.

End RunFacts.

(** One step of a run: the first command of a sequence is run and its
    outcome consumed. *)
Ltac run_step := rewrite bind_run; cbv beta iota.
Ltac run_log := rewrite bind_run, console_log_run; cbv beta iota.

(** ** The dry run *)

Section DryRunFacts.
Context {S : Type} `{S3Service S}.

Lemma backupsToDelete_valid cutoffDate backups b :
  In b (backupsToDelete cutoffDate backups) ->
  exists t c, date b = Some t /\ cutoffDate = Some c /\ t < c.
Proof.
  intros [_ Hlt]%In_backupsToDelete. unfold JsDate.lt in Hlt.
  destruct (date b) as [t|], cutoffDate as [c|]; try done.
  exists t, c. split_and!; [done..|]. by apply Z.ltb_lt.
Qed.

(** The report of the backups scheduled for deletion: one line each. *)
Lemma report_run (l : list BackupWithDate) (w : World S) :
  Forall (fun b => is_Some (date b)) l ->
  for_of l
    (fun b (_ : unit) =>
       iso <- Date_toISOString (date b) ;;
       console_log ("   - " +:+ name b +:+ " (" +:+ iso +:+ ")"))
    tt w
  = (Returned tt,
     mkWorld (store w) (sent w) (console w ++ map report_line l) (clock w)).
Proof.
  revert w. induction l as [|b l IH]; intros w Hl.
  - simpl. unfold ret. rewrite app_nil_r. by destruct w.
  - apply Forall_cons_1 in Hl as [[t Ht] Hl]. cbn [for_of].
    unfold bind at 1. unfold bind at 1. rewrite Ht. simpl.
    unfold console_log, console_write. rewrite IH by done. simpl.
    unfold report_line at 2. rewrite Ht.
    by rewrite <- app_assoc.
Qed.

(** The [try] block in a dry run with something to delete. *)
Lemma runPrune_try_dry_run process_env options config response cutoffDate
    (w : World S) :
  options_dryRun options = Some true ->
  loadConfig process_env = inr config ->
  fst (listObjectsV2 (createS3Client config) (listing_request config)
         (store w)) = inr response ->
  let toDelete := backupsToDelete cutoffDate (listed_backups config response) in
  toDelete <> [] ->
  exists w',
    runPrune_try process_env options cutoffDate w = (Exited 0, w')
    /\ sent w' = sent w ++ [ListObjectsV2Command (listing_request config)]
    /\ store w'
       = snd (listObjectsV2 (createS3Client config) (listing_request config)
                (store w))
    /\ (forall b, In b toDelete -> In (report_line b) (console w'))
    /\ In (LOG, "✅ Dry run complete. No files were deleted.") (console w').
Proof.
  intros Hdry Hconfig Hanswer toDelete Hne.
  assert (Forall (fun b => is_Some (date b)) toDelete) as Hvalid.
  { apply Forall_forall. intros b Hb%list_elem_of_In.
    destruct (backupsToDelete_valid _ _ _ Hb) as (t & _ & -> & _). by eexists. }
  destruct (listBackupsWithDates_run config w)
    as (w1 & (Hstore1 & Hsent1 & Hclock1) & Hlist).
  rewrite Hanswer in Hlist. simpl in Hstore1, Hsent1.
  assert ((length (listed_backups config response) =? 0)%nat = false) as Hsome.
  { apply Nat.eqb_neq. intros Hz. apply Hne. subst toDelete.
    destruct (listed_backups config response); [done|discriminate]. }
  assert ((length toDelete =? 0)%nat = false) as Hsome'.
  { apply Nat.eqb_neq. intros Hz. apply Hne. by destruct toDelete. }
  eexists. split.
  { unfold runPrune_try. rewrite Hconfig, Hdry.
    rewrite bind_run. cbn [lift ret]. cbv beta iota.
    rewrite bind_run, Hlist. cbv beta iota.
    fold toDelete. rewrite Hsome, Hsome'.
    rewrite bind_run. cbn [ret]. cbv beta iota.
    do 3 run_log.
    rewrite bind_run. cbn [ret]. cbv beta iota.
    run_log.
    rewrite bind_run, report_run by done. cbv beta iota.
    run_log.
    rewrite bind_run, bool_decide_eq_true_2 by done. cbv beta iota.
    run_log. unfold process_exit.
    reflexivity. }
  simpl. split_and!; [done|done| |].
  - intros b Hb.
    pose proof (in_map report_line _ _ Hb) as Hline.
    rewrite !in_app_iff. simpl. tauto.
  - rewrite !in_app_iff. simpl. tauto.
Qed.
End DryRunFacts.

(** C8: in a dry run where some backup is older than the cutoff, the run
    prints one line for every backup of [backupsToDelete], sends no
    request but the listing of the lister, so [deleteBackup] is not
    called and the store is as the listing left it, and exits with 0. *)
Theorem C8_dry_run_deletes_nothing
    (S : Type) (service : S3Service S) (process_env : gmap string string)
    (LocalTZA : Z -> bool -> Z) (options : PruneOptions) (w : World S)
    (config : Config) (response : ListObjectsV2Output) :
  options_dryRun options = Some true ->
  loadConfig process_env = inr config ->
  fst (listObjectsV2 (createS3Client config) (listing_request config)
         (store w)) = inr response ->
  let cutoffDate :=
    cutoff LocalTZA (Some (clock w))
      (resolved_days process_env (options_days options)) in
  let toDelete := backupsToDelete cutoffDate (listed_backups config response) in
  toDelete <> [] ->
  let run := runPrune process_env LocalTZA options w in
  fst run = Exited 0
  /\ sent (snd run) = sent w ++ [ListObjectsV2Command (listing_request config)]
  /\ store (snd run)
     = snd (listObjectsV2 (createS3Client config) (listing_request config)
              (store w))
  /\ (forall b, In b toDelete -> In (report_line b) (console (snd run)))
  /\ In (LOG, "✅ Dry run complete. No files were deleted.")
        (console (snd run)).
Proof.
  intros Hdry Hconfig Hanswer cutoffDate toDelete Hne run.
  assert (exists c, cutoffDate = Some c) as [c Hc].
  { destruct toDelete as [|b l] eqn:Hl; [done|].
    destruct (backupsToDelete_valid cutoffDate (listed_backups config response) b)
      as (t & c & _ & Hc & _); [fold toDelete; rewrite Hl; by left|].
    by exists c. }
  destruct (getPruneDays_run process_env (options_days options) w)
    as (w0 & Hdays & Hstore0 & Hsent0 & Hclock0).
  subst run. unfold runPrune.
  rewrite bind_run, Hdays. cbv beta iota.
  run_step. unfold new_Date. cbv beta iota.
  rewrite Hclock0. fold cutoffDate. rewrite Hc.
  run_log.
  rewrite bind_run. cbn [Date_toISOString ret]. cbv beta iota.
  run_log.
  rewrite bind_run, Hdry, bool_decide_eq_true_2 by done. cbv beta iota.
  rewrite console_log_run. cbv beta iota. unfold try_catch.
  match goal with |- context [runPrune_try _ _ _ ?w3] =>
    destruct (runPrune_try_dry_run process_env options config response
                (Some c) w3 Hdry Hconfig)
      as (w' & -> & Hsent & Hstore & Hreport & Hdone)
  end.
  - simpl. by rewrite Hstore0.
  - rewrite <- Hc. exact Hne.
  - simpl in Hsent, Hstore |- *. rewrite Hsent0 in Hsent. rewrite Hstore0 in Hstore.
    rewrite <- Hc in Hreport. by split_and!.
Qed.

Lemma C8_dry_run_deletes_nothing_witness :
  let w := Demo.world_of ["backups/mongodb/db-2024-01-01/a.gz";
                          "backups/mongodb/db-2024-03-09/a.gz"] in
  let run := runPrune Demo.env Demo.utc_zone Demo.dry_run w in
  fst run = Exited 0
  /\ sent (snd run) = [ListObjectsV2Command (listing_request Demo.config)]
  /\ store (snd run) = store w
  /\ In (LOG, "   - db-2024-01-01 (2024-01-01T00:00:00.000Z)") (console (snd run)).
Proof.
  intros w run.
  pose (response :=
          {| Contents := None;
             CommonPrefixes :=
               Some [{| cp_Prefix := Some "backups/mongodb/db-2024-01-01/" |};
                     {| cp_Prefix := Some "backups/mongodb/db-2024-03-09/" |}] |}).
  assert (options_dryRun Demo.dry_run = Some true) as Hdry by reflexivity.
  assert (loadConfig Demo.env = inr Demo.config) as Hconfig
    by (vm_compute; reflexivity).
  assert (fst (listObjectsV2 (createS3Client Demo.config)
                 (listing_request Demo.config) (store w)) = inr response)
    as Hanswer by (vm_compute; reflexivity).
  assert (backupsToDelete
            (cutoff Demo.utc_zone (Some (clock w))
               (resolved_days Demo.env (options_days Demo.dry_run)))
            (listed_backups Demo.config response) <> []) as Hne
    by (vm_compute; discriminate).
  destruct (C8_dry_run_deletes_nothing _ _ Demo.env Demo.utc_zone Demo.dry_run
              w Demo.config response Hdry Hconfig Hanswer Hne)
    as (Hexit & Hsent & Hstore & Hreport & _).
  split; [exact Hexit|]. split; [exact Hsent|]. split; [exact Hstore|].
  apply (Hreport {| name := "db-2024-01-01"; date := Some 1704067200000 |}).
  vm_compute. auto.
Defined.

(** ** The folder of a backup, and the overrides of the options *)

(** C3 does not hold of the code: [deleteBackup] lists with the prefix
    [{prefix}/{backupName}], without the [/] that closes the folder name,
    so the listing of [db-2024-01-01] also yields the objects of the
    sibling folder [db-2024-01-01-23-59-59], and their keys are submitted
    for deletion.  In a pruning run whose cutoff falls between the two
    backups, the sibling is counted as kept and its objects are deleted. *)
Theorem C3_sibling_keys_are_submitted :
  let own := "backups/mongodb/db-2024-01-01/dump.gz" in
  let sibling := "backups/mongodb/db-2024-01-01-23-59-59/dump.gz" in
  let run := deleteBackup Demo.config "db-2024-01-01"
               (Demo.world_of [own; sibling]) in
  let prune :=
    runPrune Demo.env Demo.utc_zone Demo.no_options
      (MemS3.world (Demo.bucket_of [own; sibling]) Demo.mid_january) in
  fst run = Returned {| backupName := "db-2024-01-01"; deletedFiles := 2 |}
  /\ sent (snd run)
     = [ListObjectsV2Command
          {| Bucket := "env-bucket";
             Prefix := "backups/mongodb/db-2024-01-01";
             Delimiter := None |};
        batch_request Demo.config [{| oi_Key := own |}; {| oi_Key := sibling |}]]
  /\ JsString.startsWith sibling "backups/mongodb/db-2024-01-01/" = false
  /\ MemS3.keys (store (snd run)) = []
  /\ fst prune = Exited 0
  /\ In (LOG, "   ✅ Keeping: 1") (console (snd prune))
  /\ In (LOG, "   - db-2024-01-01 (2024-01-01T00:00:00.000Z)")
        (console (snd prune))
  /\ ~ In (LOG, "   - db-2024-01-01-23-59-59 (2024-01-01T23:59:59.000Z)")
          (console (snd prune))
  /\ In (LOG, "   Deleted: 1 backup(s)") (console (snd prune))
  /\ MemS3.keys (store (snd prune)) = [].
Proof. vm_compute. split_and!; try reflexivity; try tauto. intuition congruence. Qed.

Section OverrideFacts.
Context {S : Type} `{S3Service S}.

(** [runPrune] reads the days and the dry-run flag of its options, and
    nothing else. *)
Lemma runPrune_reads_days_and_dryRun process_env LocalTZA
    (options options' : PruneOptions) (w : World S) :
  options_days options = options_days options' ->
  options_dryRun options = options_dryRun options' ->
  runPrune process_env LocalTZA options w
  = runPrune process_env LocalTZA options' w.
Proof.
  intros Hdays Hdry. unfold runPrune, runPrune_try.
  by rewrite Hdays, Hdry.
Qed.
End OverrideFacts.

(** C9 does not hold of the code: [runPrune] passes [options.bucket] and
    [options.prefix] to [loadConfig], which takes no argument and reads
    the bucket and the prefix from the environment; a run with overrides
    is the run without them, and its requests go to the bucket and the
    prefix of the environment. *)
Theorem C9_overrides_are_ignored :
  (forall (S : Type) (service : S3Service S) process_env LocalTZA
          (options : PruneOptions) (bucket prefix : option string)
          (w : World S),
     runPrune process_env LocalTZA
       {| options_bucket := bucket; options_prefix := prefix;
          options_days := options_days options;
          options_dryRun := options_dryRun options |} w
     = runPrune process_env LocalTZA options w)
  /\ (let w := Demo.world_of ["backups/mongodb/db-2024-01-01/a.gz"] in
      let run := runPrune Demo.env Demo.utc_zone Demo.overrides w in
      options_bucket Demo.overrides = Some "other-bucket"
      /\ options_prefix Demo.overrides = Some "other/prefix"
      /\ fst run = Exited 0
      /\ sent (snd run)
         = [ListObjectsV2Command
              {| Bucket := "env-bucket"; Prefix := "backups/mongodb/";
                 Delimiter := Some "/" |};
            ListObjectsV2Command
              {| Bucket := "env-bucket";
                 Prefix := "backups/mongodb/db-2024-01-01";
                 Delimiter := None |};
            DeleteObjectsCommand
              {| del_Bucket := "env-bucket";
                 del_Objects :=
                   [{| oi_Key := "backups/mongodb/db-2024-01-01/a.gz" |}];
                 del_Quiet := true |}]).
Proof.
  split.
  - intros. by apply runPrune_reads_days_and_dryRun.
  - vm_compute. by split_and!.
Qed.

(* ===================================================================== *)
(** * Further properties of the code                                      *)
(* ===================================================================== *)

(** ** The configuration *)

Section ConfigFacts.
Variable process_env : gmap string string.

Lemma getEnvOrThrow_present key value :
  getEnvOrThrow process_env key = inr value <-> present process_env key value.
Proof.
  unfold getEnvOrThrow, present.
  destruct (process_env !! key) as [v|]; [|split; [done|by intros []]].
  destruct (JsString.truthy v) eqn:Hv.
  - split; [by intros [= <-]|by intros [[= <-] _]].
  - split; [done|]. intros [[= <-] Ht]. congruence.
Qed.

Lemma getEnvOrThrow_missing key e :
  getEnvOrThrow process_env key = inl e ->
  e = Error ("Missing required environment variable: " +:+ key)
  /\ forall value, ~ present process_env key value.
Proof.
  unfold getEnvOrThrow, present.
  destruct (process_env !! key) as [v|]; [|intros [= <-]; split; [done|by intros ? []]].
  destruct (JsString.truthy v) eqn:Hv; [done|].
  intros [= <-]. split; [done|]. intros value [[= <-] Ht]. congruence.
Qed.

Lemma env_or_not_empty key d : d <> "" -> env_or process_env key d <> "".
Proof.
  intros Hd. unfold env_or, JsString.opt_or, JsString.or_else.
  destruct (process_env !! key) as [v|]; [|done].
  by destruct v.
Qed.

Lemma env_or_present key value d :
  present process_env key value -> env_or process_env key d = value.
Proof.
  intros [Hk Hv]. unfold env_or, JsString.opt_or, JsString.or_else.
  by rewrite Hk, Hv.
Qed.

Lemma env_or_absent key d :
  (forall value, ~ present process_env key value) ->
  env_or process_env key d = d.
Proof.
  intros Habs. unfold env_or, JsString.opt_or, JsString.or_else.
  destruct (process_env !! key) as [v|] eqn:Hk; [|done].
  destruct (JsString.truthy v) eqn:Hv; [|done]. by destruct (Habs v).
Qed.
End ConfigFacts.

(** X1: [loadConfig] succeeds exactly when the four required variables
    are present; otherwise it throws the error that names the first one
    missing, in the order database, access key, secret key, bucket.  In a
    loaded configuration the bucket is the value of [S3_BUCKET], the
    prefix is the value of [S3_PREFIX] or [backups/mongodb], and neither
    the bucket, the prefix nor the region is empty. *)
Theorem X1_loadConfig_required_variables (process_env : gmap string string) :
  let required :=
    ["MONGODB_DATABASE"; "AWS_ACCESS_KEY_ID"; "AWS_SECRET_ACCESS_KEY";
     "S3_BUCKET"] in
  ((exists config, loadConfig process_env = inr config)
   <-> Forall (fun key => exists value, present process_env key value) required)
  /\ (forall before key after,
        required = before ++ key :: after ->
        Forall (fun key => exists value, present process_env key value) before ->
        (forall value, ~ present process_env key value) ->
        loadConfig process_env
        = inl (Error ("Missing required environment variable: " +:+ key)))
  /\ (forall config,
        loadConfig process_env = inr config ->
        present process_env "S3_BUCKET" (bucket (s3 config))
        /\ present process_env "MONGODB_DATABASE" (database (mongodb config))
        /\ prefix (s3 config) = env_or process_env "S3_PREFIX" "backups/mongodb"
        /\ prefix (s3 config) <> ""
        /\ region (aws config) <> ""
        /\ endpoint (aws config) <> Some "").
Proof.
  intros required. subst required. unfold loadConfig.
  destruct (getEnvOrThrow process_env "MONGODB_DATABASE") as [e1|v1] eqn:H1.
  { apply getEnvOrThrow_missing in H1 as [-> H1]. split_and!.
    - split; [by intros [? ?]|]. intros Hall.
      apply Forall_cons_1 in Hall as [[v Hv] _]. by destruct (H1 v).
    - intros before key after Heq Hbefore Hkey.
      destruct before as [|k0 before]; [by injection Heq as <- _|].
      injection Heq as <- _. apply Forall_cons_1 in Hbefore as [[v Hv] _].
      by destruct (H1 v).
    - done. }
  destruct (getEnvOrThrow process_env "AWS_ACCESS_KEY_ID") as [e2|v2] eqn:H2.
  { apply getEnvOrThrow_missing in H2 as [-> H2]. split_and!.
    - split; [by intros [? ?]|]. intros Hall.
      apply Forall_cons_1 in Hall as [_ Hall].
      apply Forall_cons_1 in Hall as [[v Hv] _]. by destruct (H2 v).
    - intros before key after Heq Hbefore Hkey.
      apply getEnvOrThrow_present in H1.
      destruct before as [|k0 before]; [injection Heq as <- _; by destruct (Hkey v1)|].
      injection Heq as <- Heq.
      destruct before as [|k1 before]; [by injection Heq as <- _|].
      injection Heq as <- _. apply Forall_cons_1 in Hbefore as [_ Hbefore].
      apply Forall_cons_1 in Hbefore as [[v Hv] _]. by destruct (H2 v).
    - done. }
  destruct (getEnvOrThrow process_env "AWS_SECRET_ACCESS_KEY") as [e3|v3] eqn:H3.
  { apply getEnvOrThrow_missing in H3 as [-> H3]. split_and!.
    - split; [by intros [? ?]|]. intros Hall.
      do 2 apply Forall_cons_1 in Hall as [_ Hall].
      apply Forall_cons_1 in Hall as [[v Hv] _]. by destruct (H3 v).
    - intros before key after Heq Hbefore Hkey.
      apply getEnvOrThrow_present in H1, H2.
      destruct before as [|k0 before]; [injection Heq as <- _; by destruct (Hkey v1)|].
      injection Heq as <- Heq.
      destruct before as [|k1 before]; [injection Heq as <- _; by destruct (Hkey v2)|].
      injection Heq as <- Heq.
      destruct before as [|k2 before]; [by injection Heq as <- _|].
      injection Heq as <- _. do 2 apply Forall_cons_1 in Hbefore as [_ Hbefore].
      apply Forall_cons_1 in Hbefore as [[v Hv] _]. by destruct (H3 v).
    - done. }
  destruct (getEnvOrThrow process_env "S3_BUCKET") as [e4|v4] eqn:H4.
  { apply getEnvOrThrow_missing in H4 as [-> H4]. split_and!.
    - split; [by intros [? ?]|]. intros Hall.
      do 3 apply Forall_cons_1 in Hall as [_ Hall].
      apply Forall_cons_1 in Hall as [[v Hv] _]. by destruct (H4 v).
    - intros before key after Heq Hbefore Hkey.
      apply getEnvOrThrow_present in H1, H2, H3.
      destruct before as [|k0 before]; [injection Heq as <- _; by destruct (Hkey v1)|].
      injection Heq as <- Heq.
      destruct before as [|k1 before]; [injection Heq as <- _; by destruct (Hkey v2)|].
      injection Heq as <- Heq.
      destruct before as [|k2 before]; [injection Heq as <- _; by destruct (Hkey v3)|].
      injection Heq as <- Heq.
      destruct before as [|k3 before]; [by injection Heq as <- _|].
      injection Heq as <- Heq. by destruct before.
    - done. }
  apply getEnvOrThrow_present in H1, H2, H3, H4. split_and!.
  - split; [|by eexists]. intros _. repeat constructor; by eexists.
  - intros before key after Heq Hbefore Hkey.
    destruct before as [|k0 before]; [injection Heq as <- _; by destruct (Hkey v1)|].
    injection Heq as <- Heq.
    destruct before as [|k1 before]; [injection Heq as <- _; by destruct (Hkey v2)|].
    injection Heq as <- Heq.
    destruct before as [|k2 before]; [injection Heq as <- _; by destruct (Hkey v3)|].
    injection Heq as <- Heq.
    destruct before as [|k3 before]; [injection Heq as <- _; by destruct (Hkey v4)|].
    injection Heq as <- Heq. by destruct before.
  - intros config [= <-]. simpl. split_and!; try done.
    + by apply env_or_not_empty.
    + by apply env_or_not_empty.
    + unfold env_truthy.
      destruct (process_env !! "AWS_ENDPOINT") as [v|]; [|done].
      by destruct v.
Qed.

(** ** The address of the database *)

Section UriFacts.
Import JsString JsGlobal.

Lemma list_ascii_app (s t : string) :
  list_ascii_of_string (s +:+ t)
  = list_ascii_of_string s ++ list_ascii_of_string t.
Proof. induction s as [|c s IH]; [done|]. rewrite app_cons. simpl. by rewrite IH. Qed.

Lemma hexDigit_unreserved n : (n < 16)%nat -> uriUnreserved (hexDigit n) = true.
Proof.
  intros Hn.
  do 16 (destruct n as [|n]; [vm_compute; reflexivity|]). lia.
Qed.

(** What [encodeURIComponent] writes for one byte. *)
Lemma encode_byte_safe c :
  Forall (fun x => uriUnreserved x = true \/ x = "%"%char)
    (list_ascii_of_string
       (if uriUnreserved c then String c EmptyString
        else String "%"%char
               (String (hexDigit (nat_of_ascii c / 16))
                  (String (hexDigit (nat_of_ascii c mod 16)) "")))).
Proof.
  pose proof (nat_ascii_bounded c) as Hc.
  destruct (uriUnreserved c) eqn:Hu; cbn [list_ascii_of_string].
  - apply Forall_cons_2; [by left|constructor].
  - apply Forall_cons_2; [by right|].
    apply Forall_cons_2.
    { left. apply hexDigit_unreserved. apply Nat.Div0.div_lt_upper_bound. lia. }
    apply Forall_cons_2; [|constructor].
    left. apply hexDigit_unreserved. apply Nat.mod_upper_bound. lia.
Qed.

Lemma encodeURIComponent_safe s :
  Forall (fun x => uriUnreserved x = true \/ x = "%"%char)
    (list_ascii_of_string (encodeURIComponent s)).
Proof.
  induction s as [|c s IH]; simpl; [constructor|].
  rewrite list_ascii_app. apply Forall_app. split; [|done].
  apply encode_byte_safe.
Qed.

Lemma encodeURIComponent_unreserved s :
  Forall (fun x => uriUnreserved x = true) (list_ascii_of_string s) ->
  encodeURIComponent s = s.
Proof.
  induction s as [|c s IH]; simpl; [done|].
  intros [Hc Hs]%Forall_cons_1. rewrite Hc, IH by done. reflexivity.
Qed.

Lemma endsWith_app (s p : string) : endsWith (s +:+ p) p = true.
Proof.
  unfold endsWith. rewrite length_app_s.
  replace (String.length s + String.length p - String.length p)%nat
    with (String.length s) by lia.
  rewrite slice_from_app, String.eqb_refl.
  rewrite (proj2 (Nat.leb_le _ _)) by lia. reflexivity.
Qed.

Lemma drop_last_app c (s : string) :
  drop_last (s +:+ String c "") = s.
Proof.
  induction s as [|d s IH]; [reflexivity|].
  rewrite app_cons. simpl. rewrite IH.
  destruct s; reflexivity.
Qed.
End UriFacts.

(** X2: [encodeURIComponent] writes unreserved characters and [%] only,
    and leaves a string of unreserved characters as it is.  So the user
    name and the password that [buildMongoUri] puts before the [@] of the
    address hold no [@], [:], [/] or [?] of their own. *)
Theorem X2_credentials_are_escaped (process_env : gmap string string) :
  (forall s x,
     In x (list_ascii_of_string (JsGlobal.encodeURIComponent s)) ->
     JsGlobal.uriUnreserved x = true \/ x = "%"%char)
  /\ (forall s x,
        In x (list_ascii_of_string (JsGlobal.encodeURIComponent s)) ->
        ~ In x (list_ascii_of_string "@:/?#&= "))
  /\ (forall s,
        Forall (fun x => JsGlobal.uriUnreserved x = true)
               (list_ascii_of_string s) ->
        JsGlobal.encodeURIComponent s = s)
  /\ (forall user,
        present process_env "MONGO_INITDB_ROOT_USERNAME" user ->
        exists scheme address,
          buildMongoUri process_env
          = scheme +:+ "://"
            +:+ JsGlobal.encodeURIComponent user +:+ ":"
            +:+ JsGlobal.encodeURIComponent
                  (env_or process_env "MONGO_INITDB_ROOT_PASSWORD" "")
            +:+ "@" +:+ address
          /\ (scheme = "mongodb" \/ scheme = "mongodb+srv")).
Proof.
  split_and!.
  - intros s x Hx.
    pose proof (encodeURIComponent_safe s) as Hs.
    rewrite Forall_forall in Hs. apply Hs. by apply list_elem_of_In.
  - intros s x Hx Hbad.
    pose proof (encodeURIComponent_safe s) as Hs.
    rewrite Forall_forall in Hs. apply list_elem_of_In in Hx.
    specialize (Hs x Hx). cbn [list_ascii_of_string In] in Hbad.
    repeat (destruct Hbad as [<-|Hbad];
            [destruct Hs as [Hs|Hs]; [vm_compute in Hs|]; discriminate Hs|]).
    destruct Hbad.
  - apply encodeURIComponent_unreserved.
  - intros user Huser. unfold buildMongoUri.
    assert (env_truthy process_env "MONGO_INITDB_ROOT_USERNAME" = true) as ->.
    { unfold env_truthy. by destruct Huser as [-> ->]. }
    rewrite (env_or_present _ _ _ "" Huser).
    cbv zeta.
    exists ("mongodb"
            +:+ (if env_truthy process_env "MONGO_SRV" then "+srv" else "")).
    eexists. split.
    + rewrite !app_assoc_s. reflexivity.
    + destruct (env_truthy process_env "MONGO_SRV"); auto.
Qed.

Section HostFacts.
Variable process_env : gmap string string.

Lemma env_or_insert key value d :
  value <> "" -> env_or (<[key := value]> process_env) key d = value.
Proof.
  intros Hv. unfold env_or. rewrite lookup_insert_eq.
  unfold JsString.opt_or, JsString.or_else. by destruct value.
Qed.

Lemma env_or_insert_ne key key' value d :
  key <> key' ->
  env_or (<[key := value]> process_env) key' d = env_or process_env key' d.
Proof. intros Hk. unfold env_or. by rewrite lookup_insert_ne. Qed.

Lemma env_truthy_insert_ne key key' value :
  key <> key' ->
  env_truthy (<[key := value]> process_env) key' = env_truthy process_env key'.
Proof. intros Hk. unfold env_truthy. by rewrite lookup_insert_ne. Qed.

(** The address with the host [host], the other variables being read
    from the environment. *)
Lemma buildMongoUri_host host :
  host <> "" ->
  buildMongoUri (<["MONGODB_HOST" := host]> process_env)
  = "mongodb"
    +:+ (if env_truthy process_env "MONGO_SRV" then "+srv" else "")
    +:+ "://"
    +:+ (if env_truthy process_env "MONGO_INITDB_ROOT_USERNAME" then
           JsGlobal.encodeURIComponent
             (env_or process_env "MONGO_INITDB_ROOT_USERNAME" "")
           +:+ ":"
           +:+ JsGlobal.encodeURIComponent
                 (env_or process_env "MONGO_INITDB_ROOT_PASSWORD" "")
           +:+ "@"
         else "")
    +:+ (if JsString.endsWith host "/" then JsString.drop_last host else host)
    +:+ "/?"
    +:+ (if env_truthy process_env "MONGO_AUTH_SOURCE" then
           "authSource=" +:+ env_or process_env "MONGO_AUTH_SOURCE" ""
         else "").
Proof.
  intros Hh. unfold buildMongoUri. cbv zeta.
  rewrite env_or_insert by done.
  rewrite !env_truthy_insert_ne, !env_or_insert_ne by done.
  reflexivity.
Qed.
End HostFacts.

(** X3: a [/] that ends [MONGODB_HOST] is dropped, so a host written with
    or without it gives the same address; one [/] only is dropped. *)
Theorem X3_host_trailing_slash
    (process_env : gmap string string) (host : string) :
  host <> "" ->
  JsString.endsWith host "/" = false ->
  buildMongoUri (<["MONGODB_HOST" := host +:+ "/"]> process_env)
  = buildMongoUri (<["MONGODB_HOST" := host]> process_env)
  /\ buildMongoUri (<["MONGODB_HOST" := host +:+ "//"]> process_env)
     <> buildMongoUri (<["MONGODB_HOST" := host]> process_env).
Proof.
  intros Hne Hend.
  assert (forall t, host +:+ t <> "") as Hne'.
  { intros t. destruct host; [done|discriminate]. }
  assert (host +:+ "//" = (host +:+ "/") +:+ "/") as ->
    by by rewrite app_assoc_s.
  rewrite (buildMongoUri_host _ host) by done.
  rewrite (buildMongoUri_host _ (host +:+ "/")) by done.
  rewrite (buildMongoUri_host _ ((host +:+ "/") +:+ "/"))
    by (rewrite app_assoc_s; done).
  rewrite Hend, !endsWith_app, !drop_last_app. split; [done|].
  intros Heq. apply (f_equal String.length) in Heq.
  rewrite !length_app_s in Heq. cbn [String.length] in Heq. lia.
Qed.

Lemma X3_host_trailing_slash_witness :
  buildMongoUri (<["MONGODB_HOST" := "db.example.com:27017/"]> Demo.env)
  = buildMongoUri (<["MONGODB_HOST" := "db.example.com:27017"]> Demo.env)
  /\ buildMongoUri (<["MONGODB_HOST" := "db.example.com:27017"]> Demo.env)
     = "mongodb://db.example.com:27017/?".
Proof.
  assert ("db.example.com:27017" <> "") as Hne by discriminate.
  assert (JsString.endsWith "db.example.com:27017" "/" = false) as Hend
    by reflexivity.
  destruct (X3_host_trailing_slash Demo.env "db.example.com:27017" Hne Hend)
    as [Hsame _].
  split; [exact Hsame|]. vm_compute. reflexivity.
Defined.

(** X4: the S3 client of a loaded configuration carries the two keys of
    the environment, the region [AWS_REGION] or [us-east-1], and an
    endpoint exactly when [AWS_ENDPOINT] is present; an [AWS_ENDPOINT] set
    to the empty string gives a client without endpoint. *)
Theorem X4_client_of_environment
    (process_env : gmap string string) (config : Config) :
  loadConfig process_env = inr config ->
  let client := createS3Client config in
  present process_env "AWS_ACCESS_KEY_ID" (client_accessKeyId client)
  /\ present process_env "AWS_SECRET_ACCESS_KEY" (client_secretAccessKey client)
  /\ client_region client = env_or process_env "AWS_REGION" "us-east-1"
  /\ (forall e, client_endpoint client = Some e
                <-> present process_env "AWS_ENDPOINT" e)
  /\ (process_env !! "AWS_ENDPOINT" = Some "" -> client_endpoint client = None).
Proof.
  unfold loadConfig.
  destruct (getEnvOrThrow process_env "MONGODB_DATABASE") as [|v1] eqn:H1;
    [done|].
  destruct (getEnvOrThrow process_env "AWS_ACCESS_KEY_ID") as [|v2] eqn:H2;
    [done|].
  destruct (getEnvOrThrow process_env "AWS_SECRET_ACCESS_KEY") as [|v3] eqn:H3;
    [done|].
  destruct (getEnvOrThrow process_env "S3_BUCKET") as [|v4] eqn:H4; [done|].
  intros [= <-]. apply getEnvOrThrow_present in H2, H3.
  unfold createS3Client, env_truthy. simpl.
  split_and!; [done..| |].
  - intros e. unfold present. destruct (process_env !! "AWS_ENDPOINT") as [v|]; [|by split; [|intros []]].
    destruct (JsString.truthy v) eqn:Hv; simpl; rewrite ?Hv.
    + split; [by intros [= <-]|by intros [[= <-] _]].
    + split; [done|]. intros [[= <-] Ht]. congruence.
  - by intros ->.
Qed.

Lemma X4_client_of_environment_witness :
  let env := <["AWS_ENDPOINT" := "http://localhost:9000"]> Demo.env in
  exists config,
    loadConfig env = inr config
    /\ client_endpoint (createS3Client config) = Some "http://localhost:9000"
    /\ client_region (createS3Client config) = "us-east-1".
Proof.
  intros env.
  destruct (loadConfig env) as [e|config] eqn:Hconfig;
    [vm_compute in Hconfig; discriminate Hconfig|].
  exists config. split; [reflexivity|].
  destruct (X4_client_of_environment env config Hconfig)
    as (_ & _ & Hregion & Hendpoint & _).
  split.
  - apply Hendpoint. split; reflexivity.
  - rewrite Hregion. reflexivity.
Defined.

(** ** The pruning run, case by case *)

Section PruneRunFacts.
Context {S : Type} `{S3Service S}.

(** The [try] block of [runPrune] under a loaded configuration: the
    listing, then one of the five ways in which the block goes on. *)
Lemma runPrune_try_run process_env options cutoffDate config (w : World S) :
  loadConfig process_env = inr config ->
  let answer :=
    listObjectsV2 (createS3Client config) (listing_request config) (store w) in
  exists w1,
    same_store
      (mkWorld (snd answer)
         (sent w ++ [ListObjectsV2Command (listing_request config)])
         (console w) (clock w)) w1 /\
    match fst answer with
    | inl message =>
        runPrune_try process_env options cutoffDate w
        = (Thrown (S3ServiceException message), w1)
    | inr response =>
        let backups := listed_backups config response in
        let toDelete := backupsToDelete cutoffDate backups in
        let toKeep := backupsToKeep cutoffDate backups in
        if (length backups =? 0)%nat then
          runPrune_try process_env options cutoffDate w
          = (Exited 0, printed w1 LOG "No backups found.")
        else
          let w2 :=
            printed
              (printed
                 (printed w1 LOG
                    ("Found " +:+ pretty (length backups) +:+ " backup(s):"))
                 LOG ("   ✅ Keeping: " +:+ pretty (length toKeep)))
              LOG ("   🗑️  To delete: " +:+ pretty (length toDelete)
                   +:+ JsString.LF) in
          if (length toDelete =? 0)%nat then
            runPrune_try process_env options cutoffDate w
            = (Exited 0, printed w2 LOG "No backups to prune.")
          else
            let w3 :=
              mkWorld (store w2) (sent w2)
                (console w2
                 ++ (LOG, "Backups to be deleted:")
                    :: map report_line toDelete ++ [(LOG, "")])
                (clock w2) in
            if bool_decide (options_dryRun options = Some true) then
              runPrune_try process_env options cutoffDate w
              = (Exited 0,
                 printed w3 LOG "✅ Dry run complete. No files were deleted.")
            else
              runPrune_try process_env options cutoffDate w
              = delete_phase config toDelete w3
    end.
Proof.
  intros Hconfig answer. subst answer.
  destruct (listBackupsWithDates_run config w) as (w1 & Hsame & Hlist).
  exists w1. split; [exact Hsame|].
  unfold runPrune_try. rewrite Hconfig.
  rewrite bind_run. cbn [lift ret]. cbv beta iota.
  rewrite bind_run, Hlist.
  destruct (listObjectsV2 _ _ _).1 as [message|response]; cbv beta iota zeta;
    [reflexivity|].
  set (backups := listed_backups config response).
  set (toDelete := backupsToDelete cutoffDate backups).
  destruct (length backups =? 0)%nat.
  { run_step. run_log. reflexivity. }
  rewrite bind_run. cbn [ret]. cbv beta iota.
  do 3 run_log.
  destruct (length toDelete =? 0)%nat.
  { run_step. run_log. reflexivity. }
  assert (Forall (fun b => is_Some (date b)) toDelete) as Hvalid.
  { apply Forall_forall. intros b Hb%list_elem_of_In.
    destruct (backupsToDelete_valid _ _ _ Hb) as (t & _ & -> & _). by eexists. }
  rewrite bind_run. cbn [ret]. cbv beta iota.
  run_log.
  rewrite bind_run, report_run by done. cbv beta iota.
  run_log.
  destruct (bool_decide (options_dryRun options = Some true)).
  { run_step. run_log. unfold process_exit, printed. simpl.
    rewrite <- !app_assoc. cbn [app]. by rewrite <- !app_assoc. }
  rewrite bind_run. cbn [ret]. cbv beta iota.
  unfold printed. simpl. rewrite <- ?app_assoc. cbn [app].
  by rewrite <- ?app_assoc.
Qed.

(** [runPrune]: the days, the cutoff and the header, then the [try]
    block, whose exceptions end the process with status 1. *)
Lemma runPrune_run process_env LocalTZA options (w : World S) :
  let cutoffDate :=
    cutoff LocalTZA (Some (clock w))
      (resolved_days process_env (options_days options)) in
  exists w0,
    same_store w w0 /\
    match cutoffDate with
    | None =>
        runPrune process_env LocalTZA options w
        = (Thrown (RangeError "Invalid time value"), w0)
    | Some c =>
        runPrune process_env LocalTZA options w
        = match runPrune_try process_env options (Some c) w0 with
          | (Thrown error, w') =>
              (Exited 1,
               printed w' ERROR
                 (JsString.LF +:+ "❌ Failed to prune backups:" +:+ " "
                  +:+ exn_message error))
          | r => r
          end
    end.
Proof.
  intros cutoffDate.
  destruct (getPruneDays_run process_env (options_days options) w)
    as (w0 & Hdays & Hstore0 & Hsent0 & Hclock0).
  unfold runPrune.
  rewrite bind_run, Hdays. cbv beta iota.
  run_step. unfold new_Date. cbv beta iota.
  rewrite Hclock0. fold cutoffDate.
  run_log.
  destruct cutoffDate as [c|].
  - rewrite bind_run. cbn [Date_toISOString ret]. cbv beta iota.
    run_log.
    destruct (bool_decide (options_dryRun options = Some true)).
    + run_log. eexists. split; [|unfold try_catch; reflexivity]. by split_and!.
    + rewrite bind_run. cbn [ret]. cbv beta iota.
      eexists. split; [|unfold try_catch; reflexivity]. by split_and!.
  - rewrite bind_run. cbn [Date_toISOString throw]. cbv beta iota.
    eexists. split; [|reflexivity]. by split_and!.
Qed.
End PruneRunFacts.

Section PruneEndFacts.
Context {S : Type} `{S3Service S}.

Lemma runPrune_try_no_config process_env options cutoffDate error
    (w : World S) :
  loadConfig process_env = inl error ->
  runPrune_try process_env options cutoffDate w = (Thrown error, w).
Proof. intros Hconfig. unfold runPrune_try. by rewrite Hconfig. Qed.

Lemma last_printed (w : World S) l line :
  last (console (printed w l line)) = Some (l, line).
Proof. unfold printed. simpl. apply last_snoc. Qed.

(** The deletion phase ends the process, with status 0 or 1. *)
Lemma delete_phase_exits config backups (w : World S) :
  fst (delete_phase config backups w) = Exited 0
  \/ fst (delete_phase config backups w) = Exited 1.
Proof.
  destruct (delete_phase_run config backups w) as (oks & w1 & _ & Hrun).
  cbv zeta in Hrun. rewrite Hrun. simpl.
  destruct (0 <? _)%nat; auto.
Qed.
End PruneEndFacts.

(** X5: when the configuration cannot be loaded, the run sends no request
    to S3, prints the message of the error after the header, and ends the
    process with status 1. *)
Theorem X5_missing_configuration_exits_1
    (S : Type) (service : S3Service S) (process_env : gmap string string)
    (LocalTZA : Z -> bool -> Z) (options : PruneOptions) (w : World S)
    (c : Z) (error : exn) :
  cutoff LocalTZA (Some (clock w))
    (resolved_days process_env (options_days options)) = Some c ->
  loadConfig process_env = inl error ->
  let run := runPrune process_env LocalTZA options w in
  fst run = Exited 1
  /\ sent (snd run) = sent w
  /\ store (snd run) = store w
  /\ last (console (snd run))
     = Some (ERROR, JsString.LF +:+ "❌ Failed to prune backups:" +:+ " "
                    +:+ exn_message error).
Proof.
  intros Hc Hconfig run. subst run.
  destruct (runPrune_run process_env LocalTZA options w)
    as (w0 & (Hstore & Hsent & _) & Hrun).
  cbv zeta in Hrun. rewrite Hc in Hrun.
  rewrite (runPrune_try_no_config _ _ _ error) in Hrun by done.
  rewrite Hrun. cbn [fst snd]. rewrite last_printed. by split_and!.
Qed.

Lemma X5_missing_configuration_exits_1_witness :
  let run := runPrune ∅ Demo.utc_zone Demo.no_options
               (Demo.world_of ["backups/mongodb/db-2024-01-01/a.gz"]) in
  fst run = Exited 1
  /\ sent (snd run) = []
  /\ last (console (snd run))
     = Some (ERROR, JsString.LF +:+ "❌ Failed to prune backups:" +:+ " "
                    +:+ "Missing required environment variable: MONGODB_DATABASE").
Proof.
  intros run.
  assert (cutoff Demo.utc_zone
            (Some (clock (Demo.world_of ["backups/mongodb/db-2024-01-01/a.gz"])))
            (resolved_days ∅ (options_days Demo.no_options))
          = Some 1708862400000) as Hc by (vm_compute; reflexivity).
  assert (loadConfig ∅
          = inl (Error "Missing required environment variable: MONGODB_DATABASE"))
    as Hconfig by (vm_compute; reflexivity).
  destruct (X5_missing_configuration_exits_1 _ _ ∅ Demo.utc_zone
              Demo.no_options _ _ _ Hc Hconfig) as (Hexit & Hsent & _ & Hlast).
  split; [exact Hexit|]. split; [exact Hsent|]. exact Hlast.
Defined.

(** X6: when the listing of the backups fails, the run has sent that one
    request and no other, prints the message of the failure and ends the
    process with status 1. *)
Theorem X6_listing_failure_exits_1
    (S : Type) (service : S3Service S) (process_env : gmap string string)
    (LocalTZA : Z -> bool -> Z) (options : PruneOptions) (w : World S)
    (c : Z) (config : Config) (message : string) :
  cutoff LocalTZA (Some (clock w))
    (resolved_days process_env (options_days options)) = Some c ->
  loadConfig process_env = inr config ->
  fst (listObjectsV2 (createS3Client config) (listing_request config)
         (store w)) = inl message ->
  let run := runPrune process_env LocalTZA options w in
  fst run = Exited 1
  /\ sent (snd run) = sent w ++ [ListObjectsV2Command (listing_request config)]
  /\ store (snd run)
     = snd (listObjectsV2 (createS3Client config) (listing_request config)
              (store w))
  /\ last (console (snd run))
     = Some (ERROR, JsString.LF +:+ "❌ Failed to prune backups:" +:+ " "
                    +:+ message).
Proof.
  intros Hc Hconfig Hanswer run. subst run.
  destruct (runPrune_run process_env LocalTZA options w)
    as (w0 & (Hstore & Hsent & _) & Hrun).
  cbv zeta in Hrun. rewrite Hc in Hrun.
  destruct (runPrune_try_run process_env options (Some c) config w0 Hconfig)
    as (w1 & (Hstore1 & Hsent1 & _) & Htry).
  cbv zeta in Htry. rewrite Hstore in Htry, Hstore1. rewrite Hanswer in Htry.
  rewrite Htry in Hrun. rewrite Hrun. cbn [fst snd].
  rewrite last_printed. simpl in Hstore1, Hsent1 |- *.
  rewrite Hsent in Hsent1. by split_and!.
Qed.

Lemma X6_listing_failure_exits_1_witness :
  let w := Demo.faulty_world ["backups/mongodb/db-2024-01-01/a.gz"] [true] in
  let run := runPrune Demo.env Demo.utc_zone Demo.no_options w in
  fst run = Exited 1
  /\ sent (snd run) = [ListObjectsV2Command (listing_request Demo.config)]
  /\ MemS3.keys (store (snd run)) = ["backups/mongodb/db-2024-01-01/a.gz"].
Proof.
  intros w run.
  assert (cutoff Demo.utc_zone (Some (clock w))
            (resolved_days Demo.env (options_days Demo.no_options))
          = Some 1708862400000) as Hc by (vm_compute; reflexivity).
  assert (loadConfig Demo.env = inr Demo.config) as Hconfig
    by (vm_compute; reflexivity).
  assert (fst (listObjectsV2 (createS3Client Demo.config)
                 (listing_request Demo.config) (store w))
          = inl "InternalError") as Hanswer by (vm_compute; reflexivity).
  destruct (X6_listing_failure_exits_1 _ _ Demo.env Demo.utc_zone
              Demo.no_options w _ _ _ Hc Hconfig Hanswer)
    as (Hexit & Hsent & Hstore & _).
  split; [exact Hexit|]. split; [exact Hsent|].
  subst run. rewrite Hstore. vm_compute. reflexivity.
Defined.

(** X7: when the listing yields no backup, or no backup that is older
    than the cutoff, the run has sent the listing and no other request,
    says so in its last line and ends the process with status 0, in a dry
    run or not. *)
Theorem X7_nothing_to_prune_exits_0
    (S : Type) (service : S3Service S) (process_env : gmap string string)
    (LocalTZA : Z -> bool -> Z) (options : PruneOptions) (w : World S)
    (c : Z) (config : Config) (response : ListObjectsV2Output) :
  cutoff LocalTZA (Some (clock w))
    (resolved_days process_env (options_days options)) = Some c ->
  loadConfig process_env = inr config ->
  fst (listObjectsV2 (createS3Client config) (listing_request config)
         (store w)) = inr response ->
  let backups := listed_backups config response in
  backupsToDelete (Some c) backups = [] ->
  let run := runPrune process_env LocalTZA options w in
  fst run = Exited 0
  /\ sent (snd run) = sent w ++ [ListObjectsV2Command (listing_request config)]
  /\ store (snd run)
     = snd (listObjectsV2 (createS3Client config) (listing_request config)
              (store w))
  /\ last (console (snd run))
     = Some (LOG, match backups with
                  | [] => "No backups found."
                  | _ :: _ => "No backups to prune."
                  end).
Proof.
  intros Hc Hconfig Hanswer backups Hnone run. subst run.
  destruct (runPrune_run process_env LocalTZA options w)
    as (w0 & (Hstore & Hsent & _) & Hrun).
  cbv zeta in Hrun. rewrite Hc in Hrun.
  destruct (runPrune_try_run process_env options (Some c) config w0 Hconfig)
    as (w1 & (Hstore1 & Hsent1 & _) & Htry).
  cbv zeta in Htry. rewrite Hstore in Htry, Hstore1. rewrite Hanswer in Htry.
  fold backups in Htry. rewrite Hnone in Htry.
  simpl in Hstore1, Hsent1. rewrite Hsent in Hsent1.
  destruct backups as [|b backups'].
  - simpl in Htry. rewrite Htry in Hrun. rewrite Hrun. cbn [fst snd].
    rewrite last_printed. by split_and!.
  - change (length (b :: backups') =? 0)%nat with false in Htry.
    change (length (@nil BackupWithDate) =? 0)%nat with true in Htry.
    cbv iota in Htry. rewrite Htry in Hrun. rewrite Hrun. cbn [fst snd].
    rewrite last_printed. by split_and!.
Qed.

Lemma X7_nothing_to_prune_exits_0_witness :
  let w := Demo.world_of ["backups/mongodb/db-2024-03-09/a.gz"] in
  let run := runPrune Demo.env Demo.utc_zone Demo.no_options w in
  fst run = Exited 0
  /\ sent (snd run) = [ListObjectsV2Command (listing_request Demo.config)]
  /\ last (console (snd run)) = Some (LOG, "No backups to prune.").
Proof.
  intros w run.
  pose (response :=
          {| Contents := None;
             CommonPrefixes :=
               Some [{| cp_Prefix := Some "backups/mongodb/db-2024-03-09/" |}] |}).
  assert (cutoff Demo.utc_zone (Some (clock w))
            (resolved_days Demo.env (options_days Demo.no_options))
          = Some 1708862400000) as Hc by (vm_compute; reflexivity).
  assert (loadConfig Demo.env = inr Demo.config) as Hconfig
    by (vm_compute; reflexivity).
  assert (fst (listObjectsV2 (createS3Client Demo.config)
                 (listing_request Demo.config) (store w)) = inr response)
    as Hanswer by (vm_compute; reflexivity).
  assert (backupsToDelete (Some 1708862400000)
            (listed_backups Demo.config response) = []) as Hnone
    by (vm_compute; reflexivity).
  destruct (X7_nothing_to_prune_exits_0 _ _ Demo.env Demo.utc_zone
              Demo.no_options w _ _ _ Hc Hconfig Hanswer Hnone)
    as (Hexit & Hsent & _ & Hlast).
  split; [exact Hexit|]. split; [exact Hsent|].
  subst run. rewrite Hlast. vm_compute. reflexivity.
Defined.

(** X8: a run never returns to its caller.  When the cutoff is a valid
    instant it ends the process, with status 0 or 1, whatever the
    environment and the store do; when the cutoff is not a valid instant
    it throws the [RangeError] of [toISOString] before any request is
    sent. *)
Theorem X8_run_ends_the_process
    (S : Type) (service : S3Service S) (process_env : gmap string string)
    (LocalTZA : Z -> bool -> Z) (options : PruneOptions) (w : World S) :
  let cutoffDate :=
    cutoff LocalTZA (Some (clock w))
      (resolved_days process_env (options_days options)) in
  let run := runPrune process_env LocalTZA options w in
  (cutoffDate = None ->
   fst run = Thrown (RangeError "Invalid time value")
   /\ sent (snd run) = sent w /\ store (snd run) = store w)
  /\ (cutoffDate <> None -> fst run = Exited 0 \/ fst run = Exited 1)
  /\ (forall a, fst run <> Returned a).
Proof.
  intros cutoffDate run. subst run.
  destruct (runPrune_run process_env LocalTZA options w)
    as (w0 & (Hstore & Hsent & _) & Hrun).
  cbv zeta in Hrun. fold cutoffDate in Hrun.
  assert (forall c, cutoffDate = Some c ->
            fst (runPrune process_env LocalTZA options w) = Exited 0
            \/ fst (runPrune process_env LocalTZA options w) = Exited 1)
    as Hexits.
  { intros c Hc. rewrite Hc in Hrun. rewrite Hrun. clear Hrun.
    destruct (loadConfig process_env) as [error|config] eqn:Hconfig.
    { rewrite (runPrune_try_no_config _ _ _ error) by done. by right. }
    destruct (runPrune_try_run process_env options (Some c) config w0 Hconfig)
      as (w1 & _ & Htry).
    cbv zeta in Htry.
    destruct (listObjectsV2 _ _ _).1 as [message|response];
      [rewrite Htry; by right|].
    destruct (length (listed_backups config response) =? 0)%nat;
      [rewrite Htry; by left|].
    destruct (length (backupsToDelete _ _) =? 0)%nat;
      [rewrite Htry; by left|].
    destruct (bool_decide _); [rewrite Htry; by left|].
    rewrite Htry.
    match goal with |- context [delete_phase ?cfg ?l ?w3] =>
      destruct (delete_phase_exits cfg l w3) as [Hx|Hx];
      destruct (delete_phase cfg l w3) as [[a|e|code] w4]
    end; simpl in Hx |- *; try done; auto. }
  split_and!.
  - intros Hnone. rewrite Hnone in Hrun. rewrite Hrun. by split_and!.
  - intros Hsome. destruct cutoffDate as [c|] eqn:Hc; [|done]. by eapply Hexits.
  - intros a Ha. destruct cutoffDate as [c|] eqn:Hc.
    + destruct (Hexits c eq_refl) as [Hx|Hx]; congruence.
    + rewrite Hrun in Ha. done.
Qed.

(** ** The requests of a deletion *)

Section BatchCountFacts.
Context {A : Type}.

Lemma Batches_total (l : list A) : exists bs, Batches l bs.
Proof.
  assert (forall n (l : list A), (length l <= n)%nat -> exists bs, Batches l bs)
    as Hgen; [|by apply (Hgen (length l))].
  clear l. induction n as [|n IH]; intros l Hlen.
  - destruct l; [|simpl in Hlen; lia]. exists []. constructor.
  - destruct l as [|a l]; [exists []; constructor|].
    destruct (IH (drop batchSize (a :: l))) as [bs Hbs].
    { rewrite length_drop. unfold batchSize. simpl length in *. lia. }
    exists (take batchSize (a :: l) :: bs). by constructor.
Qed.

(** The number of batches: the keys divided by 1000, rounded up. *)
Lemma Batches_length (l : list A) bs :
  Batches l bs -> length bs = ((length l + 999) / 1000)%nat.
Proof.
  induction 1 as [|l bs Hne _ IH]; [reflexivity|].
  cbn [length]. rewrite IH, length_drop. unfold batchSize.
  assert (0 < length l)%nat as Hpos by (destruct l; [done|simpl; lia]).
  destruct (Nat.le_gt_cases 1000 (length l)) as [Hbig|Hsmall].
  - replace (length l + 999)%nat with ((length l - 1000 + 999) + 1 * 1000)%nat
      by lia.
    rewrite Nat.div_add by lia. lia.
  - replace (length l - 1000 + 999)%nat with 999%nat by lia.
    rewrite (Nat.div_small 999 1000) by lia.
    apply (Nat.div_unique _ _ _ (length l - 1)); lia.
Qed.
End BatchCountFacts.

Section RequestFacts.
Context {S : Type} `{S3Service S}.

(** Whatever the answers of the store, the loop sends the batches in
    order and stops at the first request that fails. *)
Lemma delete_batches_requests fuel client config objs i total (w : World S) :
  (length objs - i <= fuel)%nat ->
  exists bs done,
    Batches (drop i objs) bs
    /\ done `prefix_of` bs
    /\ sent (snd (delete_batches fuel client config objs i total w))
       = sent w ++ map (batch_request config) done
    /\ match fst (delete_batches fuel client config objs i total w) with
       | Returned r => done = bs
       | Thrown e => exists message, e = S3ServiceException message
       | Exited _ => False
       end.
Proof.
  revert i total w. induction fuel as [|fuel IH]; intros i total w Hfuel.
  - simpl. destruct (Nat.ltb_spec i (length objs)); [lia|].
    exists [], []. rewrite drop_ge by done.
    split_and!; [constructor|done|by rewrite app_nil_r|done].
  - simpl. destruct (Nat.ltb_spec i (length objs)) as [Hi|Hi].
    + rewrite slice_batch. unfold bind at 1 2, send_delete at 1 2.
      assert (drop i objs <> []) as Hne.
      { intros Hnil. assert (length (drop i objs) = 0%nat) as Hd
          by by rewrite Hnil.
        rewrite length_drop in Hd. lia. }
      destruct (deleteObjects _ _ _) as [[message|[]] s1].
      * destruct (Batches_total (drop batchSize (drop i objs))) as [bs Hbs].
        exists (take batchSize (drop i objs) :: bs),
               [take batchSize (drop i objs)].
        split_and!; [by constructor|by apply prefix_cons, prefix_nil
                     |done|by eexists].
      * match goal with |- context [delete_batches fuel _ _ _ ?j ?t ?w1] =>
          destruct (IH j t w1) as (bs & done & Hbs & Hpre & Hsent & Hout)
        end; [unfold batchSize; lia|].
        exists (take batchSize (drop i objs) :: bs),
               (take batchSize (drop i objs) :: done).
        rewrite <- drop_drop in Hbs.
        split_and!; [by constructor|by apply prefix_cons| |].
        -- rewrite Hsent. simpl. by rewrite <- app_assoc.
        -- destruct (delete_batches _ _ _ _ _ _ _).1; [by subst|done..].
    + exists [], []. rewrite drop_ge by done.
      split_and!; [constructor|done|by rewrite app_nil_r|done].
Qed.

Lemma Batches_bounds {A} (l : list A) bs done :
  Batches l bs -> done `prefix_of` bs ->
  Forall (fun batch => (0 < length batch <= 1000)%nat) done.
Proof.
  intros Hbs [rest ->]. apply Batches_sizes in Hbs as [Hsz _].
  apply Forall_app in Hsz as [Hsz _]. exact Hsz.
Qed.

(** The requests of [deleteBackup], whatever its outcome. *)
Lemma deleteBackup_requests config backupName (w : World S) :
  let run := deleteBackup config backupName w in
  match listed_objects config backupName w with
  | None =>
      sent (snd run)
      = sent w ++ [ListObjectsV2Command (backup_listing config backupName)]
      /\ exists message, fst run = Thrown (S3ServiceException message)
  | Some objects =>
      exists batches done,
        Batches (objectsToDelete objects) batches
        /\ done `prefix_of` batches
        /\ sent (snd run)
           = sent w ++ ListObjectsV2Command (backup_listing config backupName)
                       :: map (batch_request config) done
        /\ match fst run with
           | Returned result => done = batches
           | Thrown (S3ServiceException message) => True
           | Thrown _ => done = batches /\ objects = []
           | Exited _ => False
           end
  end.
Proof.
  intros run. subst run. unfold listed_objects.
  pose proof (deleteBackup_run config backupName w) as Hrun. cbv zeta in Hrun.
  destruct (listObjectsV2 _ _ _).1 as [message|response].
  { rewrite Hrun. split; [done|by eexists]. }
  set (objects := default [] (Contents response)) in *.
  destruct (length objects =? 0)%nat eqn:Hobjs.
  { rewrite Hrun. apply Nat.eqb_eq in Hobjs.
    destruct objects; [|done]. exists [], [].
    split_and!; [constructor|done|done|done]. }
  destruct (length (objectsToDelete objects) =? 0)%nat eqn:Hk.
  { rewrite Hrun. apply Nat.eqb_eq in Hk.
    destruct (objectsToDelete objects); [|done]. exists [], [].
    split_and!; [constructor|done|done|done]. }
  rewrite Hrun.
  match goal with |- context [delete_batches ?f ?c ?cfg ?o ?i ?t ?w1] =>
    destruct (delete_batches_requests f c cfg o i t w1)
      as (bs & done & Hbs & Hpre & Hsent & Hout); [lia|];
    destruct (delete_batches f c cfg o i t w1) as [[total|e|code] w']
  end; simpl in Hsent, Hout |- *; rewrite drop_0 in Hbs; [| |done].
  - exists bs, done. split_and!; [done..| |done].
    by rewrite Hsent, <- app_assoc.
  - destruct Hout as [message ->]. exists bs, done. split_and!; [done..| |done].
    by rewrite Hsent, <- app_assoc.
Qed.
End RequestFacts.

Section BatchRunFacts.
Context {S : Type} `{S3Service S}.

Lemma BatchRun_prefix client config (s s' : S) batches done failure :
  BatchRun client config s batches done failure s' ->
  done `prefix_of` batches
  /\ (failure = None -> done = batches)
  /\ (failure <> None -> done <> []).
Proof.
  induction 1 as [s|s batch batches s1 done failure s' _ _ (Hpre & Hall & Hne)
                 |s batch batches message s1 _].
  - by split_and!.
  - split_and!; [by apply prefix_cons|intros Hf; by rewrite Hall|done].
  - split_and!; [by apply prefix_cons, prefix_nil|done|done].
Qed.

(** The loop of [deleteBackup], request by request: it sends the batches
    in order, stops at the first request that fails and throws its
    exception, and returns the number of keys when none fails. *)
Lemma delete_batches_run fuel client config objs i total (w : World S) :
  (length objs - i <= fuel)%nat ->
  exists bs done failure s',
    Batches (drop i objs) bs
    /\ BatchRun client config (store w) bs done failure s'
    /\ delete_batches fuel client config objs i total w
       = (match failure with
          | None => Returned (total + length (drop i objs))%nat
          | Some message => Thrown (S3ServiceException message)
          end,
          mkWorld s' (sent w ++ map (batch_request config) done)
                  (console w) (clock w)).
Proof.
  revert i total w. induction fuel as [|fuel IH]; intros i total w Hfuel.
  - simpl. destruct (Nat.ltb_spec i (length objs)); [lia|].
    exists [], [], None, (store w). rewrite drop_ge by done.
    split_and!; [constructor|constructor|].
    simpl. rewrite app_nil_r, Nat.add_0_r. by destruct w.
  - simpl. destruct (Nat.ltb_spec i (length objs)) as [Hi|Hi].
    + rewrite slice_batch. unfold bind at 1, send_delete at 1.
      assert (drop i objs <> []) as Hne.
      { intros Hnil. assert (length (drop i objs) = 0%nat) as Hd
          by by rewrite Hnil.
        rewrite length_drop in Hd. lia. }
      destruct (deleteObjects _ _ _) as [[message|[]] s1] eqn:Hsend.
      * destruct (Batches_total (drop batchSize (drop i objs))) as [bs Hbs].
        exists (take batchSize (drop i objs) :: bs),
               [take batchSize (drop i objs)], (Some message), s1.
        split_and!; [by constructor|by constructor|done].
      * match goal with |- context [delete_batches fuel _ _ _ ?j ?t ?w1] =>
          destruct (IH j t w1)
            as (bs & done & failure & s' & Hbs & Hrun & ->)
        end; [unfold batchSize; lia|].
        exists (take batchSize (drop i objs) :: bs),
               (take batchSize (drop i objs) :: done), failure, s'.
        rewrite <- drop_drop in Hbs.
        split_and!; [by constructor|by econstructor|].
        simpl. rewrite <- app_assoc. f_equal.
        destruct failure; [done|]. f_equal.
        rewrite !length_drop, length_take, length_drop. lia.
    + exists [], [], None, (store w). rewrite drop_ge by done.
      split_and!; [constructor|constructor|].
      simpl. rewrite app_nil_r, Nat.add_0_r. by destruct w.
Qed.

(** [deleteBackup] after a listing that answers. *)
Lemma deleteBackup_batches config backupName (w : World S) objects :
  listed_objects config backupName w = Some objects ->
  let answer :=
    listObjectsV2 (createS3Client config) (backup_listing config backupName)
      (store w) in
  exists batches done failure s',
    Batches (objectsToDelete objects) batches
    /\ BatchRun (createS3Client config) config (snd answer) batches done
         failure s'
    /\ snd (deleteBackup config backupName w)
       = mkWorld s'
           (sent w ++ ListObjectsV2Command (backup_listing config backupName)
                      :: map (batch_request config) done)
           (console w) (clock w)
    /\ fst (deleteBackup config backupName w)
       = match objects, failure with
         | [], _ =>
             Thrown (Error ("No backup found at s3://" +:+ bucket (s3 config)
                            +:+ "/" +:+ prefix (s3 config) +:+ "/"
                            +:+ backupName))
         | _ :: _, None =>
             Returned {| backupName := backupName;
                         deletedFiles := length (objectsToDelete objects) |}
         | _ :: _, Some message => Thrown (S3ServiceException message)
         end.
Proof.
  unfold listed_objects. intros Hlist. cbv zeta.
  pose proof (deleteBackup_run config backupName w) as Hrun. cbv zeta in Hrun.
  destruct (listObjectsV2 _ _ _) as [[message|response] s1]; [done|].
  cbn [fst snd] in *. injection Hlist as <-.
  destruct (default [] (Contents response)) as [|obj objects].
  { simpl in Hrun. rewrite Hrun. exists [], [], None, s1.
    split_and!; [constructor|constructor|done|done]. }
  change (length (obj :: objects) =? 0)%nat with false in Hrun.
  cbv iota in Hrun.
  destruct (length (objectsToDelete (obj :: objects)) =? 0)%nat eqn:Hk.
  { rewrite Hrun. apply Nat.eqb_eq in Hk.
    destruct (objectsToDelete (obj :: objects)); [|done].
    exists [], [], None, s1. split_and!; [constructor|constructor|done|done]. }
  rewrite Hrun.
  match goal with |- context [delete_batches ?f ?c ?cfg ?o ?i ?t ?w1] =>
    destruct (delete_batches_run f c cfg o i t w1)
      as (bs & done & failure & s' & Hbs & Hbatch & ->); [lia|]
  end.
  rewrite drop_0 in Hbs |- *. exists bs, done, failure, s'.
  simpl. rewrite <- app_assoc.
  split_and!; [done|done|by destruct failure|by destruct failure].
Qed.
End BatchRunFacts.

(** X9: whatever the outcome of [deleteBackup], its requests are the
    listing of the backup and then deletion requests for the batches of
    the listed keys, sent in order from the store that the listing left,
    each from the store that the request before it left.  When every
    request succeeds all the batches are sent and the call returns the
    number of keys; the first request that fails is the last one sent: the
    call throws the exception of that request, the batches after it are
    not sent, and what the requests before it deleted stays deleted.  A
    deletion request names 1 to 1000 keys; the batches number the keys
    divided by 1000, rounded up.  The call never ends the process.  On a
    backup of 1001 keys whose first deletion request fails, the call
    throws, has sent that request of 1000 keys only, and no key is
    gone. *)
Theorem X9_requests_of_deleteBackup
    (S : Type) (service : S3Service S) (config : Config)
    (backupName : string) (w : World S) :
  let run := deleteBackup config backupName w in
  let listing := ListObjectsV2Command (backup_listing config backupName) in
  let answer :=
    listObjectsV2 (createS3Client config) (backup_listing config backupName)
      (store w) in
  (listed_objects config backupName w = None ->
   sent (snd run) = sent w ++ [listing]
   /\ exists message, fst run = Thrown (S3ServiceException message))
  /\ (forall objects,
        listed_objects config backupName w = Some objects ->
        exists batches done failure s',
          Batches (objectsToDelete objects) batches
          /\ length batches
             = ((length (objectsToDelete objects) + 999) / 1000)%nat
          /\ BatchRun (createS3Client config) config (snd answer) batches done
               failure s'
          /\ done `prefix_of` batches
          /\ (failure = None -> done = batches)
          /\ sent (snd run)
             = sent w ++ listing :: map (batch_request config) done
          /\ store (snd run) = s'
          /\ Forall (fun batch => (0 < length batch <= 1000)%nat) done
          /\ (objects <> [] ->
              fst run
              = match failure with
                | None =>
                    Returned {| backupName := backupName;
                                deletedFiles :=
                                  length (objectsToDelete objects) |}
                | Some message => Thrown (S3ServiceException message)
                end)
          /\ (done <> batches ->
              exists message, fst run = Thrown (S3ServiceException message)))
  /\ (forall code, fst run <> Exited code)
  /\ (let w0 :=
        MemS3.world
          {| MemS3.bucketName := "env-bucket";
             MemS3.keys := Demo.big_backup_keys 1001;
             MemS3.maxKeys := 5000; MemS3.faults := [false; true] |}
          Demo.now in
      let failed := deleteBackup Demo.short_config "x" w0 in
      fst failed = Thrown (S3ServiceException "InternalError")
      /\ map (fun command =>
                match command with
                | DeleteObjectsCommand input => length (del_Objects input)
                | ListObjectsV2Command _ => 0%nat
                end) (sent (snd failed)) = [0; 1000]%nat
      /\ length (MemS3.keys (store (snd failed))) = 1001%nat).
Proof.
  intros run listing answer. subst run listing answer.
  split_and!; [| | |vm_compute; by split_and!].
  - intros Hnone.
    pose proof (deleteBackup_requests config backupName w) as Hreq.
    cbv zeta in Hreq. by rewrite Hnone in Hreq.
  - intros objects Hsome.
    destruct (deleteBackup_batches config backupName w objects Hsome)
      as (batches & done & failure & s' & Hbs & Hbatch & Hworld & Hout).
    destruct (BatchRun_prefix _ _ _ _ _ _ _ Hbatch) as (Hpre & Hall & Hsome').
    exists batches, done, failure, s'. rewrite Hworld, Hout.
    split_and!; [done|by apply Batches_length|done|done|done|done|done
                 |by eapply Batches_bounds| |].
    + intros Hne. by destruct objects.
    + intros Hpart.
      destruct failure as [message|]; [|destruct (Hpart (Hall eq_refl))].
      destruct objects as [|obj objects]; [|by eexists].
      change (objectsToDelete []) with (@nil ObjectIdentifier) in Hbs.
      apply Batches_empty in Hbs as ->. inversion Hbatch.
  - intros code Hexit.
    destruct (deleteBackup_outcome config backupName w) as [[r Hr]|[e He]];
      congruence.
Qed.

(** ** One page of a listing *)

Section PageFacts.
Import MemS3.

Lemma filter_all {A} (l : list A) : List.filter (fun _ => true) l = l.
Proof. induction l as [|a l IH]; simpl; [done|]. by rewrite IH. Qed.

Lemma without_nil s : without [] s = s.
Proof. unfold without. simpl. rewrite filter_all. by destruct s. Qed.

Lemma existsb_keys k ks :
  existsb (fun o => String.eqb (oi_Key o) k)
          (map (fun k => {| oi_Key := k |}) ks) = true
  <-> In k ks.
Proof.
  rewrite existsb_exists. split.
  - intros (o & Ho & Heq). apply in_map_iff in Ho as (k' & <- & Hk').
    simpl in Heq. by apply String.eqb_eq in Heq as <-.
  - intros Hk. exists {| oi_Key := k |}.
    split; [by apply in_map|apply String.eqb_refl].
Qed.

(** A listing without delimiter holds the first [maxKeys] keys under the
    prefix. *)
Lemma list_objects_page client config pfx s :
  answers config s ->
  list_objects client
    {| Bucket := bucket (s3 config); Prefix := pfx; Delimiter := None |} s
  = (inr {| Contents :=
              some_if_nonempty (map (fun k => {| Key := Some k |})
                                    (take (maxKeys s) (matching pfx s)));
            CommonPrefixes := None |}, s).
Proof.
  intros [Hf Hb]. unfold list_objects, next_fault. rewrite Hf.
  simpl. rewrite Hb, String.eqb_refl. simpl.
  fold (matching pfx s). rewrite filter_all.
  assert (forall l : list string, omap (fun _ => @None string) l = []) as ->.
  { induction l as [|k l IH]; simpl; done. }
  reflexivity.
Qed.

Lemma objectsToDelete_keys ks :
  Forall (fun k => k <> "") ks ->
  objectsToDelete (map (fun k => {| Key := Some k |}) ks)
  = map (fun k => {| oi_Key := k |}) ks.
Proof.
  induction 1 as [|k ks Hk _ IH]; [done|].
  destruct k; [done|]. unfold objectsToDelete in *. simpl.
  f_equal. exact IH.
Qed.

(** [deleteBackup] deletes the keys of the one page that it lists. *)
Lemma deleteBackup_page config backupName (w : World state) :
  answers config (store w) ->
  let found :=
    take (maxKeys (store w))
      (matching (prefix (s3 config) +:+ "/" +:+ backupName) (store w)) in
  store (snd (deleteBackup config backupName w))
  = without (map (fun k => {| oi_Key := k |}) found) (store w)
  /\ fst (deleteBackup config backupName w)
     = match found with
       | [] => Thrown (Error ("No backup found at s3://" +:+ bucket (s3 config)
                              +:+ "/" +:+ prefix (s3 config) +:+ "/"
                              +:+ backupName))
       | _ :: _ => Returned {| backupName := backupName;
                               deletedFiles := length found |}
       end.
Proof.
  intros Hs found.
  set (pfx := prefix (s3 config) +:+ "/" +:+ backupName) in *.
  assert (pfx <> "") as Hpfx.
  { subst pfx. destruct (prefix (s3 config)); discriminate. }
  assert (Forall (fun k => k <> "") found) as Hkeys.
  { apply Forall_forall. intros k Hk. apply subseteq_take in Hk.
    apply list_elem_of_In, filter_In in Hk as [_ Hk].
    intros ->. by destruct pfx. }
  pose proof (deleteBackup_run config backupName w) as Hrun.
  cbv zeta in Hrun. simpl listObjectsV2 in Hrun.
  unfold backup_listing in Hrun. fold pfx in Hrun.
  rewrite (list_objects_page _ config pfx) in Hrun by done.
  cbn [fst snd] in Hrun. fold found in Hrun.
  pose proof (objectsToDelete_keys found Hkeys) as Hks.
  destruct found as [|k ks] eqn:Hfound.
  { simpl in Hrun. rewrite Hrun. simpl. by rewrite without_nil. }
  change (default [] (Contents _))
    with (map (fun k => {| Key := Some k |}) (k :: ks)) in Hrun.
  rewrite Hks in Hrun. simpl length in Hrun.
  change (Datatypes.S (length (map _ ks)) =? 0)%nat with false in Hrun.
  change (Datatypes.S (length (map (fun k0 => {| oi_Key := k0 |}) ks)) =? 0)%nat
    with false in Hrun.
  cbv iota in Hrun.
  match type of Hrun with context [delete_batches ?f ?c ?cfg ?o ?i ?t ?w1] =>
    destruct (delete_batches_mem f c cfg o i t w1) as (w' & Hloop & Hstore);
    [done|simpl; lia|rewrite Hloop in Hrun]
  end.
  rewrite Hrun. simpl. rewrite Hstore, drop_0. simpl store.
  split; [done|]. by rewrite length_map.
Qed.

Lemma filter_swap {A} (f g : A -> bool) (l : list A) :
  List.filter f (List.filter g l) = List.filter g (List.filter f l).
Proof.
  induction l as [|a l IH]; [done|]. simpl.
  destruct (f a) eqn:Hf, (g a) eqn:Hg; simpl; rewrite ?Hf, ?Hg, IH; done.
Qed.

(** In a list without duplicates, what is not among the first [n]
    elements is what follows them. *)
Lemma filter_not_taken (m : list string) n :
  List.NoDup m ->
  List.filter
    (fun k => negb (existsb (fun o => String.eqb (oi_Key o) k)
                            (map (fun k => {| oi_Key := k |}) (take n m)))) m
  = drop n m.
Proof.
  intros Hm. revert n. induction Hm as [|a m Ha Hm IH]; intros n.
  - by destruct n.
  - destruct n as [|n]; [simpl; by rewrite filter_all|].
    cbn [take map existsb oi_Key List.filter drop].
    rewrite String.eqb_refl. cbn [orb negb].
    rewrite <- (IH n). apply filter_ext_in. intros k Hk.
    destruct (String.eqb_spec a k) as [->|]; [done|reflexivity].
Qed.
End PageFacts.

(** X10: [deleteBackup] lists once and does not ask for a further page.
    On a store in memory that answers, when the keys that start with
    [{prefix}/{backupName}] fit in one page of the listing, they are all
    deleted and every other key stays, in the order of the store; when
    they do not fit, the call still returns, reports a page of deleted
    files, and the keys after the first page are left in the store. *)
Theorem X10_deleteBackup_reads_one_page
    (config : Config) (backupName : string) (w : World MemS3.state) :
  MemS3.answers config (store w) ->
  let pfx := prefix (s3 config) +:+ "/" +:+ backupName in
  let under := MemS3.matching pfx (store w) in
  let page := MemS3.maxKeys (store w) in
  let run := deleteBackup config backupName w in
  ((length under <= page)%nat ->
   MemS3.keys (store (snd run))
   = List.filter (fun k => negb (JsString.startsWith k pfx))
       (MemS3.keys (store w)))
  /\ ((0 < page < length under)%nat ->
      fst run = Returned {| backupName := backupName; deletedFiles := page |}
      /\ (List.NoDup (MemS3.keys (store w)) ->
          MemS3.matching pfx (store (snd run)) = drop page under)).
Proof.
  intros Hs pfx under page run. subst run.
  destruct (deleteBackup_page config backupName w Hs) as [Hstore Hout].
  cbv zeta in Hstore, Hout. fold pfx under page in Hstore, Hout. split.
  - intros Hfit. rewrite Hstore, take_ge by done. unfold MemS3.without. simpl.
    apply filter_ext_in. intros k Hk. f_equal.
    apply eq_true_iff_eq. rewrite existsb_keys. subst under.
    unfold MemS3.matching. rewrite filter_In. tauto.
  - intros [Hpos Hbig]. split.
    + rewrite Hout.
      assert (length (take page under) = page) as Hlen
        by (rewrite length_take; lia).
      destruct (take page under); simpl in Hlen; [lia|]. by rewrite <- Hlen.
    + intros Hnodup. rewrite Hstore. unfold MemS3.matching at 1.
      unfold MemS3.without. simpl. rewrite filter_swap.
      fold (MemS3.matching pfx (store w)). fold under.
      apply filter_not_taken. subst under. unfold MemS3.matching.
      by apply List.NoDup_filter.
Qed.

Lemma X10_deleteBackup_reads_one_page_witness :
  let keys := ["b/x/0"; "b/x/1"; "b/x/2"; "b/y/0"] in
  let w := MemS3.world {| MemS3.bucketName := "env-bucket"; MemS3.keys := keys;
                          MemS3.maxKeys := 2; MemS3.faults := [] |} Demo.now in
  let run := deleteBackup Demo.short_config "x" w in
  fst run = Returned {| backupName := "x"; deletedFiles := 2 |}
  /\ MemS3.matching (prefix (s3 Demo.short_config) +:+ "/" +:+ "x")
       (store (snd run)) = ["b/x/2"].
Proof.
  intros keys w run.
  assert (MemS3.answers Demo.short_config (store w)) as Hs by (split; reflexivity).
  destruct (X10_deleteBackup_reads_one_page Demo.short_config "x" w Hs)
    as [_ Hpage].
  destruct Hpage as [Hret Hleft]; [vm_compute; lia|].
  split; [exact Hret|].
  subst run. rewrite Hleft; [reflexivity|].
  repeat constructor; simpl; intuition discriminate.
Defined.

(** ** The requests of a run *)

Section RunRequestFacts.
Context {S : Type} `{S3Service S}.

Lemma deleteBackup_sends config backupName (w : World S) :
  exists done,
    sent (snd (deleteBackup config backupName w))
    = sent w ++ ListObjectsV2Command (backup_listing config backupName)
                :: map (batch_request config) done
    /\ Forall (fun batch => (0 < length batch <= 1000)%nat) done.
Proof.
  pose proof (deleteBackup_requests config backupName w) as Hreq.
  cbv zeta in Hreq.
  destruct (listed_objects config backupName w) as [objects|].
  - destruct Hreq as (batches & done & Hbs & Hpre & Hsent & _).
    exists done. split; [done|]. by eapply Batches_bounds.
  - destruct Hreq as [Hsent _]. exists []. by split.
Qed.

(** The requests of the deletion phase: for each backup its listing and
    its deletion requests, and nothing else. *)
Lemma Attempts_requests config (w w' : World S) backups oks :
  Attempts config w backups oks w' ->
  exists new,
    sent w' = sent w ++ new
    /\ Forall
         (fun cmd =>
            (exists b, In b backups
                       /\ cmd = ListObjectsV2Command
                                  (backup_listing config (name b)))
            \/ (exists batch, cmd = batch_request config batch
                              /\ (0 < length batch <= 1000)%nat))
         new.
Proof.
  assert (forall (w w1 w' : World S) b bs o new,
            deleteBackup config (name b) w = (o, w1) ->
            sent w' = sent w1 ++ new ->
            Forall
              (fun cmd =>
                 (exists b, In b bs
                            /\ cmd = ListObjectsV2Command
                                       (backup_listing config (name b)))
                 \/ (exists batch, cmd = batch_request config batch
                                   /\ (0 < length batch <= 1000)%nat)) new ->
            exists new,
              sent w' = sent w ++ new
              /\ Forall
                   (fun cmd =>
                      (exists b', In b' (b :: bs)
                                  /\ cmd = ListObjectsV2Command
                                             (backup_listing config (name b')))
                      \/ (exists batch, cmd = batch_request config batch
                                        /\ (0 < length batch <= 1000)%nat))
                   new) as Hstep.
  { intros w0 w1 w2 b bs o new Hrun Hsent Hnew.
    destruct (deleteBackup_sends config (name b) w0) as (done & Hs & Hdone).
    rewrite Hrun in Hs. simpl in Hs. rewrite Hs, <- app_assoc in Hsent.
    eexists. split; [exact Hsent|].
    simpl. constructor; [left; exists b; split; [by left|done]|].
    apply Forall_app. split.
    - apply Forall_map. eapply Forall_impl; [exact Hdone|].
      intros batch Hb. right. by exists batch.
    - eapply Forall_impl; [exact Hnew|].
      intros cmd [(b' & Hb' & ->)|Hd]; [left; exists b'; split; [by right|done]
                                        |by right]. }
  induction 1 as [w|w b bs result w1 oks w' Hrun _ (new & Hsent & Hnew)
                 |w b bs error w1 oks w' Hrun _ (new & Hsent & Hnew)].
  - exists []. split; [by rewrite app_nil_r|constructor].
  - by eapply Hstep.
  - by eapply Hstep.
Qed.

Lemma delete_batches_console fuel client config objs i total (w : World S) :
  console (snd (delete_batches fuel client config objs i total w)) = console w.
Proof.
  revert i total w. induction fuel as [|fuel IH]; intros i total w; simpl.
  - by destruct (i <? length objs)%nat.
  - destruct (i <? length objs)%nat; [|done].
    unfold bind at 1, send_delete at 1.
    destruct (deleteObjects _ _ _) as [[message|[]] s1]; simpl; [done|].
    by rewrite IH.
Qed.

(** [deleteBackup] prints nothing. *)
Lemma deleteBackup_console config backupName (w : World S) :
  console (snd (deleteBackup config backupName w)) = console w.
Proof.
  pose proof (deleteBackup_run config backupName w) as Hrun. cbv zeta in Hrun.
  destruct (listObjectsV2 _ _ _).1; [by rewrite Hrun|].
  destruct (length (default [] _) =? 0)%nat; [by rewrite Hrun|].
  destruct (length (objectsToDelete _) =? 0)%nat; [by rewrite Hrun|].
  rewrite Hrun.
  match goal with |- context [delete_batches ?f ?cl ?cf ?o ?i ?t ?w1] =>
    pose proof (delete_batches_console f cl cf o i t w1) as Hcon;
    destruct (delete_batches f cl cf o i t w1) as [[]]
  end; simpl in Hcon |- *; by rewrite Hcon.
Qed.

Lemma Attempts_console config (w w' : World S) backups oks :
  Attempts config w backups oks w' ->
  exists lines, console w' = console w ++ lines.
Proof.
  induction 1 as [w|w b bs result w1 oks w' Hrun _ [lines Hlines]
                 |w b bs error w1 oks w' Hrun _ [lines Hlines]].
  - exists []. by rewrite app_nil_r.
  - pose proof (deleteBackup_console config (name b) w) as Hcon.
    rewrite Hrun in Hcon. simpl in Hcon, Hlines.
    rewrite Hcon, <- app_assoc in Hlines. by eexists.
  - pose proof (deleteBackup_console config (name b) w) as Hcon.
    rewrite Hrun in Hcon. simpl in Hcon, Hlines.
    rewrite Hcon, <- app_assoc in Hlines. by eexists.
Qed.

Lemma errors_forallb oks :
  (0 <? length (List.filter negb oks))%nat = negb (forallb id oks).
Proof. induction oks as [|[] oks IH]; simpl; [done|exact IH|done]. Qed.
End RunRequestFacts.

(** X12: the requests of a run are the listing of the backups and then,
    for backups that the listing dates before the cutoff, the listing of
    the backup and deletion requests of 1 to 1000 keys; all of them name
    the bucket of the environment.  No request is sent for a backup that
    is kept, and a dry run sends the first listing only. *)
Theorem X12_requests_of_a_run
    (S : Type) (service : S3Service S) (process_env : gmap string string)
    (LocalTZA : Z -> bool -> Z) (options : PruneOptions) (w : World S)
    (c : Z) (config : Config) :
  cutoff LocalTZA (Some (clock w))
    (resolved_days process_env (options_days options)) = Some c ->
  loadConfig process_env = inr config ->
  let answer :=
    listObjectsV2 (createS3Client config) (listing_request config) (store w) in
  let run := runPrune process_env LocalTZA options w in
  exists new,
    sent (snd run)
    = sent w ++ ListObjectsV2Command (listing_request config) :: new
    /\ Forall
         (fun cmd =>
            (exists response b,
               fst answer = inr response
               /\ In b (backupsToDelete (Some c)
                          (listed_backups config response))
               /\ cmd = ListObjectsV2Command
                          {| Bucket := bucket (s3 config);
                             Prefix := prefix (s3 config) +:+ "/" +:+ name b;
                             Delimiter := None |})
            \/ (exists batch,
                  cmd = DeleteObjectsCommand
                          {| del_Bucket := bucket (s3 config);
                             del_Objects := batch; del_Quiet := true |}
                  /\ (0 < length batch <= 1000)%nat))
         new
    /\ (options_dryRun options = Some true -> new = []).
Proof.
  intros Hc Hconfig answer run. subst run answer.
  destruct (runPrune_run process_env LocalTZA options w)
    as (w0 & (Hstore & Hsent & _) & Hrun).
  cbv zeta in Hrun. rewrite Hc in Hrun.
  destruct (runPrune_try_run process_env options (Some c) config w0 Hconfig)
    as (w1 & (Hstore1 & Hsent1 & _) & Htry).
  cbv zeta in Htry. rewrite Hstore in Htry, Hstore1.
  simpl in Hstore1, Hsent1. rewrite Hsent in Hsent1.
  destruct (listObjectsV2 _ _ _).1 as [message|response] eqn:Hanswer.
  { rewrite Htry in Hrun. rewrite Hrun. exists []. by split_and!. }
  destruct (length (listed_backups config response) =? 0)%nat.
  { rewrite Htry in Hrun. rewrite Hrun. exists []. by split_and!. }
  destruct (length (backupsToDelete _ _) =? 0)%nat.
  { rewrite Htry in Hrun. rewrite Hrun. exists []. by split_and!. }
  destruct (bool_decide_reflect (options_dryRun options = Some true))
    as [Hdry|Hwet].
  { rewrite Htry in Hrun. rewrite Hrun. exists []. by split_and!. }
  match type of Htry with _ = delete_phase _ ?l ?w3 =>
    destruct (delete_phase_run config l w3) as (oks & w4 & Hatt & Hphase)
  end.
  cbv zeta in Hphase. rewrite Hphase in Htry. rewrite Htry in Hrun.
  destruct (Attempts_requests _ _ _ _ _ Hatt) as (new & Hnew & Hall).
  simpl in Hnew. rewrite Hsent1, <- app_assoc in Hnew.
  exists new. rewrite Hrun. split_and!.
  - by destruct (0 <? _)%nat.
  - eapply Forall_impl; [exact Hall|].
    intros cmd [(b & Hb & ->)|(batch & -> & Hbatch)].
    + left. by exists response, b.
    + right. by exists batch.
  - done.
Qed.

Lemma X12_requests_of_a_run_witness :
  let w := Demo.world_of ["backups/mongodb/db-2024-01-01/a.gz";
                          "backups/mongodb/db-2024-03-09/a.gz"] in
  let run := runPrune Demo.env Demo.utc_zone Demo.no_options w in
  exists new,
    sent (snd run)
    = ListObjectsV2Command (listing_request Demo.config) :: new
    /\ ~ In (ListObjectsV2Command
               {| Bucket := "env-bucket";
                  Prefix := "backups/mongodb/db-2024-03-09";
                  Delimiter := None |}) new.
Proof.
  intros w run.
  assert (cutoff Demo.utc_zone (Some (clock w))
            (resolved_days Demo.env (options_days Demo.no_options))
          = Some 1708862400000) as Hc by (vm_compute; reflexivity).
  assert (loadConfig Demo.env = inr Demo.config) as Hconfig
    by (vm_compute; reflexivity).
  destruct (X12_requests_of_a_run _ _ Demo.env Demo.utc_zone Demo.no_options
              w _ _ Hc Hconfig) as (new & Hsent & Hall & _).
  exists new. split; [exact Hsent|].
  intros Hin. rewrite Forall_forall in Hall.
  apply list_elem_of_In, Hall in Hin
    as [(response & b & Hanswer & Hb & Heq)|(batch & Heq & _)];
    [|discriminate Heq].
  vm_compute in Hanswer. injection Hanswer as <-.
  vm_compute in Hb. destruct Hb as [<-|[]]. discriminate Heq.
Defined.

(** ** The order of the listed backups *)

Section OrderFacts.

Lemma before_newer a b :
  date a <> None -> date b <> None ->
  JsArray.before by_date_desc a b = false -> not_older b a.
Proof.
  unfold JsArray.before, by_date_desc, not_older, JsDate.sub, JsDate.getTime,
    JsDate.ge.
  destruct (date a) as [x|], (date b) as [y|]; try done.
  intros _ _ Hlt. apply Z.ltb_ge in Hlt. apply Z.leb_le. lia.
Qed.

Lemma before_strictly_newer a b :
  JsArray.before by_date_desc a b = true -> not_older a b.
Proof.
  unfold JsArray.before, by_date_desc, not_older, JsDate.sub, JsDate.getTime,
    JsDate.ge.
  destruct (date a) as [x|], (date b) as [y|]; try done.
  intros Hlt. apply Z.ltb_lt in Hlt. apply Z.leb_le. lia.
Qed.

Lemma not_older_trans a b c : not_older a b -> not_older b c -> not_older a c.
Proof.
  unfold not_older, JsDate.ge.
  destruct (date a) as [x|], (date b) as [y|], (date c) as [z|]; try done.
  rewrite !Z.leb_le. lia.
Qed.

Lemma insert_sorted_newest_first x l :
  date x <> None -> Forall (fun b => date b <> None) l ->
  StronglySorted not_older l ->
  StronglySorted not_older (JsArray.insert_sorted by_date_desc x l).
Proof.
  intros Hx Hl Hs. induction Hs as [|y l Hs IH Hy]; simpl.
  - repeat constructor.
  - apply Forall_cons_1 in Hl as [Hvy Hl].
    destruct (JsArray.before by_date_desc x y) eqn:Hb.
    + constructor; [by constructor|].
      apply before_strictly_newer in Hb. constructor; [done|].
      eapply Forall_impl; [exact Hy|]. intros z Hz. by eapply not_older_trans.
    + constructor; [by apply IH|].
      apply before_newer in Hb; [|done..].
      apply Forall_forall. intros z Hz%list_elem_of_In.
      apply (Permutation_in _ (insert_sorted_perm by_date_desc x l)) in Hz.
      destruct Hz as [<-|Hz]; [done|].
      rewrite Forall_forall in Hy. by apply Hy, list_elem_of_In.
Qed.

Lemma sort_newest_first l :
  Forall (fun b => date b <> None) l ->
  StronglySorted not_older (JsArray.sort by_date_desc l).
Proof.
  unfold JsArray.sort.
  assert (forall acc,
            Forall (fun b => date b <> None) acc -> StronglySorted not_older acc ->
            Forall (fun b => date b <> None) l ->
            StronglySorted not_older
              (fold_left (fun acc x => JsArray.insert_sorted by_date_desc x acc)
                         l acc)) as Hgen.
  { induction l as [|x l IH]; intros acc Hacc Hs Hl; simpl; [done|].
    apply Forall_cons_1 in Hl as [Hx Hl]. apply IH; [| |done].
    - apply Forall_forall. intros z Hz%list_elem_of_In.
      apply (Permutation_in _ (insert_sorted_perm by_date_desc x acc)) in Hz.
      destruct Hz as [<-|Hz]; [done|].
      rewrite Forall_forall in Hacc. by apply Hacc, list_elem_of_In.
    - by apply insert_sorted_newest_first. }
  intros Hl. apply Hgen; [constructor|constructor|done].
Qed.
End OrderFacts.

Section StableFacts.

(** Among valid dates that are in order, an insertion puts the new backup
    after those of its own date. *)
Lemma insert_sorted_stable t x l :
  date x <> None -> Forall (fun b => date b <> None) l ->
  StronglySorted not_older l ->
  List.filter (dated_at t) (JsArray.insert_sorted by_date_desc x l)
  = List.filter (dated_at t) l ++ (if dated_at t x then [x] else []).
Proof.
  intros Hx Hl Hs.
  assert (forall z r,
            List.filter (dated_at t) (z :: r)
            = if dated_at t z then z :: List.filter (dated_at t) r
              else List.filter (dated_at t) r) as Hcons by reflexivity.
  induction Hs as [|y l Hs IH Hy]; [by simpl; destruct (dated_at t x)|].
  apply Forall_cons_1 in Hl as [Hvy Hl]. cbn [JsArray.insert_sorted].
  destruct (JsArray.before by_date_desc x y) eqn:Hb.
  - rewrite (Hcons x). destruct (dated_at t x) eqn:Hdx; [|by rewrite app_nil_r].
    assert (forall z, In z (y :: l) -> dated_at t z = false) as Hnone.
    { intros z Hz.
      assert (not_older y z) as Hyz.
      { destruct Hz as [<-|Hz].
        - unfold not_older, JsDate.ge. destruct (date y); [|done].
          apply Z.leb_refl.
        - rewrite Forall_forall in Hy. by apply Hy, list_elem_of_In. }
      revert Hb Hdx Hyz.
      unfold not_older, dated_at, JsArray.before, by_date_desc, JsDate.sub,
        JsDate.getTime, JsDate.ge.
      destruct (date x) as [a|], (date y) as [b|], (date z) as [c|]; try done.
      rewrite Z.ltb_lt, Z.eqb_eq, Z.leb_le. intros. apply Z.eqb_neq. lia. }
    assert (List.filter (dated_at t) (y :: l) = []) as ->; [|done].
    clear -Hnone. induction (y :: l) as [|z l' IHl]; [done|]. simpl.
    rewrite Hnone by by left. apply IHl. intros z' Hz'. apply Hnone. by right.
  - rewrite !(Hcons y), IH by done.
    destruct (dated_at t y); [by rewrite app_comm_cons|done].
Qed.

(** The sort keeps the backups of one date in the order in which it found
    them. *)
Lemma sort_stable t l :
  Forall (fun b => date b <> None) l ->
  List.filter (dated_at t) (JsArray.sort by_date_desc l)
  = List.filter (dated_at t) l.
Proof.
  unfold JsArray.sort.
  assert (forall acc,
            Forall (fun b => date b <> None) acc -> StronglySorted not_older acc ->
            Forall (fun b => date b <> None) l ->
            List.filter (dated_at t)
              (fold_left (fun acc x => JsArray.insert_sorted by_date_desc x acc)
                         l acc)
            = List.filter (dated_at t) acc ++ List.filter (dated_at t) l)
    as Hgen.
  { induction l as [|x l IH]; intros acc Hacc Hs Hl; simpl;
      [by rewrite app_nil_r|].
    apply Forall_cons_1 in Hl as [Hx Hl]. rewrite IH; [| | |done].
    - rewrite insert_sorted_stable by done. rewrite <- app_assoc.
      by destruct (dated_at t x).
    - apply Forall_forall. intros z Hz%list_elem_of_In.
      apply (Permutation_in _ (insert_sorted_perm by_date_desc x acc)) in Hz.
      destruct Hz as [<-|Hz]; [done|].
      rewrite Forall_forall in Hacc. by apply Hacc, list_elem_of_In.
    - by apply insert_sorted_newest_first. }
  intros Hl. by rewrite Hgen; [|constructor|constructor|].
Qed.
End StableFacts.

Section SortedFilterFacts.
Lemma StronglySorted_filter {A} (R : A -> A -> Prop) (f : A -> bool) (l : list A) :
  StronglySorted R l -> StronglySorted R (List.filter f l).
Proof.
  induction 1 as [|a l Hs IH Ha]; [constructor|]. simpl.
  destruct (f a); [|done]. constructor; [done|].
  apply Forall_forall. intros b Hb%list_elem_of_In.
  apply filter_In in Hb as [Hb _]. rewrite Forall_forall in Ha.
  by apply Ha, list_elem_of_In.
Qed.
End SortedFilterFacts.

(** X13: the backups that the lister returns are those it collected from
    the response, each as many times.  When all their dates are valid they
    are in the order of their dates, the most recent first, and backups of
    one date are in the order of the response: the one order that a stable
    sort by decreasing date gives. *)
Theorem X13_backups_newest_first
    (S : Type) (service : S3Service S) (config : Config) (w : World S)
    (backups : list BackupWithDate) :
  fst (listBackupsWithDates config w) = Returned backups ->
  exists response,
    fst (listObjectsV2 (createS3Client config) (listing_request config)
           (store w)) = inr response
    /\ backups ≡ₚ collected (listing_prefix config)
                            (response_prefixes response)
    /\ (Forall (fun b => date b <> None) backups ->
        StronglySorted not_older backups
        /\ forall t,
             List.filter (dated_at t) backups
             = List.filter (dated_at t)
                 (collected (listing_prefix config)
                            (response_prefixes response))).
Proof.
  intros Hrun.
  destruct (listBackupsWithDates_run config w) as (w' & _ & Hlist).
  rewrite Hlist in Hrun. simpl in Hrun.
  destruct (listObjectsV2 _ _ _).1 as [message|response]; [done|].
  injection Hrun as <-. unfold listed_backups in *.
  exists response. split; [done|]. split; [apply sort_perm|].
  intros Hvalid.
  assert (Forall (fun b => date b <> None)
            (collected (listing_prefix config) (response_prefixes response)))
    as Hcollected.
  { apply Forall_forall. intros b Hb.
    rewrite Forall_forall in Hvalid. apply Hvalid.
    apply list_elem_of_In. apply sort_In. by apply list_elem_of_In. }
  split; [by apply sort_newest_first|].
  intros t. by apply sort_stable.
Qed.

Lemma X13_backups_newest_first_witness :
  let w := Demo.world_of ["backups/mongodb/db-2024-01-01/a.gz";
                          "backups/mongodb/db-2024-03-09/a.gz";
                          "backups/mongodb/db-2024-02-01-10-00-00/a.gz"] in
  let backups :=
    [{| name := "db-2024-03-09"; date := Some 1709942400000 |};
     {| name := "db-2024-02-01-10-00-00"; date := Some 1706781600000 |};
     {| name := "db-2024-01-01"; date := Some 1704067200000 |}] in
  fst (listBackupsWithDates Demo.config w) = Returned backups
  /\ StronglySorted not_older backups.
Proof.
  intros w backups.
  assert (fst (listBackupsWithDates Demo.config w) = Returned backups) as Hrun
    by (vm_compute; reflexivity).
  assert (Forall (fun b => date b <> None) backups) as Hvalid
    by (repeat constructor; discriminate).
  split; [exact Hrun|].
  destruct (X13_backups_newest_first _ _ Demo.config w backups Hrun)
    as (response & _ & _ & Hsorted).
  exact (proj1 (Hsorted Hvalid)).
Defined.

(** X11: when every listed backup has a valid date, a run that is not a
    dry run and finds backups older than the cutoff attempts the deletion
    of exactly these, the most recent first and those of one date in the
    order of the response, each attempt from the world that the one before
    left; its requests and its store are those of the attempts, and the
    exit status is 0 when every attempt succeeded and 1 otherwise.  (With
    an invalid date among the listed backups the order of the attempts is
    the one that the sort of the engine leaves, which is not stated
    here.) *)
Theorem X11_run_attempts_what_is_older
    (S : Type) (service : S3Service S) (process_env : gmap string string)
    (LocalTZA : Z -> bool -> Z) (options : PruneOptions) (w : World S)
    (c : Z) (config : Config) (response : ListObjectsV2Output) :
  cutoff LocalTZA (Some (clock w))
    (resolved_days process_env (options_days options)) = Some c ->
  loadConfig process_env = inr config ->
  fst (listObjectsV2 (createS3Client config) (listing_request config)
         (store w)) = inr response ->
  Forall (fun b => date b <> None) (listed_backups config response) ->
  options_dryRun options <> Some true ->
  let toDelete := backupsToDelete (Some c) (listed_backups config response) in
  toDelete <> [] ->
  let run := runPrune process_env LocalTZA options w in
  exists w3 oks w4,
    store w3 = snd (listObjectsV2 (createS3Client config)
                      (listing_request config) (store w))
    /\ sent w3 = sent w ++ [ListObjectsV2Command (listing_request config)]
    /\ Attempts config w3 toDelete oks w4
    /\ length oks = length toDelete
    /\ fst run = Exited (if forallb id oks then 0 else 1)
    /\ store (snd run) = store w4
    /\ sent (snd run) = sent w4
    /\ (forall b, In b toDelete -> In (report_line b) (console (snd run)))
    /\ StronglySorted not_older toDelete
    /\ (forall t,
          List.filter (dated_at t) toDelete
          = List.filter (dated_at t)
              (backupsToDelete (Some c)
                 (collected (listing_prefix config)
                            (response_prefixes response)))).
Proof.
  intros Hc Hconfig Hanswer Hvalid Hwet toDelete Hsome run. subst run.
  assert (StronglySorted not_older toDelete
          /\ forall t,
               List.filter (dated_at t) toDelete
               = List.filter (dated_at t)
                   (backupsToDelete (Some c)
                      (collected (listing_prefix config)
                                 (response_prefixes response)))) as Horder.
  { assert (Forall (fun b => date b <> None)
              (collected (listing_prefix config) (response_prefixes response)))
      as Hcollected.
    { apply Forall_forall. intros b Hb.
      rewrite Forall_forall in Hvalid. apply Hvalid.
      apply list_elem_of_In. apply sort_In. by apply list_elem_of_In. }
    subst toDelete. unfold backupsToDelete, listed_backups. split.
    - apply StronglySorted_filter. by apply sort_newest_first.
    - intros t. rewrite filter_swap, sort_stable by done. apply filter_swap. }
  destruct (runPrune_run process_env LocalTZA options w)
    as (w0 & (Hstore & Hsent & _) & Hrun).
  cbv zeta in Hrun. rewrite Hc in Hrun.
  destruct (runPrune_try_run process_env options (Some c) config w0 Hconfig)
    as (w1 & (Hstore1 & Hsent1 & _) & Htry).
  cbv zeta in Htry. rewrite Hstore in Htry, Hstore1. rewrite Hanswer in Htry.
  fold toDelete in Htry.
  simpl in Hstore1, Hsent1. rewrite Hsent in Hsent1.
  assert ((length (listed_backups config response) =? 0)%nat = false) as Hn.
  { apply Nat.eqb_neq. intros Hz. apply Hsome. subst toDelete.
    destruct (listed_backups config response); [done|discriminate]. }
  assert ((length toDelete =? 0)%nat = false) as Hn'.
  { apply Nat.eqb_neq. intros Hz. apply Hsome. by destruct toDelete. }
  rewrite Hn, Hn', bool_decide_eq_false_2 in Htry by done.
  match type of Htry with _ = delete_phase _ _ ?w3 =>
    destruct (delete_phase_run config toDelete w3)
      as (oks & w4 & Hatt & Hphase);
    exists w3, oks, w4
  end.
  cbv zeta in Hphase. rewrite Hphase in Htry. rewrite Htry in Hrun.
  rewrite Hrun. cbn [fst snd].
  destruct (Attempts_sent _ _ _ _ _ Hatt) as (_ & Hlen & _).
  rewrite errors_forallb.
  assert (forall b, In b toDelete -> In (report_line b) (console w4)) as Hrep.
  { intros b Hb. destruct (Attempts_console _ _ _ _ _ Hatt) as [lines ->].
    simpl. rewrite !in_app_iff. simpl. rewrite in_app_iff.
    pose proof (in_map report_line _ _ Hb). tauto. }
  destruct Horder as [Hsorted Hstable].
  destruct (forallb id oks); simpl; split_and!; try done.
  - intros b Hb. pose proof (Hrep b Hb).
    unfold printed. simpl. rewrite !in_app_iff. tauto.
  - intros b Hb. pose proof (Hrep b Hb).
    unfold printed. simpl. rewrite !in_app_iff. tauto.
Qed.

Lemma X11_run_attempts_what_is_older_witness :
  let w := Demo.world_of ["backups/mongodb/db-2024-01-01/a.gz";
                          "backups/mongodb/db-2024-03-09/a.gz"] in
  let run := runPrune Demo.env Demo.utc_zone Demo.no_options w in
  exists oks,
    length oks = 1%nat
    /\ fst run = Exited (if forallb id oks then 0 else 1)
    /\ In (LOG, "   - db-2024-01-01 (2024-01-01T00:00:00.000Z)")
          (console (snd run)).
Proof.
  intros w run.
  pose (response :=
          {| Contents := None;
             CommonPrefixes :=
               Some [{| cp_Prefix := Some "backups/mongodb/db-2024-01-01/" |};
                     {| cp_Prefix := Some "backups/mongodb/db-2024-03-09/" |}] |}).
  assert (cutoff Demo.utc_zone (Some (clock w))
            (resolved_days Demo.env (options_days Demo.no_options))
          = Some 1708862400000) as Hc by (vm_compute; reflexivity).
  assert (loadConfig Demo.env = inr Demo.config) as Hconfig
    by (vm_compute; reflexivity).
  assert (fst (listObjectsV2 (createS3Client Demo.config)
                 (listing_request Demo.config) (store w)) = inr response)
    as Hanswer by (vm_compute; reflexivity).
  assert (Forall (fun b => date b <> None)
            (listed_backups Demo.config response)) as Hvalid.
  { assert (listed_backups Demo.config response
            = [{| name := "db-2024-03-09"; date := Some 1709942400000 |};
               {| name := "db-2024-01-01"; date := Some 1704067200000 |}])
      as -> by (vm_compute; reflexivity).
    repeat constructor; discriminate. }
  assert (options_dryRun Demo.no_options <> Some true) as Hwet by discriminate.
  assert (backupsToDelete (Some 1708862400000)
            (listed_backups Demo.config response)
          = [{| name := "db-2024-01-01"; date := Some 1704067200000 |}])
    as Hold by (vm_compute; reflexivity).
  assert (backupsToDelete (Some 1708862400000)
            (listed_backups Demo.config response) <> []) as Hsome
    by (rewrite Hold; discriminate).
  destruct (X11_run_attempts_what_is_older _ _ Demo.env Demo.utc_zone
              Demo.no_options w _ _ _ Hc Hconfig Hanswer Hvalid Hwet Hsome)
    as (w3 & oks & w4 & _ & _ & _ & Hlen & Hexit & _ & _ & Hreport & _).
  exists oks. rewrite Hold in Hlen, Hreport.
  split; [exact Hlen|]. split; [exact Hexit|].
  apply (Hreport {| name := "db-2024-01-01"; date := Some 1704067200000 |}).
  by left.
Defined.

(** ** The names of the listed backups *)

Section FolderFacts.
Import JsString.

Lemma app_empty_r_s (s : string) : s +:+ "" = s.
Proof. induction s as [|c s IH]; [done|]. rewrite app_cons. by rewrite IH. Qed.

Lemma remove_first_app (pat rest : string) :
  remove_first pat (pat +:+ rest) = rest.
Proof.
  pose proof (startsWith_app pat rest) as Hs.
  pose proof (slice_from_app pat rest) as Hr.
  destruct (pat +:+ rest); cbn [remove_first]; by rewrite Hs.
Qed.

Lemma split_app (name rest : string) :
  no_slash name ->
  split "/"%char (name +:+ String "/"%char rest) = name :: split "/"%char rest.
Proof.
  unfold no_slash. induction name as [|c name IH]; intros Hn.
  - rewrite app_empty_l. reflexivity.
  - rewrite app_cons. cbn [split].
    destruct (Ascii.eqb_spec c "/"%char) as [->|_]; [destruct Hn; by left|].
    rewrite IH; [done|]. intros Hin. apply Hn. by right.
Qed.

Lemma split_no_slash (s : string) : Forall no_slash (split "/"%char s).
Proof.
  unfold no_slash. induction s as [|c s IH]; cbn [split].
  - constructor; [by intros []|constructor].
  - destruct (Ascii.eqb_spec c "/"%char) as [->|Hc].
    + constructor; [by intros []|done].
    + destruct (split "/"%char s) as [|p ps]; [repeat constructor; simpl; intuition|].
      apply Forall_cons_1 in IH as [Hp Hps]. constructor; [|done].
      simpl. intros [Heq|Hin]; [by subst|done].
Qed.

Lemma folder_name_no_slash listing p : no_slash (folder_name listing p).
Proof.
  unfold folder_name.
  pose proof (split_no_slash (remove_first listing p)) as Hall.
  induction Hall as [|piece l Hpiece _ IH]; simpl; [by intros []|].
  destruct (truthy piece) eqn:Ht; [|exact IH].
  unfold or_else. by rewrite Ht.
Qed.

Lemma folder_name_segment listing name rest :
  name <> "" -> no_slash name ->
  folder_name listing (listing +:+ name +:+ "/" +:+ rest) = name.
Proof.
  intros Hne Hslash. unfold folder_name.
  rewrite remove_first_app.
  change ("/" +:+ rest) with (String "/"%char rest).
  rewrite split_app by done. simpl.
  destruct name; [done|]. reflexivity.
Qed.
End FolderFacts.

(** X14: the folder name that the lister reads from a common prefix
    [{listing}{name}/...] of the listing under [listing] is [name], for
    any name that is not empty and holds no [/]; from the listing prefix
    itself it reads no name. *)
Theorem X14_folder_name_of_common_prefix (listing name rest : string) :
  name <> "" ->
  no_slash name ->
  folder_name listing (listing +:+ name +:+ "/" +:+ rest) = name
  /\ folder_name listing listing = ""
  /\ folder_name listing (listing +:+ "/") = "".
Proof.
  intros Hne Hslash. split; [by apply folder_name_segment|].
  unfold folder_name. split.
  - rewrite <- (app_empty_r_s listing) at 2. by rewrite remove_first_app.
  - by rewrite remove_first_app.
Qed.

Lemma X14_folder_name_of_common_prefix_witness :
  folder_name "backups/mongodb/" "backups/mongodb/db-2024-01-01/" = "db-2024-01-01".
Proof.
  assert ("db-2024-01-01" <> "") as Hne by discriminate.
  assert (no_slash "db-2024-01-01") as Hslash
    by (unfold no_slash; simpl; intuition discriminate).
  exact (proj1 (X14_folder_name_of_common_prefix "backups/mongodb/"
                  "db-2024-01-01" "" Hne Hslash)).
Defined.

(** X15: every backup that the lister returns has a name that is not
    empty and holds no [/], so the prefix under which [deleteBackup] lists
    it is the configured prefix, one [/] and a single path segment. *)
Theorem X15_backup_names_are_segments
    (S : Type) (service : S3Service S) (config : Config) (w : World S)
    (backups : list BackupWithDate) :
  fst (listBackupsWithDates config w) = Returned backups ->
  Forall (fun b => name b <> "" /\ no_slash (name b)
                   /\ exists rest,
                        Prefix (backup_listing config (name b))
                        = prefix (s3 config) +:+ "/" +:+ rest
                        /\ rest <> "" /\ no_slash rest)
         backups.
Proof.
  intros Hrun.
  destruct (listBackupsWithDates_run config w) as (w' & _ & Hlist).
  rewrite Hlist in Hrun. simpl in Hrun.
  destruct (listObjectsV2 _ _ _).1 as [message|response]; [done|].
  injection Hrun as <-.
  apply Forall_forall. intros b Hb%list_elem_of_In.
  apply In_listed_backups in Hb as (p & _ & Hname & Hne & _).
  assert (no_slash (name b)) as Hslash
    by (rewrite Hname; apply folder_name_no_slash).
  split_and!; [done..|]. by exists (name b).
Qed.

Lemma X15_backup_names_are_segments_witness :
  let w := Demo.world_of ["backups/mongodb/db-2024-01-01/sub/a.gz";
                          "backups/mongodb/db-2024-03-09/a.gz"] in
  exists backups,
    fst (listBackupsWithDates Demo.config w) = Returned backups
    /\ map name backups = ["db-2024-03-09"; "db-2024-01-01"]
    /\ Forall (fun b => no_slash (name b)) backups.
Proof.
  intros w.
  destruct (fst (listBackupsWithDates Demo.config w))
    as [backups|e|code] eqn:Hrun;
    [|vm_compute in Hrun; discriminate Hrun..].
  exists backups. split; [reflexivity|]. split.
  - vm_compute in Hrun. injection Hrun as <-. reflexivity.
  - eapply Forall_impl;
      [exact (X15_backup_names_are_segments _ _ Demo.config w backups Hrun)|].
    intros b (_ & Hslash & _). exact Hslash.
Defined.

(** ** A prefix that ends in a slash *)

Section SlashFacts.
Import JsString.

Lemma startsWith_app_l (k a b : string) :
  startsWith k (a +:+ b) = true -> startsWith k a = true.
Proof.
  revert k. induction a as [|c a IH]; intros k; [by destruct k|].
  rewrite app_cons. destruct k as [|d k]; simpl; [done|].
  destruct (Ascii.eqb c d); [apply IH|done].
Qed.
End SlashFacts.

(** X16: the lister lists under the prefix followed by one [/], adding
    the [/] only when the prefix does not end in one, whereas [deleteBackup]
    always puts a [/] between the prefix and the name.  So with a prefix
    that ends in [/] the two disagree: on a store in memory that answers
    and has no key with [//] after the prefix, [deleteBackup] lists under
    [{prefix}/{name}] with two slashes, finds nothing, throws its "No backup
    found" error and deletes nothing. *)
Theorem X16_prefix_ending_in_slash
    (config : Config) (backupName p : string) (w : World MemS3.state) :
  prefix (s3 config) = p +:+ "/" ->
  MemS3.answers config (store w) ->
  Forall (fun k => JsString.startsWith k (p +:+ "//") = false)
         (MemS3.keys (store w)) ->
  listing_prefix config = p +:+ "/"
  /\ Prefix (backup_listing config backupName) = p +:+ "//" +:+ backupName
  /\ fst (deleteBackup config backupName w)
     = Thrown (Error ("No backup found at s3://" +:+ bucket (s3 config)
                      +:+ "/" +:+ p +:+ "//" +:+ backupName))
  /\ store (snd (deleteBackup config backupName w)) = store w.
Proof.
  intros Hp Hs Hkeys.
  assert (prefix (s3 config) +:+ "/" +:+ backupName
          = (p +:+ "//") +:+ backupName) as Hpfx.
  { rewrite Hp, !app_assoc_s. reflexivity. }
  assert (MemS3.matching (prefix (s3 config) +:+ "/" +:+ backupName) (store w)
          = []) as Hnone.
  { rewrite Hpfx. unfold MemS3.matching.
    induction Hkeys as [|k ks Hk _ IH]; [done|]. simpl.
    destruct (JsString.startsWith k ((p +:+ "//") +:+ backupName)) eqn:Hsw;
      [|exact IH].
    apply startsWith_app_l in Hsw. congruence. }
  destruct (deleteBackup_page config backupName w Hs) as [Hstore Hout].
  cbv zeta in Hstore, Hout. rewrite Hnone, take_nil in Hstore, Hout.
  simpl in Hstore. rewrite without_nil in Hstore. split_and!.
  - unfold listing_prefix. by rewrite Hp, endsWith_app.
  - simpl. rewrite Hpfx. by rewrite app_assoc_s.
  - rewrite Hout, Hp, !app_assoc_s. reflexivity.
  - exact Hstore.
Qed.

Lemma X16_prefix_ending_in_slash_witness :
  let env := <["S3_PREFIX" := "backups/mongodb/"]> Demo.env in
  let key := "backups/mongodb/db-2024-01-01/a.gz" in
  let w := Demo.world_of [key] in
  exists config,
    loadConfig env = inr config
    /\ map name
         (match fst (listBackupsWithDates config w) with
          | Returned backups => backups
          | _ => []
          end) = ["db-2024-01-01"]
    /\ fst (deleteBackup config "db-2024-01-01" w)
       = Thrown (Error "No backup found at s3://env-bucket/backups/mongodb//db-2024-01-01")
    /\ MemS3.keys (store (snd (deleteBackup config "db-2024-01-01" w))) = [key]
    /\ fst (runPrune env Demo.utc_zone Demo.no_options w) = Exited 1.
Proof.
  intros env key w.
  pose (config :=
          {| mongodb := mongodb Demo.config; aws := aws Demo.config;
             s3 := {| bucket := "env-bucket"; prefix := "backups/mongodb/" |};
             mongodumpPath := mongodumpPath Demo.config |}).
  assert (prefix (s3 config) = "backups/mongodb" +:+ "/") as Hp by reflexivity.
  assert (MemS3.answers config (store w)) as Hs by (split; reflexivity).
  assert (Forall (fun k => JsString.startsWith k ("backups/mongodb" +:+ "//")
                           = false) (MemS3.keys (store w))) as Hkeys
    by (repeat constructor).
  destruct (X16_prefix_ending_in_slash config "db-2024-01-01" "backups/mongodb"
              w Hp Hs Hkeys) as (_ & _ & Hthrown & Hstore).
  exists config. split; [vm_compute; reflexivity|].
  split; [vm_compute; reflexivity|].
  split; [exact Hthrown|]. split; [by rewrite Hstore|].
  vm_compute. reflexivity.
Defined.

(** ** The folders of a store in memory *)

Section FolderListingFacts.
Import MemS3.

Lemma In_dedup x l : In x (dedup l) <-> In x l.
Proof.
  induction l as [|y l IH]; [done|]. simpl.
  rewrite filter_In, IH.
  destruct (String.eqb_spec y x) as [->|Hne]; simpl; [tauto|].
  split; [tauto|]. intros [?|?]; [tauto|]. by right.
Qed.

(** [upto] cuts after the first delimiter. *)
Lemma upto_spec t r :
  upto "/"%char t = Some r <->
  exists seg rest, no_slash seg /\ t = seg +:+ "/" +:+ rest /\ r = seg +:+ "/".
Proof.
  unfold no_slash. revert r. induction t as [|c t IH]; intros r; simpl.
  - split; [done|]. intros (seg & rest & _ & Heq & _). by destruct seg.
  - destruct (Ascii.eqb_spec c "/"%char) as [->|Hc].
    + split.
      * intros [= <-]. exists "", t. by split_and!; [intros []|..].
      * intros (seg & rest & Hseg & Heq & ->).
        destruct seg as [|d seg]; [done|].
        rewrite app_cons in Heq. injection Heq as <- _.
        destruct Hseg. by left.
    + destruct (upto "/"%char t) as [r'|] eqn:Hu; simpl.
      * destruct (proj1 (IH r') eq_refl) as (seg & rest & Hseg & -> & ->).
        split.
        -- intros [= <-]. exists (String c seg), rest.
           split_and!; [|done..]. simpl. intros [?|?]; [by subst|done].
        -- intros (seg' & rest' & Hseg' & Heq & ->).
           destruct seg' as [|d seg']; [by injection Heq as -> _|].
           rewrite app_cons in Heq. injection Heq as <- Heq.
           assert (Some ((seg +:+ "/")) = Some (seg' +:+ "/")) as [= ->].
           { apply IH. exists seg', rest'. split_and!; [|done..].
             intros Hin. apply Hseg'. by right. }
           by rewrite app_cons.
      * split; [done|]. intros (seg' & rest' & Hseg' & Heq & ->).
        destruct seg' as [|d seg']; [by injection Heq as -> _|].
        rewrite app_cons in Heq. injection Heq as <- Heq.
        assert (@None string = Some (seg' +:+ "/")) as Hno; [|done].
        apply IH. exists seg', rest'. split_and!; [|done..].
        intros Hin. apply Hseg'. by right.
Qed.

(** The common prefixes of a listing with delimiter [/], on a store that
    answers and lists the keys under the prefix in one page. *)
Lemma list_objects_folders client config pfx s :
  answers config s ->
  (length (matching pfx s) <= maxKeys s)%nat ->
  exists response,
    list_objects client
      {| Bucket := bucket (s3 config); Prefix := pfx; Delimiter := Some "/" |} s
    = (inr response, s)
    /\ forall p,
         In p (response_prefixes response)
         <-> exists seg rest,
               no_slash seg /\ In (pfx +:+ seg +:+ "/" +:+ rest) (keys s)
               /\ p = pfx +:+ seg +:+ "/".
Proof.
  intros [Hf Hb] Hlen. unfold list_objects, next_fault. rewrite Hf.
  simpl. rewrite Hb, String.eqb_refl. simpl.
  fold (matching pfx s). rewrite take_ge by done.
  eexists. split; [reflexivity|]. intros p.
  unfold response_prefixes. simpl.
  set (grouped := fun k : string =>
                    upto "/"%char (JsString.slice_from (String.length pfx) k)
                    ≫= λ r : string, Some (pfx +:+ r)).
  assert (In p (dedup (omap grouped (matching pfx s)))
          <-> exists seg rest,
                no_slash seg /\ In (pfx +:+ seg +:+ "/" +:+ rest) (keys s)
                /\ p = pfx +:+ seg +:+ "/") as Hin.
  { rewrite In_dedup, <- list_elem_of_In, list_elem_of_omap. split.
    - intros (k & Hk & Hg). apply list_elem_of_In, filter_In in Hk as [Hk Hsw].
      apply startsWith_inv in Hsw as [t ->].
      subst grouped. simpl in Hg. rewrite slice_from_app in Hg.
      destruct (upto "/"%char t) as [r|] eqn:Hu; [|done].
      simpl in Hg. injection Hg as <-.
      apply upto_spec in Hu as (seg & rest & Hseg & -> & ->).
      by exists seg, rest.
    - intros (seg & rest & Hseg & Hk & ->).
      exists (pfx +:+ seg +:+ "/" +:+ rest). split.
      + apply list_elem_of_In, filter_In. split; [done|apply startsWith_app].
      + subst grouped. simpl. rewrite slice_from_app.
        assert (upto "/"%char (seg +:+ "/" +:+ rest) = Some (seg +:+ "/")) as ->
          by (apply upto_spec; by exists seg, rest).
        reflexivity. }
  destruct (dedup (omap grouped (matching pfx s))) as [|q qs] eqn:Hd.
  - simpl. exact Hin.
  - rewrite <- Hin. cbn [some_if_nonempty CommonPrefixes map].
    rewrite <- (map_cons (fun p => JsString.opt_or (cp_Prefix p) "")).
    rewrite <- (map_cons (fun p => {| cp_Prefix := Some p |})).
    rewrite map_map. cbn [cp_Prefix JsString.opt_or].
    assert (map (fun x : string => JsString.or_else x "") (q :: qs) = q :: qs)
      as ->; [|done].
    clear. induction (q :: qs) as [|x l IH]; [done|]. simpl.
    rewrite IH. f_equal. by destruct x.
Qed.
End FolderListingFacts.

(** X17: on a store in memory that answers and lists the keys under the
    listing prefix in one page, the lister returns, leaves the store as it
    is, and returns exactly the first-level folders under the prefix whose
    names carry a date: a backup [name] is returned when, and only when,
    some key of the store is [{listing}{name}/...], [name] being not empty,
    without [/] and dated. *)
Theorem X17_lister_returns_the_dated_folders
    (config : Config) (w : World MemS3.state) :
  MemS3.answers config (store w) ->
  let listing := listing_prefix config in
  (length (MemS3.matching listing (store w)) <= MemS3.maxKeys (store w))%nat ->
  exists backups,
    fst (listBackupsWithDates config w) = Returned backups
    /\ store (snd (listBackupsWithDates config w)) = store w
    /\ forall n d,
         In {| name := n; date := d |} backups
         <-> n <> "" /\ no_slash n
             /\ extractDateFromBackupName n = Some d
             /\ exists rest,
                  In (listing +:+ n +:+ "/" +:+ rest) (MemS3.keys (store w)).
Proof.
  intros Hs listing Hpage.
  destruct (list_objects_folders (createS3Client config) config listing
              (store w) Hs Hpage) as (response & Hanswer & Hfolders).
  destruct (listBackupsWithDates_run config w) as (w' & (Hstore & _) & Hrun).
  unfold listing_request in Hrun, Hstore. fold listing in Hrun, Hstore.
  simpl listObjectsV2 in Hrun, Hstore. rewrite Hanswer in Hrun, Hstore.
  simpl in Hrun, Hstore. exists (listed_backups config response).
  rewrite Hrun. split_and!; [done..|].
  intros n d. rewrite In_listed_backups. fold listing. simpl. split.
  - intros (p & Hp & Hname & Hne & Hd).
    apply Hfolders in Hp as (seg & rest & Hseg & Hk & ->).
    destruct (decide (seg = "")) as [->|Hseg'].
    { rewrite app_empty_l in Hname. unfold folder_name in Hname.
      rewrite remove_first_app in Hname. simpl in Hname. done. }
    rewrite <- (app_empty_r_s "/"), <- !app_assoc_s in Hname.
    rewrite !app_assoc_s, folder_name_segment in Hname by done. subst n.
    split_and!; [done..|]. by exists rest.
  - intros (Hne & Hslash & Hd & rest & Hk).
    exists (listing +:+ n +:+ "/"). split_and!; [|
      |done|done].
    + apply Hfolders. by exists n, rest.
    + rewrite <- (app_empty_r_s "/"), <- !app_assoc_s.
      rewrite !app_assoc_s, folder_name_segment by done. done.
Qed.

Lemma X17_lister_returns_the_dated_folders_witness :
  let w := Demo.world_of ["backups/mongodb/db-2024-01-01/a.gz";
                          "backups/mongodb/notes.txt";
                          "backups/mongodb/tmp/b.gz";
                          "other/db-2024-02-02/a.gz"] in
  exists backups,
    fst (listBackupsWithDates Demo.config w) = Returned backups
    /\ In {| name := "db-2024-01-01"; date := Some 1704067200000 |} backups
    /\ (forall d, ~ In {| name := "db-2024-02-02"; date := d |} backups).
Proof.
  intros w.
  assert (MemS3.answers Demo.config (store w)) as Hs by (split; reflexivity).
  assert (length (MemS3.matching (listing_prefix Demo.config) (store w))
          <= MemS3.maxKeys (store w))%nat as Hpage by (vm_compute; lia).
  destruct (X17_lister_returns_the_dated_folders Demo.config w Hs Hpage)
    as (backups & Hrun & _ & Hin).
  exists backups. split; [exact Hrun|]. split.
  - apply Hin. split; [discriminate|]. split.
    + unfold no_slash. simpl. intuition discriminate.
    + split; [vm_compute; reflexivity|]. exists "a.gz". simpl. by left.
  - intros d Hd. apply Hin in Hd as (_ & _ & _ & rest & Hk).
    simpl in Hk. destruct Hk as [Hk|[Hk|[Hk|[Hk|[]]]]]; discriminate Hk.
Defined.

(** ** The cutoff, in days of 24 hours *)

(** X18: on a host whose zone keeps one offset from UTC, the cutoff is
    the present instant moved back by the retention days, of 86 400 000 ms
    each, when that instant is in the range of [Date]; the backups to
    delete are those dated before it.  Days that are zero or negative are
    taken as they are and give a cutoff at or after the present instant. *)
Theorem X18_cutoff_is_days_back
    (LocalTZA : Z -> bool -> Z) (offset now pruneDays : Z) :
  (forall t isUTC, LocalTZA t isUTC = offset) ->
  Z.abs (now - pruneDays * 86400000) <= 8640000000000000 ->
  let cutoffDate := cutoff LocalTZA (Some now) pruneDays in
  cutoffDate = Some (now - pruneDays * 86400000)
  /\ (forall backups b,
        In b (backupsToDelete cutoffDate backups)
        <-> In b backups
            /\ exists t, date b = Some t /\ t < now - pruneDays * 86400000)
  /\ (pruneDays <= 0 ->
      forall backups b t,
        In b backups -> date b = Some t -> t < now ->
        In b (backupsToDelete cutoffDate backups)).
Proof.
  intros Hzone Hrange cutoffDate.
  assert (cutoffDate = Some (now - pruneDays * 86400000)) as Hc.
  { subst cutoffDate. rewrite (cutoff_fixed_offset _ offset) by done.
    unfold JsDate.TimeClip, JsDate.msPerDay.
    by rewrite (proj2 (Z.ltb_ge _ _) Hrange). }
  split; [exact Hc|]. rewrite Hc.
  assert (forall backups b,
            In b (backupsToDelete (Some (now - pruneDays * 86400000)) backups)
            <-> In b backups
                /\ exists t, date b = Some t /\ t < now - pruneDays * 86400000)
    as Hin.
  { intros backups b. rewrite In_backupsToDelete. unfold JsDate.lt.
    destruct (date b) as [t|].
    - rewrite Z.ltb_lt. split; [intros []; split; [done|by exists t]|].
      intros [? (t' & [= <-] & ?)]. by split.
    - split; [by intros []|]. by intros [_ (t & ? & _)]. }
  split; [exact Hin|].
  intros Hdays backups b t Hb Ht Hlt. apply Hin. split; [done|].
  exists t. split; [done|]. lia.
Qed.

Lemma X18_cutoff_is_days_back_witness :
  cutoff Demo.utc_zone (Some Demo.now) 14 = Some 1708862400000
  /\ JsDate.toISOString 1708862400000 = "2024-02-25T12:00:00.000Z".
Proof.
  assert (forall t isUTC, Demo.utc_zone t isUTC = 0) as Hzone by reflexivity.
  assert (Z.abs (Demo.now - 14 * 86400000) <= 8640000000000000) as Hrange
    by (vm_compute; discriminate).
  split.
  - exact (proj1 (X18_cutoff_is_days_back Demo.utc_zone 0 Demo.now 14
                    Hzone Hrange)).
  - vm_compute. reflexivity.
Defined.

(** ** The documented format of a backup name *)

Section FormatFacts.
Import JsString NameFormat.

(** A suffix of [before +:+ s] that starts inside [before] starts with a
    character of [before]. *)
Lemma suffix_inside (before s before' s' : string) :
  before +:+ s = before' +:+ s' ->
  (String.length before' < String.length before)%nat ->
  exists c mid, In c (list_ascii_of_string before) /\ s' = String c mid.
Proof.
  revert before. induction before' as [|d before' IH]; intros before Heq Hlt.
  - destruct before as [|c before]; [simpl in Hlt; lia|].
    rewrite app_empty_l in Heq. subst s'. rewrite app_cons.
    exists c, (before +:+ s). split; [by left|done].
  - destruct before as [|c before]; [simpl in Hlt; lia|].
    rewrite !app_cons in Heq. injection Heq as -> Heq.
    destruct (IH before Heq) as (c & mid & Hc & ->); [simpl in Hlt; lia|].
    exists c, mid. split; [by right|done].
Qed.

Lemma is_digits_head n c s :
  is_digits (Datatypes.S n) (String c s) -> isDigit c = true.
Proof. intros [_ Hd]. by apply Forall_cons_1 in Hd as [Hc _]. Qed.

(** A timestamp and a bare date start with a digit. *)
Lemma has_timestamp_head c s : has_timestamp (String c s) -> isDigit c = true.
Proof.
  intros (y & mo & d & h & mi & se & c1 & c2 & c3 & rest & Hy & _ & _ & _ & _
          & _ & _ & _ & _ & Heq).
  destruct y as [|c' y]; [by destruct Hy|].
  rewrite app_cons in Heq. injection Heq as -> _.
  by eapply is_digits_head.
Qed.

Lemma has_date_head c s : has_date (String c s) -> isDigit c = true.
Proof.
  intros (y & mo & d & rest & Hy & _ & _ & Heq).
  destruct y as [|c' y]; [by destruct Hy|].
  rewrite app_cons in Heq. injection Heq as -> _.
  by eapply is_digits_head.
Qed.

(** A timestamp takes 19 characters. *)
Lemma has_timestamp_length s : has_timestamp s -> (19 <= String.length s)%nat.
Proof.
  intros (y & mo & d & h & mi & se & c1 & c2 & c3 & rest & [Hy _] & [Hmo _]
          & [Hd _] & [Hh _] & [Hmi _] & [Hse _] & _ & _ & _ & ->).
  repeat first [rewrite length_app_s | rewrite app_cons
               | progress cbn [String.length]].
  lia.
Qed.

Lemma no_digit_app (s t : string) : no_digit s -> no_digit t -> no_digit (s +:+ t).
Proof.
  unfold no_digit. intros Hs Ht. rewrite list_ascii_app. by apply Forall_app.
Qed.

Lemma no_digit_inside (before s before' s' : string) (P : string -> Prop) :
  no_digit before ->
  (forall c mid, P (String c mid) -> isDigit c = true) ->
  before +:+ s = before' +:+ s' ->
  (String.length before' < String.length before)%nat -> ~ P s'.
Proof.
  intros Hno Hhead Heq Hlt HP.
  destruct (suffix_inside _ _ _ _ Heq Hlt) as (c & mid & Hc & ->).
  apply Hhead in HP. unfold no_digit in Hno. rewrite Forall_forall in Hno.
  apply list_elem_of_In, Hno in Hc. congruence.
Qed.
End FormatFacts.

(** X19: a name in the documented format, a database name without a
    digit, [-] and [YYYY-MM-DD-HH-mm-ss], is dated by these six fields read
    as a UTC date and time; a database name without a digit, [-] and
    [YYYY-MM-DD] is dated at UTC midnight of that day. *)
Theorem X19_documented_name_format
    (db year month day hour minute second : string) :
  no_digit db ->
  NameFormat.is_digits 4 year -> NameFormat.is_digits 2 month ->
  NameFormat.is_digits 2 day -> NameFormat.is_digits 2 hour ->
  NameFormat.is_digits 2 minute -> NameFormat.is_digits 2 second ->
  extractDateFromBackupName
    (db +:+ "-" +:+ year +:+ "-" +:+ month +:+ "-" +:+ day +:+ "-" +:+ hour
     +:+ "-" +:+ minute +:+ "-" +:+ second)
  = Some (NameFormat.utc year month day hour minute second)
  /\ extractDateFromBackupName
       (db +:+ "-" +:+ year +:+ "-" +:+ month +:+ "-" +:+ day)
     = Some (NameFormat.utc year month day "00" "00" "00").
Proof.
  intros Hdb Hy Hmo Hd Hh Hmi Hse.
  assert (no_digit (db +:+ "-")) as Hbefore.
  { apply no_digit_app; [done|]. by repeat constructor. }
  split.
  - apply (extractDate_timestamp _ (db +:+ "-")
             (year +:+ "-" +:+ month +:+ "-" +:+ day +:+ "-" +:+ hour
              +:+ "-" +:+ minute +:+ "-" +:+ second)).
    + split; [by rewrite app_assoc_s|].
      intros before' s' Heq Hlt. rewrite <- app_assoc_s in Heq.
      eapply no_digit_inside; [exact Hbefore|apply has_timestamp_head|done..].
    + exists "-"%char, "-"%char, "-"%char, "".
      split_and!; [done..|by left|by left|by left|].
      rewrite app_empty_r_s. reflexivity.
  - set (s := year +:+ "-" +:+ month +:+ "-" +:+ day).
    assert (String.length s = 10%nat) as Hlen.
    { subst s. rewrite !length_app_s. simpl.
      destruct Hy as [-> _], Hmo as [-> _], Hd as [-> _]. reflexivity. }
    apply (extractDate_date _ (db +:+ "-") s).
    + intros before' s' Heq Hts.
      destruct (Nat.lt_ge_cases (String.length before')
                  (String.length (db +:+ "-"))) as [Hlt|Hge].
      * rewrite <- app_assoc_s in Heq. revert Hts.
        eapply no_digit_inside; [exact Hbefore|apply has_timestamp_head|done..].
      * apply has_timestamp_length in Hts.
        apply (f_equal String.length) in Heq.
        rewrite <- app_assoc_s, !length_app_s in Heq.
        rewrite length_app_s in Hge. fold s in Heq. lia.
    + split; [by rewrite app_assoc_s|].
      intros before' s' Heq Hlt. rewrite <- app_assoc_s in Heq.
      eapply no_digit_inside; [exact Hbefore|apply has_date_head|done..].
    + exists "". split_and!; [done..|]. subst s. by rewrite app_empty_r_s.
Qed.

Lemma X19_documented_name_format_witness :
  extractDateFromBackupName "mydb-2024-01-15-03-30-00"
  = Some (NameFormat.utc "2024" "01" "15" "03" "30" "00")
  /\ NameFormat.utc "2024" "01" "15" "03" "30" "00" = Some 1705289400000.
Proof.
  assert (no_digit "mydb") as Hdb by (repeat constructor).
  assert (forall n s, String.length s = n ->
                      forallb JsString.isDigit (list_ascii_of_string s) = true ->
                      NameFormat.is_digits n s) as Hdigits.
  { intros n s Hn Hall. split; [done|].
    apply Forall_forall. intros c Hc%list_elem_of_In.
    by apply (proj1 (forallb_forall _ _) Hall). }
  split; [|vm_compute; reflexivity].
  exact (proj1 (X19_documented_name_format "mydb" "2024" "01" "15" "03" "30"
                  "00" Hdb
                  (Hdigits 4%nat "2024" eq_refl eq_refl)
                  (Hdigits 2%nat "01" eq_refl eq_refl)
                  (Hdigits 2%nat "15" eq_refl eq_refl)
                  (Hdigits 2%nat "03" eq_refl eq_refl)
                  (Hdigits 2%nat "30" eq_refl eq_refl)
                  (Hdigits 2%nat "00" eq_refl eq_refl))).
Defined.

(** ** Retention days with text after the number *)

Section ParseIntFacts.
Import JsString JsGlobal.

Lemma isDigit_cases c :
  isDigit c = true -> In c (list_ascii_of_string "0123456789").
Proof.
  unfold isDigit. intros [H1 H2]%andb_prop.
  apply Nat.leb_le in H1, H2. rewrite <- (ascii_nat_embedding c).
  set (n := nat_of_ascii c) in *. clearbody n.
  assert (exists k, n = (48 + k)%nat /\ (k <= 9)%nat) as (k & -> & Hk)
    by (exists (n - 48)%nat; lia).
  do 10 (destruct k as [|k]; [simpl; tauto|]). lia.
Qed.

(** No white space starts with a digit. *)
Lemma find_digit c s :
  isDigit c = true ->
  List.find (startsWith (String c s)) StrWhiteSpaceChar = None.
Proof.
  intros Hc. apply isDigit_cases in Hc. simpl in Hc.
  repeat (destruct Hc as [<-|Hc]; [vm_compute; reflexivity|]). done.
Qed.

Lemma trimStart_digit c s :
  isDigit c = true -> trimStart (String c s) = String c s.
Proof.
  intros Hc. unfold trimStart. cbn [String.length trimStart_go].
  by rewrite find_digit.
Qed.

Lemma leadingDigits_app ds rest :
  Forall (fun c => isDigit c = true) (list_ascii_of_string ds) ->
  (forall c r, rest = String c r -> isDigit c = false) ->
  leadingDigits (ds +:+ rest) = ds.
Proof.
  intros Hds Hrest. induction ds as [|c ds IH].
  - rewrite app_empty_l. destruct rest as [|c r]; [done|].
    simpl. by rewrite (Hrest c r).
  - apply Forall_cons_1 in Hds as [Hc Hds]. rewrite app_cons. simpl.
    by rewrite Hc, IH.
Qed.

(** [parseInt] reads the digits at the head and ignores what follows. *)
Lemma parseInt_digits ds rest :
  ds <> "" ->
  Forall (fun c => isDigit c = true) (list_ascii_of_string ds) ->
  (forall c r, rest = String c r -> isDigit c = false) ->
  parseInt (ds +:+ rest) = Some (digitsVal ds).
Proof.
  intros Hne Hds Hrest.
  pose proof (leadingDigits_app ds rest Hds Hrest) as Hlead.
  destruct ds as [|c ds]; [done|].
  pose proof (proj1 (Forall_cons_1 _ _ _ Hds)) as Hc. cbv beta in Hc.
  rewrite app_cons in Hlead |- *. unfold parseInt.
  rewrite trimStart_digit by done.
  assert (match String c (ds +:+ rest) with
          | String "-"%char s' => ((-1)%Z, s')
          | String "+"%char s' => (1%Z, s')
          | _ => (1%Z, String c (ds +:+ rest))
          end = (1%Z, String c (ds +:+ rest))) as ->.
  { apply isDigit_cases in Hc. simpl in Hc.
    repeat (destruct Hc as [<-|Hc]; [reflexivity|]). done. }
  rewrite Hlead. f_equal. apply Z.mul_1_l.
Qed.
End ParseIntFacts.

(** X20: a value of [PRUNE_DAYS] that starts with digits is read up to
    the first character that is no digit, and the rest is ignored without
    a warning: [7days] gives 7 days.  (The digits are taken below 2^53,
    where a JavaScript number is the integer that they write.) *)
Theorem X20_days_with_trailing_text
    (S : Type) (service : S3Service S) (process_env : gmap string string)
    (w : World S) (ds rest : string) :
  process_env !! "PRUNE_DAYS" = Some (ds +:+ rest) ->
  ds <> "" ->
  Forall (fun c => JsString.isDigit c = true) (list_ascii_of_string ds) ->
  (forall c r, rest = String c r -> JsString.isDigit c = false) ->
  0 < JsString.digitsVal ds <= 9007199254740991 ->
  JsGlobal.parseInt (ds +:+ rest) = Some (JsString.digitsVal ds)
  /\ getPruneDays process_env None w = (Returned (JsString.digitsVal ds), w).
Proof.
  intros Henv Hne Hds Hrest [Hpos _].
  pose proof (parseInt_digits ds rest Hne Hds Hrest) as Hparse.
  split; [exact Hparse|]. unfold getPruneDays. rewrite Henv, Hparse.
  assert (JsString.truthy (ds +:+ rest) = true) as ->
    by (destruct ds; [done|reflexivity]).
  by rewrite (proj2 (Z.ltb_lt _ _) Hpos).
Qed.

Lemma X20_days_with_trailing_text_witness :
  getPruneDays {[ "PRUNE_DAYS" := "7days" ]} None (Demo.world_of [])
  = (Returned 7, Demo.world_of []).
Proof.
  assert (({[ "PRUNE_DAYS" := "7days" ]} : gmap string string) !! "PRUNE_DAYS"
          = Some ("7" +:+ "days")) as Henv by reflexivity.
  assert ("7" <> "") as Hne by discriminate.
  assert (Forall (fun c => JsString.isDigit c = true) (list_ascii_of_string "7"))
    as Hds by (repeat constructor).
  assert (forall c r, "days" = String c r -> JsString.isDigit c = false)
    as Hrest by (intros c r [= <- _]; reflexivity).
  assert (0 < JsString.digitsVal "7" <= 9007199254740991) as Hrange
    by (vm_compute; split; [reflexivity|discriminate]).
  exact (proj2 (X20_days_with_trailing_text _ _ _ (Demo.world_of []) "7" "days"
                  Henv Hne Hds Hrest Hrange)).
Defined.

(** ** What the lister prints *)

Section WarningFacts.
Context {S : Type} `{S3Service S}.

Lemma collected_cons listing p prefixes :
  collected listing (p :: prefixes)
  = (if JsString.truthy (folder_name listing p) then
       match extractDateFromBackupName (folder_name listing p) with
       | Some d => [{| name := folder_name listing p; date := d |}]
       | None => []
       end
     else []) ++ collected listing prefixes.
Proof.
  unfold collected. simpl.
  destruct (JsString.truthy _); [|done].
  by destruct (extractDateFromBackupName _).
Qed.

Lemma undated_cons listing p prefixes :
  undated listing (p :: prefixes)
  = (if JsString.truthy (folder_name listing p) then
       match extractDateFromBackupName (folder_name listing p) with
       | Some _ => []
       | None => [folder_name listing p]
       end
     else []) ++ undated listing prefixes.
Proof.
  unfold undated. simpl.
  destruct (JsString.truthy _); [|done].
  by destruct (extractDateFromBackupName _).
Qed.

Lemma for_of_collect_console listing prefixes acc (w : World S) :
  for_of prefixes (collect_backup listing) acc w
  = (Returned (acc ++ collected listing prefixes),
     mkWorld (store w) (sent w)
       (console w
        ++ map (fun n => (WARN, "   ⚠️  Could not parse date from backup name: "
                                +:+ n))
               (undated listing prefixes))
       (clock w)).
Proof.
  revert acc w. induction prefixes as [|p prefixes IH]; intros acc w.
  - simpl. unfold ret. rewrite !app_nil_r. by destruct w.
  - cbn [for_of]. rewrite bind_run, collected_cons, undated_cons.
    unfold collect_backup at 1. cbv zeta.
    destruct (JsString.truthy (folder_name listing p)) eqn:Hn; cbn [negb].
    + destruct (extractDateFromBackupName (folder_name listing p)) as [d|] eqn:Hd.
      * cbn [ret]. rewrite IH. by rewrite <- app_assoc.
      * rewrite bind_run. unfold console_warn, console_write. cbv beta iota.
        cbn [ret]. rewrite IH. simpl. by rewrite <- app_assoc.
    + cbn [ret]. by rewrite IH.
Qed.
End WarningFacts.

(** X21: when the listing answers, the lister prints the line that names
    the bucket and the listing prefix and then one warning for each folder
    of the response whose name is not empty and carries no date, in the
    order of the response; it prints nothing else, and such a folder is
    not among the backups returned. *)
Theorem X21_one_warning_per_undated_folder
    (S : Type) (service : S3Service S) (config : Config) (w : World S)
    (response : ListObjectsV2Output) :
  fst (listObjectsV2 (createS3Client config) (listing_request config)
         (store w)) = inr response ->
  let names := undated (listing_prefix config) (response_prefixes response) in
  console (snd (listBackupsWithDates config w))
  = console w
    ++ (LOG, "📋 Listing backups in s3://" +:+ bucket (s3 config) +:+ "/"
             +:+ listing_prefix config)
       :: map (fun n => (WARN, "   ⚠️  Could not parse date from backup name: "
                               +:+ n)) names
  /\ (forall n,
        In n names
        <-> exists p, In p (response_prefixes response)
                      /\ n = folder_name (listing_prefix config) p
                      /\ n <> ""
                      /\ NameFormat.nowhere NameFormat.has_timestamp n
                      /\ NameFormat.nowhere NameFormat.has_date n)
  /\ (forall n backups,
        In n names ->
        fst (listBackupsWithDates config w) = Returned backups ->
        ~ In n (map name backups)).
Proof.
  intros Hanswer names.
  assert (forall n,
            In n names
            <-> exists p, In p (response_prefixes response)
                          /\ n = folder_name (listing_prefix config) p
                          /\ n <> ""
                          /\ extractDateFromBackupName n = None) as Hin.
  { intros n. subst names. unfold undated.
    rewrite <- list_elem_of_In, list_elem_of_omap. split.
    - intros (p & Hp & Hn). apply list_elem_of_In in Hp. exists p.
      cbv zeta in Hn.
      destruct (JsString.truthy (folder_name _ p)) eqn:Ht; [|done].
      destruct (extractDateFromBackupName (folder_name _ p)) eqn:Hd; [done|].
      injection Hn as <-. split_and!; [done..| |done].
      by destruct (folder_name _ p).
    - intros (p & Hp & -> & Hne & Hd). exists p.
      split; [by apply list_elem_of_In|]. cbv zeta. rewrite Hd.
      by destruct (folder_name _ p). }
  split_and!.
  - unfold listBackupsWithDates. rewrite bind_run.
    unfold console_log at 1, console_write at 1. cbv beta iota.
    rewrite bind_run. unfold send_list at 1. cbn [store].
    fold (listing_request config).
    destruct (listObjectsV2 _ _ _) as [answer s1]. simpl in Hanswer.
    subst answer. cbv beta iota. rewrite bind_run.
    fold (response_prefixes response).
    rewrite for_of_collect_console. cbv beta iota. cbn [ret snd console].
    by rewrite <- app_assoc.
  - intros n. rewrite Hin. split.
    + intros (p & Hp & Hn & Hne & Hd). exists p.
      apply extractDate_none in Hd as [Ht Hdt]. by split_and!.
    + intros (p & Hp & Hn & Hne & Ht & Hdt). exists p.
      split_and!; [done..|]. by apply extractDate_none.
  - intros n backups Hn Hrun Hname.
    apply Hin in Hn as (p & _ & _ & _ & Hnone).
    apply in_map_iff in Hname as (b & <- & Hb).
    destruct (listBackupsWithDates_run config w) as (w' & _ & Hlist).
    rewrite Hlist, Hanswer in Hrun. simpl in Hrun. injection Hrun as <-.
    apply In_listed_backups in Hb as (_ & _ & _ & _ & Hd). congruence.
Qed.

Lemma X21_one_warning_per_undated_folder_witness :
  let w := Demo.world_of ["backups/mongodb/db-2024-01-01/a.gz";
                          "backups/mongodb/tmp/b.gz"] in
  console (snd (listBackupsWithDates Demo.config w))
  = [(LOG, "📋 Listing backups in s3://env-bucket/backups/mongodb/");
     (WARN, "   ⚠️  Could not parse date from backup name: tmp")].
Proof.
  intros w.
  pose (response :=
          {| Contents := None;
             CommonPrefixes :=
               Some [{| cp_Prefix := Some "backups/mongodb/db-2024-01-01/" |};
                     {| cp_Prefix := Some "backups/mongodb/tmp/" |}] |}).
  assert (fst (listObjectsV2 (createS3Client Demo.config)
                 (listing_request Demo.config) (store w)) = inr response)
    as Hanswer by (vm_compute; reflexivity).
  destruct (X21_one_warning_per_undated_folder _ _ Demo.config w response
              Hanswer) as (Hconsole & _ & _).
  rewrite Hconsole. vm_compute. reflexivity.
Defined.

(** ** The store after a run *)

Section ClockFacts.
Context {S : Type} `{S3Service S}.

Lemma delete_batches_clock fuel client config objs i total (w : World S) :
  clock (snd (delete_batches fuel client config objs i total w)) = clock w.
Proof.
  revert i total w. induction fuel as [|fuel IH]; intros i total w; simpl.
  - by destruct (i <? length objs)%nat.
  - destruct (i <? length objs)%nat; [|done].
    unfold bind at 1, send_delete at 1.
    destruct (deleteObjects _ _ _) as [[message|[]] s1]; simpl; [done|].
    by rewrite IH.
Qed.

(** [deleteBackup] does not touch the clock. *)
Lemma deleteBackup_clock config backupName (w : World S) :
  clock (snd (deleteBackup config backupName w)) = clock w.
Proof.
  pose proof (deleteBackup_run config backupName w) as Hrun. cbv zeta in Hrun.
  destruct (listObjectsV2 _ _ _).1; [by rewrite Hrun|].
  destruct (length (default [] _) =? 0)%nat; [by rewrite Hrun|].
  destruct (length (objectsToDelete _) =? 0)%nat; [by rewrite Hrun|].
  rewrite Hrun.
  match goal with |- context [delete_batches ?f ?cl ?cf ?o ?i ?t ?w1] =>
    pose proof (delete_batches_clock f cl cf o i t w1) as Hclk;
    destruct (delete_batches f cl cf o i t w1) as [[]]
  end; simpl in Hclk |- *; by rewrite Hclk.
Qed.

Lemma Attempts_clock config (w w' : World S) backups oks :
  Attempts config w backups oks w' -> clock w' = clock w.
Proof.
  induction 1 as [w|w b bs result w1 oks w' Hrun _ IH
                 |w b bs error w1 oks w' Hrun _ IH]; [done|..];
    pose proof (deleteBackup_clock config (name b) w) as Hclk;
    rewrite Hrun in Hclk; simpl in Hclk, IH; by rewrite IH.
Qed.
End ClockFacts.

Section StoreFacts.
Import MemS3.

Lemma list_objects_state client input s :
  faults s = [] -> snd (list_objects client input s) = s.
Proof.
  intros Hf. unfold list_objects, next_fault. rewrite Hf. simpl.
  by destruct (negb _).
Qed.

Lemma length_filter_filter {A} (f g : A -> bool) (l : list A) :
  (length (List.filter g (List.filter f l)) <= length (List.filter g l))%nat.
Proof.
  induction l as [|a l IH]; [done|]. simpl.
  destruct (f a), (g a) eqn:Hg; simpl; rewrite ?Hg; simpl; lia.
Qed.

Lemma filter_filter_and {A} (f g : A -> bool) (l : list A) :
  List.filter g (List.filter f l) = List.filter (fun a => f a && g a) l.
Proof.
  induction l as [|a l IH]; [done|]. simpl.
  destruct (f a), (g a) eqn:Hg; simpl; rewrite ?Hg, IH; done.
Qed.

(** On a store that answers and lists a backup in one page, the keys
    after [deleteBackup] are those that do not start with its prefix. *)
Lemma deleteBackup_keys_mem config backupName (w : World state) :
  answers config (store w) ->
  let pfx := prefix (s3 config) +:+ "/" +:+ backupName in
  (length (matching pfx (store w)) <= maxKeys (store w))%nat ->
  let s1 := store (snd (deleteBackup config backupName w)) in
  keys s1 = List.filter (fun k => negb (JsString.startsWith k pfx))
                        (keys (store w))
  /\ answers config s1 /\ maxKeys s1 = maxKeys (store w).
Proof.
  intros Hs pfx Hfit s1. subst s1.
  destruct (deleteBackup_page config backupName w Hs) as [Hstore _].
  cbv zeta in Hstore. fold pfx in Hstore.
  rewrite Hstore, take_ge by done.
  split_and!; [|by apply answers_without|done].
  unfold without. simpl.
  apply filter_ext_in. intros k Hk. f_equal.
  apply eq_true_iff_eq. rewrite existsb_keys.
  unfold matching. rewrite filter_In. tauto.
Qed.

(** The keys after the deletion phase: those that start with the prefix
    of no backup of the list. *)
Lemma Attempts_store_mem config (w w' : World state) backups oks :
  Attempts config w backups oks w' ->
  answers config (store w) ->
  Forall (fun b =>
            (length (matching (prefix (s3 config) +:+ "/" +:+ name b) (store w))
             <= maxKeys (store w))%nat) backups ->
  keys (store w')
  = List.filter
      (fun k => negb (existsb
                        (fun b => JsString.startsWith k
                                    (prefix (s3 config) +:+ "/" +:+ name b))
                        backups))
      (keys (store w))
  /\ answers config (store w') /\ maxKeys (store w') = maxKeys (store w).
Proof.
  assert (forall (w w1 w2 w' : World state) b bs o,
            deleteBackup config (name b) w = (o, w1) ->
            store w2 = store w1 ->
            answers config (store w) ->
            Forall (fun b =>
                      (length (matching (prefix (s3 config) +:+ "/" +:+ name b)
                                 (store w))
                       <= maxKeys (store w))%nat) (b :: bs) ->
            (answers config (store w2) ->
             Forall (fun b =>
                       (length (matching (prefix (s3 config) +:+ "/" +:+ name b)
                                  (store w2))
                        <= maxKeys (store w2))%nat) bs ->
             keys (store w')
             = List.filter
                 (fun k => negb (existsb
                                   (fun b => JsString.startsWith k
                                               (prefix (s3 config) +:+ "/"
                                                +:+ name b)) bs))
                 (keys (store w2))
             /\ answers config (store w')
             /\ maxKeys (store w') = maxKeys (store w2)) ->
            keys (store w')
            = List.filter
                (fun k => negb (existsb
                                  (fun b => JsString.startsWith k
                                              (prefix (s3 config) +:+ "/"
                                               +:+ name b)) (b :: bs)))
                (keys (store w))
            /\ answers config (store w')
            /\ maxKeys (store w') = maxKeys (store w)) as Hstep.
  { intros w0 w1 w2 w3 b bs o Hrun Hst Hs Hfit IH.
    apply Forall_cons_1 in Hfit as [Hb Hbs].
    destruct (deleteBackup_keys_mem config (name b) w0 Hs Hb)
      as (Hkeys & Hs1 & Hmax).
    rewrite Hrun in Hkeys, Hs1, Hmax. simpl in Hkeys, Hs1, Hmax.
    rewrite <- Hst in Hkeys, Hs1, Hmax.
    destruct IH as (Hkeys' & Hs' & Hmax'); [done| |].
    { eapply Forall_impl; [exact Hbs|]. intros b' Hb'. cbv beta in Hb' |- *.
      rewrite Hmax. unfold matching at 1. rewrite Hkeys.
      etransitivity; [apply length_filter_filter|exact Hb']. }
    split_and!; [|done|congruence].
    rewrite Hkeys', Hkeys, filter_filter_and.
    apply filter_ext_in. intros k _. simpl. by rewrite negb_orb. }
  induction 1 as [w|w b bs result w1 oks w' Hrun _ IH
                 |w b bs error w1 oks w' Hrun _ IH]; intros Hs Hfit.
  - simpl. rewrite filter_all. by split_and!.
  - by eapply Hstep.
  - by eapply Hstep.
Qed.
End StoreFacts.

Section EndToEndFacts.
Import MemS3.

(** A run on a store in memory that answers: how it ends, and the world
    that it leaves. *)
Lemma runPrune_mem process_env LocalTZA options (w : World state) c config
    response :
  cutoff LocalTZA (Some (clock w))
    (resolved_days process_env (options_days options)) = Some c ->
  loadConfig process_env = inr config ->
  answers config (store w) ->
  fst (listObjectsV2 (createS3Client config) (listing_request config)
         (store w)) = inr response ->
  let toDelete := backupsToDelete (Some c) (listed_backups config response) in
  Forall (fun b =>
            (length (matching (prefix (s3 config) +:+ "/" +:+ name b) (store w))
             <= maxKeys (store w))%nat) toDelete ->
  let run := runPrune process_env LocalTZA options w in
  (exists code, fst run = Exited code
                /\ (toDelete = [] -> code = 0
                    /\ sent (snd run)
                       = sent w
                         ++ [ListObjectsV2Command (listing_request config)]))
  /\ keys (store (snd run))
     = (if bool_decide (options_dryRun options = Some true) then keys (store w)
        else List.filter
               (fun k => negb (existsb
                                 (fun b => JsString.startsWith k
                                             (prefix (s3 config) +:+ "/"
                                              +:+ name b)) toDelete))
               (keys (store w)))
  /\ answers config (store (snd run))
  /\ maxKeys (store (snd run)) = maxKeys (store w)
  /\ clock (snd run) = clock w.
Proof.
  intros Hc Hconfig Hs Hanswer toDelete Hfit run. subst run.
  destruct (runPrune_run process_env LocalTZA options w)
    as (w0 & (Hstore & Hsent & Hclock) & Hrun).
  cbv zeta in Hrun. rewrite Hc in Hrun.
  destruct (runPrune_try_run process_env options (Some c) config w0 Hconfig)
    as (w1 & (Hstore1 & Hsent1 & Hclock1) & Htry).
  cbv zeta in Htry. rewrite Hstore in Htry, Hstore1. rewrite Hanswer in Htry.
  fold toDelete in Htry. simpl in Hstore1, Hsent1, Hclock1.
  rewrite Hsent in Hsent1. rewrite Hclock in Hclock1.
  assert (store w1 = store w) as Hsame.
  { rewrite Hstore1. simpl. apply list_objects_state. by destruct Hs. }
  assert (List.filter
            (fun k => negb (existsb
                              (fun b : BackupWithDate =>
                                 JsString.startsWith k
                                   (prefix (s3 config) +:+ "/" +:+ name b))
                              (@nil BackupWithDate)))
            (keys (store w)) = keys (store w)) as Hnil
    by (simpl; apply filter_all).
  destruct (length (listed_backups config response) =? 0)%nat eqn:Hn.
  { rewrite Htry in Hrun. rewrite Hrun. cbn [fst snd printed store clock sent].
    assert (toDelete = []) as Hempty.
    { subst toDelete. apply Nat.eqb_eq in Hn.
      by destruct (listed_backups config response). }
    rewrite Hempty, Hnil, Hsame.
    split_and!; [exists 0; by split|by destruct (bool_decide _)|done..]. }
  destruct (length toDelete =? 0)%nat eqn:Hn'.
  { rewrite Htry in Hrun. rewrite Hrun. cbn [fst snd printed store clock sent].
    assert (toDelete = []) as Hempty
      by (apply Nat.eqb_eq in Hn'; by destruct toDelete).
    rewrite Hempty, Hnil, Hsame.
    split_and!; [exists 0; by split|by destruct (bool_decide _)|done..]. }
  assert (toDelete <> []) as Hsome
    by (intros Hempty; by rewrite Hempty in Hn').
  destruct (bool_decide (options_dryRun options = Some true)).
  { rewrite Htry in Hrun. rewrite Hrun. cbn [fst snd printed store clock sent].
    rewrite Hsame. split_and!; [exists 0; by split|done..]. }
  match type of Htry with _ = delete_phase _ _ ?w3 =>
    destruct (delete_phase_run config toDelete w3)
      as (oks & w4 & Hatt & Hphase);
    pose proof (Attempts_clock _ _ _ _ _ Hatt) as Hclock4;
    destruct (Attempts_store_mem _ _ _ _ _ Hatt) as (Hkeys & Hs4 & Hmax4)
  end.
  { simpl. by rewrite Hsame. }
  { simpl. by rewrite Hsame. }
  simpl in Hkeys, Hmax4, Hclock4. rewrite Hsame in Hkeys, Hmax4.
  cbv zeta in Hphase. rewrite Hphase in Htry. rewrite Htry in Hrun.
  rewrite Hrun. cbn [fst snd].
  split_and!.
  - eexists. split; [reflexivity|]. by intros Hempty.
  - by destruct (0 <? _)%nat.
  - by destruct (0 <? _)%nat.
  - by destruct (0 <? _)%nat.
  - destruct (0 <? _)%nat; simpl; congruence.
Qed.
End EndToEndFacts.

(** X22: the effect of a run on a store in memory that answers and lists
    each backup to delete in one page.  When the run is not a dry run, the
    keys that it leaves are exactly the keys that start with
    [{prefix}/{name}] for no backup dated before the cutoff, in the order of
    the store, whatever the outcomes of the single deletions; a dry run
    leaves every key. *)
Theorem X22_keys_after_a_run
    (process_env : gmap string string) (LocalTZA : Z -> bool -> Z)
    (options : PruneOptions) (w : World MemS3.state) (c : Z)
    (config : Config) (response : ListObjectsV2Output) :
  cutoff LocalTZA (Some (clock w))
    (resolved_days process_env (options_days options)) = Some c ->
  loadConfig process_env = inr config ->
  MemS3.answers config (store w) ->
  fst (listObjectsV2 (createS3Client config) (listing_request config)
         (store w)) = inr response ->
  let toDelete := backupsToDelete (Some c) (listed_backups config response) in
  let under b := prefix (s3 config) +:+ "/" +:+ name b in
  Forall (fun b => (length (MemS3.matching (under b) (store w))
                    <= MemS3.maxKeys (store w))%nat) toDelete ->
  let run := runPrune process_env LocalTZA options w in
  (options_dryRun options <> Some true ->
   forall k,
     In k (MemS3.keys (store (snd run)))
     <-> In k (MemS3.keys (store w))
         /\ forall b, In b toDelete -> JsString.startsWith k (under b) = false)
  /\ (options_dryRun options <> Some true ->
      MemS3.keys (store (snd run))
      = List.filter
          (fun k => negb (existsb (fun b => JsString.startsWith k (under b))
                                  toDelete))
          (MemS3.keys (store w)))
  /\ (options_dryRun options = Some true ->
      MemS3.keys (store (snd run)) = MemS3.keys (store w)).
Proof.
  intros Hc Hconfig Hs Hanswer toDelete under Hfit run. subst run.
  destruct (runPrune_mem process_env LocalTZA options w c config response
              Hc Hconfig Hs Hanswer Hfit) as (_ & Hkeys & _).
  fold toDelete in Hkeys. split_and!.
  - intros Hwet k. rewrite Hkeys, bool_decide_eq_false_2 by done.
    rewrite filter_In, negb_true_iff.
    split; intros [Hk Hnone]; (split; [done|]).
    + intros b Hb. destruct (JsString.startsWith k (under b)) eqn:Hsw; [|done].
      assert (existsb (fun b => JsString.startsWith k (under b)) toDelete = true)
        as Hex by (apply existsb_exists; by exists b).
      subst under. cbv beta in Hex. congruence.
    + destruct (existsb _ toDelete) eqn:Hex; [|done].
      apply existsb_exists in Hex as (b & Hb & Hsw).
      specialize (Hnone b Hb). subst under. cbv beta in Hnone. congruence.
  - intros Hwet. by rewrite Hkeys, bool_decide_eq_false_2.
  - intros Hdry. by rewrite Hkeys, bool_decide_eq_true_2.
Qed.

Lemma X22_keys_after_a_run_witness :
  let w := Demo.world_of ["backups/mongodb/db-2024-01-01/a.gz";
                          "backups/mongodb/db-2024-01-01/b.gz";
                          "backups/mongodb/db-2024-03-09/a.gz";
                          "backups/mongodb/notes.txt"] in
  let run := runPrune Demo.env Demo.utc_zone Demo.no_options w in
  MemS3.keys (store (snd run))
  = ["backups/mongodb/db-2024-03-09/a.gz"; "backups/mongodb/notes.txt"].
Proof.
  intros w run.
  pose (response :=
          {| Contents :=
               Some [{| Key := Some "backups/mongodb/notes.txt" |}];
             CommonPrefixes :=
               Some [{| cp_Prefix := Some "backups/mongodb/db-2024-01-01/" |};
                     {| cp_Prefix := Some "backups/mongodb/db-2024-03-09/" |}] |}).
  assert (cutoff Demo.utc_zone (Some (clock w))
            (resolved_days Demo.env (options_days Demo.no_options))
          = Some 1708862400000) as Hc by (vm_compute; reflexivity).
  assert (loadConfig Demo.env = inr Demo.config) as Hconfig
    by (vm_compute; reflexivity).
  assert (MemS3.answers Demo.config (store w)) as Hs by (split; reflexivity).
  assert (fst (listObjectsV2 (createS3Client Demo.config)
                 (listing_request Demo.config) (store w)) = inr response)
    as Hanswer by (vm_compute; reflexivity).
  assert (options_dryRun Demo.no_options <> Some true) as Hwet by discriminate.
  assert (backupsToDelete (Some 1708862400000)
            (listed_backups Demo.config response)
          = [{| name := "db-2024-01-01"; date := Some 1704067200000 |}])
    as Hold by (vm_compute; reflexivity).
  assert (Forall
            (fun b =>
               (length (MemS3.matching
                          (prefix (s3 Demo.config) +:+ "/" +:+ name b) (store w))
                <= MemS3.maxKeys (store w))%nat)
            (backupsToDelete (Some 1708862400000)
               (listed_backups Demo.config response))) as Hfit.
  { rewrite Hold. constructor; [vm_compute; lia|constructor]. }
  destruct (X22_keys_after_a_run Demo.env Demo.utc_zone Demo.no_options w _ _ _
              Hc Hconfig Hs Hanswer Hfit) as (_ & Hkeys & _).
  subst run. rewrite (Hkeys Hwet), Hold. vm_compute. reflexivity.
Defined.

Section SecondRunFacts.
Import MemS3.

(** On a store that answers, the listing of the backups answers. *)
Lemma listing_answers config (s : state) :
  answers config s ->
  exists response,
    listObjectsV2 (createS3Client config) (listing_request config) s
    = (inr response, s).
Proof.
  intros [Hf Hb]. simpl. unfold list_objects, next_fault. rewrite Hf.
  simpl. rewrite Hb, String.eqb_refl. simpl. by eexists.
Qed.

End SecondRunFacts.



(** ** Which folders survive a run *)

Section SurvivalFacts.
Import JsString.

Lemma startsWith_same_head (p x y : string) :
  startsWith (p +:+ x) (p +:+ y) = startsWith x y.
Proof.
  induction p as [|c p IH]; [by rewrite !app_empty_l|].
  rewrite !app_cons. simpl. by rewrite Ascii.eqb_refl.
Qed.

(** A name without [/] starts a path exactly when it starts the first
    segment of the path. *)
Lemma startsWith_segment (n rest m : string) :
  no_slash m ->
  startsWith (n +:+ "/" +:+ rest) m = startsWith n m.
Proof.
  unfold no_slash. revert m. induction n as [|d n IH]; intros m Hm.
  - rewrite app_empty_l. destruct m as [|c m]; [done|].
    change ("/" +:+ rest) with (String "/"%char rest). simpl.
    destruct (Ascii.eqb_spec c "/"%char) as [->|_]; [|done].
    destruct Hm. by left.
  - rewrite app_cons. destruct m as [|c m]; [done|]. simpl.
    destruct (Ascii.eqb c d); [|done]. apply IH.
    intros Hin. apply Hm. by right.
Qed.
End SurvivalFacts.

(** X24: which objects a run deletes, folder by folder.  On a store in
    memory that answers and lists in one page, after a run that is not a
    dry run an object [{prefix}/{folder}/...] is still in the store exactly
    when no backup dated before the cutoff has a name that [folder] starts
    with.  So the objects of a backup that is deleted are gone, and those
    of a backup that is kept stay unless its name starts with the name of
    a deleted one. *)
Theorem X24_which_folders_survive
    (process_env : gmap string string) (LocalTZA : Z -> bool -> Z)
    (options : PruneOptions) (w : World MemS3.state) (c : Z)
    (config : Config) (response : ListObjectsV2Output) :
  cutoff LocalTZA (Some (clock w))
    (resolved_days process_env (options_days options)) = Some c ->
  loadConfig process_env = inr config ->
  MemS3.answers config (store w) ->
  fst (listObjectsV2 (createS3Client config) (listing_request config)
         (store w)) = inr response ->
  options_dryRun options <> Some true ->
  let toDelete := backupsToDelete (Some c) (listed_backups config response) in
  Forall (fun b =>
            (length (MemS3.matching (prefix (s3 config) +:+ "/" +:+ name b)
                       (store w))
             <= MemS3.maxKeys (store w))%nat) toDelete ->
  let run := runPrune process_env LocalTZA options w in
  forall folder rest,
    In (prefix (s3 config) +:+ "/" +:+ folder +:+ "/" +:+ rest)
       (MemS3.keys (store w)) ->
    (In (prefix (s3 config) +:+ "/" +:+ folder +:+ "/" +:+ rest)
        (MemS3.keys (store (snd run)))
     <-> forall b, In b toDelete -> JsString.startsWith folder (name b) = false).
Proof.
  intros Hc Hconfig Hs Hanswer Hwet toDelete Hfit run folder rest Hk.
  subst run.
  destruct (runPrune_mem process_env LocalTZA options w c config response
              Hc Hconfig Hs Hanswer Hfit) as (_ & Hkeys & _).
  fold toDelete in Hkeys. rewrite bool_decide_eq_false_2 in Hkeys by done.
  assert (forall b, In b toDelete ->
            JsString.startsWith
              (prefix (s3 config) +:+ "/" +:+ folder +:+ "/" +:+ rest)
              (prefix (s3 config) +:+ "/" +:+ name b)
            = JsString.startsWith folder (name b)) as Hsw.
  { intros b [Hb _]%In_backupsToDelete.
    apply In_listed_backups in Hb as (p & _ & Hname & _).
    rewrite !startsWith_same_head. apply startsWith_segment.
    rewrite Hname. apply folder_name_no_slash. }
  rewrite Hkeys, filter_In, negb_true_iff. split.
  - intros [_ Hnone] b Hb. rewrite <- Hsw by done.
    destruct (JsString.startsWith _ (prefix (s3 config) +:+ "/" +:+ name b))
      eqn:Hstart; [|done].
    assert (existsb
              (fun b => JsString.startsWith
                          (prefix (s3 config) +:+ "/" +:+ folder +:+ "/"
                           +:+ rest)
                          (prefix (s3 config) +:+ "/" +:+ name b))
              toDelete = true) as Hex; [|congruence].
    apply existsb_exists. by exists b.
  - intros Hall. split; [done|].
    destruct (existsb _ toDelete) eqn:Hex; [|done].
    apply existsb_exists in Hex as (b & Hb & Hstart).
    rewrite Hsw, Hall in Hstart by done. done.
Qed.

Lemma X24_which_folders_survive_witness :
  let old := "backups/mongodb/db-2024-01-01/a.gz" in
  let sibling := "backups/mongodb/db-2024-01-01-23-59-59/a.gz" in
  let recent := "backups/mongodb/db-2024-01-02/a.gz" in
  let w := MemS3.world (Demo.bucket_of [old; sibling; recent])
                       Demo.mid_january in
  let run := runPrune Demo.env Demo.utc_zone Demo.no_options w in
  In recent (MemS3.keys (store (snd run)))
  /\ ~ In sibling (MemS3.keys (store (snd run)))
  /\ In (LOG, "   ✅ Keeping: 2") (console (snd run)).
Proof.
  intros old sibling recent w run.
  pose (response :=
          {| Contents := None;
             CommonPrefixes :=
               Some [{| cp_Prefix := Some "backups/mongodb/db-2024-01-01/" |};
                     {| cp_Prefix :=
                          Some "backups/mongodb/db-2024-01-01-23-59-59/" |};
                     {| cp_Prefix := Some "backups/mongodb/db-2024-01-02/" |}] |}).
  assert (cutoff Demo.utc_zone (Some (clock w))
            (resolved_days Demo.env (options_days Demo.no_options))
          = Some 1704110400000) as Hc by (vm_compute; reflexivity).
  assert (loadConfig Demo.env = inr Demo.config) as Hconfig
    by (vm_compute; reflexivity).
  assert (MemS3.answers Demo.config (store w)) as Hs by (split; reflexivity).
  assert (fst (listObjectsV2 (createS3Client Demo.config)
                 (listing_request Demo.config) (store w)) = inr response)
    as Hanswer by (vm_compute; reflexivity).
  assert (options_dryRun Demo.no_options <> Some true) as Hwet by discriminate.
  assert (backupsToDelete (Some 1704110400000)
            (listed_backups Demo.config response)
          = [{| name := "db-2024-01-01"; date := Some 1704067200000 |}])
    as Hold by (vm_compute; reflexivity).
  assert (Forall
            (fun b =>
               (length (MemS3.matching
                          (prefix (s3 Demo.config) +:+ "/" +:+ name b) (store w))
                <= MemS3.maxKeys (store w))%nat)
            (backupsToDelete (Some 1704110400000)
               (listed_backups Demo.config response))) as Hfit.
  { rewrite Hold. constructor; [vm_compute; lia|constructor]. }
  pose proof (X24_which_folders_survive Demo.env Demo.utc_zone Demo.no_options
                w _ _ _ Hc Hconfig Hs Hanswer Hwet Hfit) as Hsurvive.
  cbv zeta in Hsurvive. rewrite Hold in Hsurvive.
  assert (In recent (MemS3.keys (store w))) as Hrecent by (simpl; tauto).
  assert (In sibling (MemS3.keys (store w))) as Hsibling by (simpl; tauto).
  pose proof (Hsurvive "db-2024-01-02" "a.gz" Hrecent) as [_ Hstays].
  pose proof (Hsurvive "db-2024-01-01-23-59-59" "a.gz" Hsibling) as [Hgoes _].
  clear Hsurvive. split_and!.
  - apply Hstays. intros b [<-|[]]. reflexivity.
  - intros Hin. specialize (Hgoes Hin _ (or_introl eq_refl)).
    discriminate Hgoes.
  - vm_compute. repeat (first [left; reflexivity|right]).
Defined.
